(** * Order-flow relay: a shallow embedding of the streaming core

    The development follows the Python sources
    [backend/symbol_manager.py], [backend/main.py] and [backend/main_v2.py].
    Times are integers (milliseconds), prices are integers (a price is only
    ever used as a dictionary key), volumes are Python [int]s, that is [Z]. *)

From Stdlib Require Import ZArith List String Ascii Bool Lia Permutation Sorted.
Import ListNotations.
Local Open Scope string_scope.
Local Open Scope list_scope.
Local Open Scope Z_scope.

(** ** Python helpers *)

Module Py.

(** [str.upper] on ASCII text. *)
Definition upper_ascii (c : ascii) : ascii :=
  let n := nat_of_ascii c in
  if (andb (Nat.leb 97 n) (Nat.leb n 122)) then ascii_of_nat (n - 32)%nat else c.

Fixpoint upper (s : string) : string :=
  match s with
  | EmptyString => EmptyString
  | String c s' => String (upper_ascii c) (upper s')
  end.

(** [needle in hay] for two [str] values. *)
Fixpoint contains (needle hay : string) : bool :=
  if String.prefix needle hay then true
  else match hay with
       | EmptyString => false
       | String _ hay' => contains needle hay'
       end.

(** [xs[:stop]] for an [int] stop, negative stops counting from the end. *)
Definition slice_to {A} (stop : Z) (xs : list A) : list A :=
  if (0 <=? stop)%Z then firstn (Z.to_nat stop) xs
  else firstn (Z.to_nat (Z.of_nat (List.length xs) + stop)) xs.

(** A [dict] with string keys: insertion ordered, one binding per key. *)
Section Dict.
Context {V : Type}.

Fixpoint get (k : string) (d : list (string * V)) : option V :=
  match d with
  | [] => None
  | (k', v) :: d' => if String.eqb k k' then Some v else get k d'
  end.

(** [d[k] = v]: an existing key keeps its position, a new one goes last. *)
Fixpoint set (k : string) (v : V) (d : list (string * V)) : list (string * V) :=
  match d with
  | [] => [(k, v)]
  | (k', v') :: d' =>
      if String.eqb k k' then (k, v) :: d' else (k', v') :: set k v d'
  end.

Definition mem (k : string) (d : list (string * V)) : bool :=
  match get k d with Some _ => true | None => false end.
End Dict.

(** [list.sort(key=...)] is stable; insertion sort computes the same list. *)
Section Sort.
Context {A : Type} (key : A -> nat).

Fixpoint insert (x : A) (l : list A) : list A :=
  match l with
  | [] => [x]
  | y :: l' => if Nat.leb (key x) (key y) then x :: l else y :: insert x l'
  end.

Fixpoint sort (l : list A) : list A :=
  match l with
  | [] => []
  | x :: l' => insert x (sort l')
  end.
End Sort.

End Py.

(** ** symbol_manager.py *)

Module Symbols.

(** A symbol-information dict.  A key that is absent reads as the empty
    string, which is what every [info.get(k, '')] of the module returns. *)
Record info := Info {
  token : string;
  name : string;
  sector : string;
  market_cap : string
}.

(** A row of the [symbols] table. *)
Record symbol_row := SymbolRow {
  row_symbol : string;
  row_info : info;
  row_last_updated : Z;
  row_is_active : bool
}.

(** A row of the [symbol_requests] table ([id] is the position). *)
Record request_row := RequestRow {
  req_symbol : string;
  req_status : string
}.

Record manager := Manager {
  symbols_cache : list (string * info);
  symbols_table : list symbol_row;
  symbol_requests : list request_row
}.

Definition empty_manager : manager := Manager [] [] [].

(** What the outside world answers during one call: the two HTTP lookups
    ([None] for a non-200 status, an unusable body or an exception) and
    whether sqlite accepts a statement. *)
Record env := Env {
  dhanhq_api : string -> option info;
  nse_api : string -> option info;
  store_ok : bool
}.

Definition offline : env := Env (fun _ => None) (fun _ => None) true.

(** The lookups a call performs, in order. *)
Inductive lookup :=
| MockLookup (symbol : string)
| DhanhqLookup (symbol : string)
| NseLookup (symbol : string).

Definition mock_symbols : list (string * info) :=
  [ ("AAPL", Info "1234567" "APPLE INC" "Technology" "");
    ("GOOGL", Info "2345678" "ALPHABET INC" "Technology" "");
    ("MSFT", Info "3456789" "MICROSOFT CORP" "Technology" "") ].

Definition _mock_symbol_fetch (symbol : string) : option info :=
  if Py.mem symbol mock_symbols then Py.get symbol mock_symbols else None.

Definition _fetch_symbol_from_api (symbol : string) : option info * list lookup :=
  (_mock_symbol_fetch symbol, [MockLookup symbol]).

Definition _fetch_symbol_alternative (e : env) (symbol : string)
  : option info * list lookup :=
  match dhanhq_api e symbol with
  | Some dhanhq_result => (Some dhanhq_result, [DhanhqLookup symbol])
  | None => (nse_api e symbol, [DhanhqLookup symbol; NseLookup symbol])
  end.

(** [INSERT OR REPLACE INTO symbols]: the row of the same key goes, the new
    row is added. *)
Definition insert_or_replace (r : symbol_row) (t : list symbol_row) : list symbol_row :=
  filter (fun r' => negb (String.eqb (row_symbol r') (row_symbol r))) t ++ [r].

Definition _cache_symbol (e : env) (now : Z) (symbol : string) (i : info)
    (m : manager) : manager :=
  let cache' := Py.set symbol i (symbols_cache m) in
  if store_ok e
  then Manager cache'
         (insert_or_replace (SymbolRow symbol i now true) (symbols_table m))
         (symbol_requests m)
  else Manager cache' (symbols_table m) (symbol_requests m).

Definition _log_unknown_symbol (e : env) (symbol : string) (m : manager) : manager :=
  if store_ok e
  then Manager (symbols_cache m) (symbols_table m)
         (symbol_requests m ++ [RequestRow symbol "unknown"])
  else m.

Definition get_symbol_info (e : env) (now : Z) (symbol : string) (m : manager)
  : option info * manager * list lookup :=
  let symbol := Py.upper symbol in
  if Py.mem symbol (symbols_cache m)
  then (Py.get symbol (symbols_cache m), m, [])
  else
    let '(symbol_info, l1) := _fetch_symbol_from_api symbol in
    match symbol_info with
    | Some i => (Some i, _cache_symbol e now symbol i m, l1)
    | None =>
        let '(symbol_info, l2) := _fetch_symbol_alternative e symbol in
        match symbol_info with
        | Some i => (Some i, _cache_symbol e now symbol i m, l1 ++ l2)
        | None => (None, _log_unknown_symbol e symbol m, l1 ++ l2)
        end
    end.

(** An entry of a search result. *)
Record hit := Hit {
  hit_symbol : string;
  hit_token : string;
  hit_name : string;
  hit_sector : string;
  hit_market_cap : string
}.

Definition matches (query : string) (entry : string * info) : bool :=
  let '(symbol, i) := entry in
  Py.contains query symbol
  || Py.contains query (Py.upper (name i))
  || Py.contains query (Py.upper (sector i)).

Definition to_hit (entry : string * info) : hit :=
  let '(symbol, i) := entry in
  Hit symbol (token i) (name i) (sector i) (market_cap i).

(** The sort key of [search_symbols]. *)
Definition relevance (query : string) (x : hit) : nat :=
  if String.eqb query (hit_symbol x) then 0%nat
  else if Py.contains query (hit_symbol x) then 1%nat
  else if Py.contains query (Py.upper (hit_name x)) then 2%nat
  else 3%nat.

(** The list [results] before it is sorted. *)
Definition candidates (query : string) (m : manager) : list hit :=
  map to_hit (filter (matches query) (symbols_cache m)).

Definition search_symbols (query : string) (limit : Z) (m : manager) : list hit :=
  let query := Py.upper query in
  let results := candidates query m in
  let results := Py.sort (relevance query) results in
  Py.slice_to limit results.

(** Rows by [last_updated], latest first ([ORDER BY last_updated DESC]);
    rows of equal [last_updated] are left in table order. *)
Fixpoint insert_latest_first (r : symbol_row) (rows : list symbol_row)
  : list symbol_row :=
  match rows with
  | [] => [r]
  | r' :: rows' =>
      if Z.leb (row_last_updated r') (row_last_updated r) then r :: rows
      else r' :: insert_latest_first r rows'
  end.

Fixpoint latest_first (rows : list symbol_row) : list symbol_row :=
  match rows with
  | [] => []
  | r :: rows' => insert_latest_first r (latest_first rows')
  end.

(** [SELECT ... FROM symbols WHERE is_active = 1 ORDER BY last_updated DESC]. *)
Definition select_active (t : list symbol_row) : list symbol_row :=
  latest_first (filter row_is_active t).

(** [_load_cached_symbols]: a sqlite error is caught and leaves the cache. *)
Definition _load_cached_symbols (e : env) (m : manager) : manager :=
  if store_ok e
  then Manager
         (fold_left (fun cache r => Py.set (row_symbol r) (row_info r) cache)
            (select_active (symbols_table m)) (symbols_cache m))
         (symbols_table m) (symbol_requests m)
  else m.

(** [SymbolManager()] over the tables of an earlier run: the cache starts
    empty and is loaded; [_init_database] is not guarded, so a sqlite error
    leaves no manager. *)
Definition __init__ (e : env) (symbols : list symbol_row)
    (requests : list request_row) : option manager :=
  if store_ok e then Some (_load_cached_symbols e (Manager [] symbols requests))
  else None.





(** Thirty days, in the unit of the clock. *)
Definition retention : Z := 30 * 86400 * 1000.

(** [cleanup_old_symbols], called at [now]. *)
Definition cleanup_old_symbols (e : env) (now : Z) (m : manager) : manager :=
  let cutoff_date := now - retention in
  if store_ok e
  then Manager (symbols_cache m)
         (map (fun r =>
                 if (row_last_updated r <? cutoff_date)%Z
                 then SymbolRow (row_symbol r) (row_info r) (row_last_updated r) false
                 else r)
              (symbols_table m))
         (symbol_requests m)
  else m.

Definition get_symbol_count (m : manager) : nat := List.length (symbols_cache m).

End Symbols.

(** ** Data shared by main.py and main_v2.py *)

Module Wire.

(** A viewer connection (a [WebSocket] object), named by a number. *)
Definition session := nat.

(** One value of the [aggregated_trades] dict. *)
Record level := Level {
  total_volume : Z;
  buy_volume : Z;
  sell_volume : Z;
  trade_count : Z;
  timestamp : Z
}.

Definition fresh_level (timestamp : Z) : level := Level 0 0 0 0 timestamp.

(** [if price not in d: d[price] = fresh] followed by the in-place updates
    [f] of [d[price]]; the dict keeps insertion order. *)
Fixpoint bump (price : Z) (f : level -> level) (fresh : level)
    (d : list (Z * level)) : list (Z * level) :=
  match d with
  | [] => [(price, f fresh)]
  | (p, l) :: d' =>
      if Z.eqb price p then (p, f l) :: d' else (p, l) :: bump price f fresh d'
  end.

(** A value made by [json.loads], as far as the handlers tell values
    apart: the contents of a float, an array or an object play no part in
    what they do with it. *)
Inductive json :=
| JNull
| JBool (b : bool)
| JInt (n : Z)
| JFloat
| JString (s : string)
| JArray
| JObject.

(** The JSON envelopes sent to viewers. *)
Inductive message :=
| DepthUpdate (instrument_token : string) (bids asks : list (Z * Z))
| QuoteUpdate (instrument_token : string) (ltp volume : Z)
| AggregatedTrades (data : list (Z * level)) (timestamp : Z)
| MarketStatus (is_market_hours : bool)
| OffMarketData (symbol : string) (timeframe : json)
| Pong (timestamp : Z)
| SymbolChanged (symbol : string) (source : option string)
    (symbol_info : Symbols.info) (data_mode : string)
| SymbolError (symbol : string) (text : string)
| SymbolSearchResults (query : json) (results : list Symbols.hit).

Inductive exn :=
| UnboundLocalError (name : string)
| AttributeError
| TypeError
| JSONDecodeError
| WebSocketDisconnect
| ConnectionClosed
| TransportError.

Inductive outcome :=
| Returned
| Raised (e : exn).

(** What the run leaves behind: log lines, sleeps, frames written. *)
Inductive event :=
| LogInfo (text : string)
| LogWarning (text : string)
| LogError (text : string)
| LogDebug (text : string)
| Sleep (seconds : Z)
| Subscribe (instrument_token : string)
| BroadcastCall (m : message)
| SendText (to : session) (m : message).

(** The scoping of one function body: the names it binds and the names it
    declares [global].  A bound name that is not declared global is local
    to the call, and unbound when the call starts. *)
Record scope := Scope {
  bound_names : list string;
  global_names : list string
}.

Definition is_local (sc : scope) (x : string) : bool :=
  existsb (String.eqb x) (bound_names sc)
  && negb (existsb (String.eqb x) (global_names sc)).

(** The outside world during one step: the symbol sources, whether the
    feed transport opens and takes a frame, which viewers take a frame,
    and whether the historical collaborator has data. *)
Record world := World {
  lookup_env : Symbols.env;
  transport_opens : bool;
  upstream_accepts : bool;
  viewer_accepts : session -> bool;
  history_available : string -> json -> bool
}.

(** Whether [get_off_market_data(symbol, timeframe)] returns data rather
    than an error dict.  [days_map.get(timeframe, 1)] raises on a key that
    cannot be hashed, and the function turns every exception into an error
    dict; for any other timeframe the answer is the collaborator's. *)
Definition off_market_data (w : world) (symbol : string) (timeframe : json) : bool :=
  match timeframe with
  | JArray | JObject => false
  | _ => history_available w symbol timeframe
  end.

(** [clients - disconnected] on sets. *)
Definition difference (clients disconnected : list session) : list session :=
  filter (fun c => negb (existsb (Nat.eqb c) disconnected)) clients.

(** The [for client in connected_clients] loop of [broadcast_to_clients]:
    the sessions collected in [disconnected_clients] and the frames sent. *)
Fixpoint send_all (w : world) (m : message) (clients : list session)
  : list session * list event :=
  match clients with
  | [] => ([], [])
  | client :: rest =>
      let '(disconnected, sent) := send_all w m rest in
      if viewer_accepts w client
      then (disconnected, SendText client m :: sent)
      else (client :: disconnected, LogError "Error sending to client" :: sent)
  end.

(** The body of [broadcast_to_clients], the same text in both files, under
    a given scoping of its names.  No statement binds [connected_clients]
    before the first line reads it. *)
Definition broadcast_body (sc : scope) (w : world) (m : message)
    (connected_clients : list session)
  : outcome * list session * list event :=
  if is_local sc "connected_clients"
  then (Raised (UnboundLocalError "connected_clients"), connected_clients, [])
  else
    match connected_clients with
    | [] => (Returned, connected_clients, [])
    | _ =>
        let '(disconnected_clients, sent) := send_all w m connected_clients in
        (Returned, difference connected_clients disconnected_clients, sent)
    end.

(** [broadcast_to_clients] binds five names and has no [global] statement. *)
Definition broadcast_scope : scope :=
  Scope ["message_str"; "disconnected_clients"; "client"; "e"; "connected_clients"] [].

Definition broadcast_to_clients := broadcast_body broadcast_scope.

End Wire.

(** ** main.py *)

Module Main.
Import Wire.

(** [TradeData]: an element of [tick_buffer]. *)
Record tick := Tick {
  price : Z;
  quantity : Z;
  side : string;
  tick_timestamp : Z
}.

Record client := Client {
  connected : bool;
  reconnect_attempts : Z;
  max_reconnect_attempts : Z
}.

(** The module globals, the two manager objects and the trace. *)
Record state := State {
  connected_clients : list session;
  current_symbol : string;
  tick_buffer : list tick;
  last_aggregation_time : Z;
  dhan_client : client;
  symbol_manager : Symbols.manager;
  clock : Z;
  trace : list event
}.

Definition new_client : client := Client false 0 5.

Definition initial (now : Z) : state :=
  State [] "RELIANCE" [] now new_client Symbols.empty_manager now [].

Definition emit (evs : list event) (st : state) : state :=
  State (connected_clients st) (current_symbol st) (tick_buffer st)
    (last_aggregation_time st) (dhan_client st) (symbol_manager st)
    (clock st) (trace st ++ evs).

Definition with_client (c : client) (st : state) : state :=
  State (connected_clients st) (current_symbol st) (tick_buffer st)
    (last_aggregation_time st) c (symbol_manager st) (clock st) (trace st).

Definition with_manager (m : Symbols.manager) (st : state) : state :=
  State (connected_clients st) (current_symbol st) (tick_buffer st)
    (last_aggregation_time st) (dhan_client st) m (clock st) (trace st).

Definition with_clients (cs : list session) (st : state) : state :=
  State cs (current_symbol st) (tick_buffer st)
    (last_aggregation_time st) (dhan_client st) (symbol_manager st)
    (clock st) (trace st).

Definition with_symbol (s : string) (st : state) : state :=
  State (connected_clients st) s (tick_buffer st)
    (last_aggregation_time st) (dhan_client st) (symbol_manager st)
    (clock st) (trace st).

Definition with_buffer (b : list tick) (last : Z) (st : state) : state :=
  State (connected_clients st) (current_symbol st) b last
    (dhan_client st) (symbol_manager st) (clock st) (trace st).

Definition at_time (now : Z) (st : state) : state :=
  State (connected_clients st) (current_symbol st) (tick_buffer st)
    (last_aggregation_time st) (dhan_client st) (symbol_manager st)
    now (trace st).

Definition set_connected (b : bool) (st : state) : state :=
  with_client (Client b (reconnect_attempts (dhan_client st))
                 (max_reconnect_attempts (dhan_client st))) st.

Definition set_attempts (n : Z) (st : state) : state :=
  with_client (Client (connected (dhan_client st)) n
                 (max_reconnect_attempts (dhan_client st))) st.

(** [broadcast_to_clients(message)] on the module state. *)
Definition broadcast (w : world) (m : message) (st : state) : outcome * state :=
  let '(o, clients, sent) :=
    broadcast_to_clients w m (connected_clients st) in
  (o, emit sent (with_clients clients (emit [BroadcastCall m] st))).

(** *** Tick aggregation *)

(** [deque(maxlen=10000).append]. *)
Definition maxlen : nat := Z.to_nat 10000.

Definition deque_append (t : tick) (buffer : list tick) : list tick :=
  if Nat.ltb (List.length buffer) maxlen then buffer ++ [t]
  else tl buffer ++ [t].

(** The updates of [aggregated_trades[price]] for one tick. *)
Definition add_tick (t : tick) (l : level) : level :=
  let total := total_volume l + quantity t in
  let count := trade_count l + 1 in
  if String.eqb (side t) "buy"
  then Level total (buy_volume l + quantity t) (sell_volume l) count (timestamp l)
  else Level total (buy_volume l) (sell_volume l + quantity t) count (timestamp l).

(** The dict [aggregated_trades] after the loop over the buffer. *)
Definition aggregated_trades (current_time : Z) (buffer : list tick)
  : list (Z * level) :=
  fold_left
    (fun d t => bump (price t) (add_tick t) (fresh_level current_time) d)
    buffer [].

(** [aggregate_ticks()], called at [clock st]. *)
Definition aggregate_ticks (w : world) (st : state) : outcome * state :=
  let current_time := clock st in
  if current_time - last_aggregation_time st <? 100 then (Returned, st)
  else
    let aggregated := aggregated_trades current_time (tick_buffer st) in
    let st := with_buffer [] current_time st in
    match aggregated with
    | [] => (Returned, st)
    | _ => broadcast w (AggregatedTrades aggregated current_time) st
    end.

(** *** The feed client, [DhanWebSocketClient] *)

Definition DEFAULT_SYMBOLS : list (string * Symbols.info) :=
  [ ("RELIANCE", Symbols.Info "2885633" "RELIANCE" "" "");
    ("TCS", Symbols.Info "2953217" "TCS" "" "");
    ("HDFCBANK", Symbols.Info "341249" "HDFC BANK" "" "");
    ("INFY", Symbols.Info "408065" "INFOSYS" "" "");
    ("ITC", Symbols.Info "424961" "ITC" "" "");
    ("BHARTIARTL", Symbols.Info "2714625" "BHARTI AIRTEL" "" "");
    ("SBIN", Symbols.Info "779521" "STATE BANK OF INDIA" "" "");
    ("ASIANPAINT", Symbols.Info "60417" "ASIAN PAINTS" "" "");
    ("KOTAKBANK", Symbols.Info "492033" "KOTAK MAHINDRA BANK" "" "");
    ("MARUTI", Symbols.Info "2815745" "MARUTI SUZUKI" "" "") ].

(** [await symbol_manager.get_symbol_info(symbol)] on the module state. *)
Definition resolve (w : world) (symbol : string) (st : state)
  : option Symbols.info * state :=
  let '(symbol_info, m, _) :=
    Symbols.get_symbol_info (lookup_env w) (clock st) symbol (symbol_manager st) in
  (symbol_info, with_manager m st).

Definition subscribe_market_depth (w : world) (st : state) : outcome * state :=
  if negb (connected (dhan_client st)) then (Returned, st)
  else
    let '(symbol_info, st) := resolve w (current_symbol st) st in
    let symbol_info :=
      match symbol_info with
      | Some i => Some i
      | None => Py.get (current_symbol st) DEFAULT_SYMBOLS
      end in
    match symbol_info with
    | None => (Returned, emit [LogError "Unknown symbol"] st)
    | Some i =>
        if upstream_accepts w
        then (Returned,
              emit [Subscribe (Symbols.token i); LogInfo "Subscribed to market depth"] st)
        else (Raised TransportError, st)
    end.

(** [handle_reconnect], with the call of [connect] it ends in passed as
    [connect]; [rest] is the part of the script no attempt has used. *)
Definition handle_reconnect
    (connect : state -> option (state * list world)) (rest : list world)
    (st : state) : option (state * list world) :=
  if reconnect_attempts (dhan_client st) <? max_reconnect_attempts (dhan_client st)
  then
    let st := set_attempts (reconnect_attempts (dhan_client st) + 1) st in
    let wait_time := Z.min (2 ^ reconnect_attempts (dhan_client st)) 30 in
    let st := emit [LogInfo "Reconnecting"; Sleep wait_time] st in
    connect (at_time (clock st + 1000 * wait_time) st)
  else Some (emit [LogError "Max reconnection attempts reached"] st, rest).

(** The [try] block of [connect]. *)
Definition connect_try (w : world) (st : state) : outcome * state :=
  if transport_opens w
  then
    let st := set_connected true st in
    let st := set_attempts 0 st in
    let st := emit [LogInfo "Connected to DhanHQ WebSocket"] st in
    subscribe_market_depth w st
  else (Raised TransportError, st).

(** [connect]: each attempt reads the next world of the script; [None]
    when the script ends before the call returns.  A retry is a call inside
    the call that failed ([connect] awaits [handle_reconnect], which awaits
    [connect]), so the interpreter follows a script only as far as its
    recursion limit lets the calls nest; the statements about long scripts
    carry a bound on their length. *)
Fixpoint connect (script : list world) (st : state)
  : option (state * list world) :=
  match script with
  | [] => None
  | w :: script' =>
      match connect_try w st with
      | (Returned, st) => Some (st, script')
      | (Raised _, st) =>
          let st := emit [LogError "Failed to connect to DhanHQ"] st in
          let st := set_connected false st in
          handle_reconnect (connect script') script' st
      end
  end.

(** A decoded feed message: the keys the handlers read. *)
Record envelope := Envelope {
  env_type : option string;
  env_instrument_token : option string;
  env_bids : list (Z * Z);
  env_asks : list (Z * Z);
  env_price : option Z;
  env_quantity : option Z;
  env_side : option string;
  env_ltp : option Z;
  env_volume : option Z;
  env_message : option string
}.

(** A received text and what [json.loads] makes of it. *)
Inductive frame :=
| NotJson (raw : string)
| NotAnObject
| Object (data : envelope).

Definition default {A} (d : A) (o : option A) : A :=
  match o with Some x => x | None => d end.

Definition process_market_depth (w : world) (data : envelope) (st : state) : state :=
  let depth_update :=
    DepthUpdate (default "" (env_instrument_token data)) (env_bids data) (env_asks data) in
  match broadcast w depth_update st with
  | (Returned, st) => st
  | (Raised _, st) => emit [LogError "Error processing market depth"] st
  end.

Definition process_quote (w : world) (data : envelope) (st : state) : state :=
  let quote_data :=
    QuoteUpdate (default "" (env_instrument_token data))
      (default 0 (env_ltp data)) (default 0 (env_volume data)) in
  match broadcast w quote_data st with
  | (Returned, st) => st
  | (Raised _, st) => emit [LogError "Error processing quote"] st
  end.

Definition process_tick (w : world) (data : envelope) (st : state) : state :=
  let trade_data :=
    Tick (default 0 (env_price data)) (default 0 (env_quantity data))
      (default "unknown" (env_side data)) (clock st) in
  let st :=
    with_buffer (deque_append trade_data (tick_buffer st))
      (last_aggregation_time st) st in
  match aggregate_ticks w st with
  | (Returned, st) => st
  | (Raised _, st) => emit [LogError "Error processing tick"] st
  end.

Definition process_message (w : world) (message : frame) (st : state) : state :=
  match message with
  | NotJson raw => emit [LogError ("Invalid JSON received: " ++ raw)] st
  | NotAnObject => emit [LogError "Error processing message"] st
  | Object data =>
      let message_type := default "" (env_type data) in
      if String.eqb message_type "market_depth" then process_market_depth w data st
      else if String.eqb message_type "tick" then process_tick w data st
      else if String.eqb message_type "quote" then process_quote w data st
      else if String.eqb message_type "error"
      then emit [LogError ("DhanHQ WebSocket error: "
                           ++ default "Unknown error" (env_message data))] st
      else emit [LogDebug ("Received message type: " ++ message_type)] st
  end.

(** What [await self.websocket.recv()] yields. *)
Inductive feed_event :=
| Received (message : frame) (w : world) (at_ : Z)
| Closed
| ReadError.

(** [listen]: the loop runs while [connected]; it stops consuming when the
    events end (the task then waits in [recv]). *)
Fixpoint listen (events : list feed_event) (script : list world) (st : state)
  : option (state * list feed_event) :=
  if negb (connected (dhan_client st)) then Some (st, events)
  else
    match events with
    | [] => Some (st, [])
    | Received message w at_ :: events' =>
        listen events' script (process_message w message (at_time at_ st))
    | Closed :: events' =>
        let st := emit [LogWarning "DhanHQ WebSocket connection closed"] st in
        let st := set_connected false st in
        match handle_reconnect (connect script) script st with
        | None => None
        | Some (st, script') => listen events' script' st
        end
    | ReadError :: events' =>
        listen events' script (emit [LogError "Error processing message"] st)
    end.

(** *** The viewer endpoint, [websocket_endpoint]

    The [global current_symbol] statement of the function is read as
    covering its whole body. *)

(** A decoded viewer message that is a dict: the keys the handler reads,
    each absent or holding any JSON value. *)
Record command := Command {
  cmd_type : option json;
  cmd_symbol : option json;
  cmd_timeframe : option json;
  cmd_query : option json;
  cmd_limit : option json
}.

(** [data.get("type") == t]. *)
Definition is_type (data : command) (t : string) : bool :=
  match cmd_type data with
  | Some (JString t') => String.eqb t' t
  | _ => false
  end.

(** Sequencing of calls that may raise. *)
Definition and_then (r : outcome * state) (k : state -> outcome * state)
  : outcome * state :=
  match r with
  | (Returned, st) => k st
  | (Raised e, st) => (Raised e, st)
  end.

Notation "r >>> k" := (and_then r k) (at level 61, left associativity).

(** [await websocket.send_text(json.dumps(m))]. *)
Definition send_text (w : world) (websocket : session) (m : message)
    (st : state) : outcome * state :=
  if viewer_accepts w websocket
  then (Returned, emit [SendText websocket m] st)
  else (Raised WebSocketDisconnect, st).

(** [get_off_market_data] followed by the send guarded by
    ["error" not in historical_data]. *)
Definition send_historical (w : world) (websocket : session)
    (symbol : string) (timeframe : json) (st : state) : outcome * state :=
  if off_market_data w symbol timeframe
  then send_text w websocket (OffMarketData symbol timeframe) st
  else (Returned, st).

(** The two arms that follow a successful lookup. *)
Definition switch_symbol (w : world) (websocket : session)
    (is_market_hours : bool) (new_symbol source : string)
    (symbol_info : Symbols.info) (st : state) : outcome * state :=
  let st := with_symbol new_symbol st in
  if is_market_hours
  then
    subscribe_market_depth w st >>> 
    send_text w websocket (SymbolChanged new_symbol (Some source) symbol_info "live")
  else
    send_historical w websocket new_symbol (JString "1min") st >>> 
    send_text w websocket
      (SymbolChanged new_symbol (Some source) symbol_info "historical").

(** [new_symbol = data.get("symbol")] is handed to [get_symbol_info], whose
    first line, [symbol.upper()], raises on anything but a string. *)
Definition change_symbol (w : world) (websocket : session)
    (is_market_hours : bool) (data : command) (st : state) : outcome * state :=
  match default JNull (cmd_symbol data) with
  | JNull | JBool _ | JInt _ | JFloat | JArray | JObject =>
      (Raised AttributeError, st)
  | JString new_symbol =>
      let '(symbol_info, st) := resolve w new_symbol st in
      match symbol_info with
      | Some i => switch_symbol w websocket is_market_hours new_symbol "dynamic" i st
      | None =>
          match Py.get new_symbol DEFAULT_SYMBOLS with
          | Some i => switch_symbol w websocket is_market_hours new_symbol "default" i st
          | None =>
              send_text w websocket
                (SymbolError new_symbol
                   "Symbol not found. Please check the symbol name or try searching for it first.")
                st
          end
      end
  end.

Definition change_timeframe (w : world) (websocket : session)
    (is_market_hours : bool) (data : command) (st : state) : outcome * state :=
  if negb is_market_hours
  then
    let timeframe := default (JString "1min") (cmd_timeframe data) in
    send_historical w websocket (current_symbol st) timeframe st
  else (Returned, st).

(** [await symbol_manager.search_symbols(query, limit)] on decoded values:
    [query.upper()] raises on anything but a string, and [results[:limit]]
    on a bound that is neither an integer (a [bool] is one) nor [None],
    which leaves the list whole. *)
Definition call_search_symbols (query limit : json) (m : Symbols.manager)
  : exn + list Symbols.hit :=
  match query with
  | JString q =>
      match limit with
      | JInt n => inr (Symbols.search_symbols q n m)
      | JBool b => inr (Symbols.search_symbols q (if b then 1 else 0) m)
      | JNull =>
          inr (Py.sort (Symbols.relevance (Py.upper q))
                 (Symbols.candidates (Py.upper q) m))
      | JFloat | JString _ | JArray | JObject => inl TypeError
      end
  | JNull | JBool _ | JInt _ | JFloat | JArray | JObject => inl AttributeError
  end.

Definition search_request (w : world) (websocket : session) (data : command)
    (st : state) : outcome * state :=
  let query := default (JString "") (cmd_query data) in
  let limit := default (JInt 20) (cmd_limit data) in
  match call_search_symbols query limit (symbol_manager st) with
  | inl e => (Raised e, st)
  | inr results => send_text w websocket (SymbolSearchResults query results) st
  end.

(** One turn of the [while True] loop, after [json.loads]. *)
Definition handle_command (w : world) (websocket : session)
    (is_market_hours : bool) (data : command) (st : state) : outcome * state :=
  if is_type data "ping"
  then send_text w websocket (Pong (clock st)) st
  else
    (if is_type data "change_symbol"
     then change_symbol w websocket is_market_hours data st
     else (Returned, st)) >>> 
    (fun st =>
       if is_type data "change_timeframe"
       then change_timeframe w websocket is_market_hours data st
       else (Returned, st)) >>> 
    (fun st =>
       if is_type data "search_symbols"
       then search_request w websocket data st
       else (Returned, st)).

(** What [json.loads] makes of a received text: nothing (the text is not
    JSON), a value that is no dict (the first [data.get] then raises), or a
    dict. *)
Inductive decoded :=
| Undecodable
| NotADict
| Dict (data : command).

(** What [await websocket.receive_text()] yields. *)
Inductive viewer_event :=
| Text (data : decoded) (w : world) (at_ : Z)
| Gone.

Definition discard (websocket : session) (st : state) : state :=
  with_clients (filter (fun c => negb (Nat.eqb c websocket)) (connected_clients st)) st.

Definition on_exception (websocket : session) (e : exn) (st : state) : state :=
  match e with
  | WebSocketDisconnect => emit [LogInfo "Client disconnected"] (discard websocket st)
  | _ => discard websocket (emit [LogError "WebSocket error"] st)
  end.

(** The receive loop of the endpoint. *)
Fixpoint serve (websocket : session) (is_market_hours : bool)
    (events : list viewer_event) (st : state) : state :=
  match events with
  | [] => st
  | Gone :: _ => on_exception websocket WebSocketDisconnect st
  | Text Undecodable _ _ :: _ => on_exception websocket JSONDecodeError st
  | Text NotADict _ _ :: _ => on_exception websocket AttributeError st
  | Text (Dict data) w at_ :: events' =>
      match handle_command w websocket is_market_hours data (at_time at_ st) with
      | (Returned, st) => serve websocket is_market_hours events' st
      | (Raised e, st) => on_exception websocket e st
      end
  end.

(** Registration of a set member. *)
Definition add (websocket : session) (clients : list session) : list session :=
  if existsb (Nat.eqb websocket) clients then clients else clients ++ [websocket].

Definition websocket_endpoint (w : world) (websocket : session)
    (is_market_hours : bool) (events : list viewer_event) (st : state) : state :=
  let st := with_clients (add websocket (connected_clients st)) st in
  let st := emit [LogInfo "Client connected"] st in
  match send_text w websocket (MarketStatus is_market_hours) st with
  | (Raised _, st) => st
  | (Returned, st) =>
      let st :=
        if negb is_market_hours
        then
          match send_historical w websocket (current_symbol st) (JString "1min") st with
          | (Returned, st) => st
          | (Raised _, st) => emit [LogError "Error sending historical data"] st
          end
        else st in
      serve websocket is_market_hours events st
  end.

(** *** HTTP routes *)

(** The answer of [POST /symbols/request]. *)
Inductive request_status :=
| Exists_
| Added (symbol_info : Symbols.info)
| Pending.

Definition request_symbol (w : world) (symbol : string) (st : state)
  : request_status * state * list Symbols.lookup :=
  let symbol := Py.upper symbol in
  if Py.mem symbol (Symbols.symbols_cache (symbol_manager st))
  then (Exists_, st, [])
  else
    let '(symbol_info, m, lookups) :=
      Symbols.get_symbol_info (lookup_env w) (clock st) symbol (symbol_manager st) in
    match symbol_info with
    | Some i => (Added i, with_manager m st, lookups)
    | None => (Pending, with_manager m st, lookups)
    end.

(** An HTTP answer: the JSON body or the status of an [HTTPException]. *)
Inductive http (A : Type) :=
| Body (a : A)
| HttpError (status : Z).
Arguments Body {A} a.
Arguments HttpError {A} status.

(** [GET /off-market/{symbol}]: the [HTTPException(404)] is raised inside
    the [try] whose handler turns every exception into a 500. *)
Definition get_off_market_visualization (w : world) (symbol timeframe : string)
    (st : state) : http message * state :=
  let symbol := Py.upper symbol in
  let attempt : http message * state :=
    if off_market_data w symbol (JString timeframe)
    then
      let data := OffMarketData symbol (JString timeframe) in
      match broadcast w data st with
      | (Returned, st) => (Body data, st)
      | (Raised _, st) => (HttpError 500, st)
      end
    else (HttpError 404, st) in
  match attempt with
  | (Body data, st) => (Body data, st)
  | (HttpError _, st) =>
      (HttpError 500, emit [LogError "Error getting off-market data"] st)
  end.

End Main.

(** ** main_v2.py *)

Module MainV2.
Import Wire.

(** An element of [tick_buffer]: a dict read with [tick.get]. *)
Record tick := Tick {
  price : option Z;
  quantity : option Z;
  tick_timestamp : option Z
}.

Record state := State {
  connected_clients : list session;
  current_symbol : string;
  current_security_id : string;
  tick_buffer : list tick;
  last_aggregation_time : Z;
  symbol_manager : Symbols.manager;
  clock : Z;
  trace : list event
}.

(** The Supabase manager when it is set and available. *)
Record supabase := Supabase {
  get_symbol : string -> option Symbols.info;
  search_symbols : json -> json -> list Symbols.hit
}.

(** The world of main_v2: [dhan_manager] is [None] when the global is
    unset, and otherwise tells whether [subscribe_symbol] returns. *)
Record world2 := World2 {
  base : world;
  supabase_manager : option supabase;
  dhan_manager : option bool
}.

Definition initial (now : Z) : state :=
  State [] "RELIANCE" "2885633" [] now Symbols.empty_manager now [].

Definition emit (evs : list event) (st : state) : state :=
  State (connected_clients st) (current_symbol st) (current_security_id st)
    (tick_buffer st) (last_aggregation_time st) (symbol_manager st)
    (clock st) (trace st ++ evs).

Definition with_manager (m : Symbols.manager) (st : state) : state :=
  State (connected_clients st) (current_symbol st) (current_security_id st)
    (tick_buffer st) (last_aggregation_time st) m (clock st) (trace st).

Definition with_clients (cs : list session) (st : state) : state :=
  State cs (current_symbol st) (current_security_id st)
    (tick_buffer st) (last_aggregation_time st) (symbol_manager st)
    (clock st) (trace st).

Definition with_symbol (s id : string) (st : state) : state :=
  State (connected_clients st) s id
    (tick_buffer st) (last_aggregation_time st) (symbol_manager st)
    (clock st) (trace st).

Definition with_buffer (b : list tick) (last : Z) (st : state) : state :=
  State (connected_clients st) (current_symbol st) (current_security_id st)
    b last (symbol_manager st) (clock st) (trace st).

Definition at_time (now : Z) (st : state) : state :=
  State (connected_clients st) (current_symbol st) (current_security_id st)
    (tick_buffer st) (last_aggregation_time st) (symbol_manager st)
    now (trace st).

Definition default {A} (d : A) (o : option A) : A :=
  match o with Some x => x | None => d end.

Definition broadcast (w : world) (m : message) (st : state) : outcome * state :=
  let '(o, clients, sent) :=
    broadcast_to_clients w m (connected_clients st) in
  (o, emit sent (with_clients clients (emit [BroadcastCall m] st))).

(** *** Tick aggregation *)

Definition maxlen : nat := Z.to_nat 10000.

Definition deque_append (t : tick) (buffer : list tick) : list tick :=
  if Nat.ltb (List.length buffer) maxlen then buffer ++ [t]
  else tl buffer ++ [t].

(** The updates of [aggregated_trades[price]] for one tick; [//] is [Z.div]. *)
Definition add_tick (t : tick) (l : level) : level :=
  let quantity := default 0 (quantity t) in
  Level (total_volume l + quantity)
    (buy_volume l + quantity / 2)
    (sell_volume l + (quantity - quantity / 2))
    (trade_count l + 1)
    (timestamp l).

Definition aggregated_trades (current_time : Z) (buffer : list tick)
  : list (Z * level) :=
  fold_left
    (fun d t =>
       bump (default 0 (price t)) (add_tick t)
         (fresh_level (default current_time (tick_timestamp t))) d)
    buffer [].

Definition aggregate_ticks (w : world) (st : state) : outcome * state :=
  let current_time := clock st in
  if current_time - last_aggregation_time st <? 100 then (Returned, st)
  else
    match tick_buffer st with
    | [] => (Returned, st)
    | _ =>
        let aggregated := aggregated_trades current_time (tick_buffer st) in
        let st := with_buffer [] current_time st in
        match aggregated with
        | [] => (Returned, st)
        | _ => broadcast w (AggregatedTrades aggregated current_time) st
        end
    end.

Definition handle_trade_update (w : world) (data : tick) (st : state) : state :=
  let st :=
    with_buffer (deque_append data (tick_buffer st)) (last_aggregation_time st) st in
  match aggregate_ticks w st with
  | (Returned, st) => st
  | (Raised _, st) => emit [LogError "Error handling trade update"] st
  end.

(** *** The viewer endpoint *)

Definition is_type (data : Main.command) (t : string) : bool :=
  match Main.cmd_type data with
  | Some (JString t') => String.eqb t' t
  | _ => false
  end.

Definition and_then (r : outcome * state) (k : state -> outcome * state)
  : outcome * state :=
  match r with
  | (Returned, st) => k st
  | (Raised e, st) => (Raised e, st)
  end.

Notation "r >>> k" := (and_then r k) (at level 61, left associativity).

Definition send_text (w : world) (websocket : session) (m : message)
    (st : state) : outcome * state :=
  if viewer_accepts w websocket
  then (Returned, emit [SendText websocket m] st)
  else (Raised WebSocketDisconnect, st).

Definition send_historical (w : world) (websocket : session)
    (symbol : string) (timeframe : json) (st : state) : outcome * state :=
  if off_market_data w symbol timeframe
  then send_text w websocket (OffMarketData symbol timeframe) st
  else (Returned, st).

Definition resolve (w : world2) (symbol : string) (st : state)
  : option Symbols.info * state :=
  let from_database :=
    match supabase_manager w with
    | Some db => get_symbol db symbol
    | None => None
    end in
  match from_database with
  | Some i => (Some i, st)
  | None =>
      let '(symbol_info, m, _) :=
        Symbols.get_symbol_info (lookup_env (base w)) (clock st) symbol
          (symbol_manager st) in
      (symbol_info, with_manager m st)
  end.

(** [new_symbol = data.get('symbol', '').upper()] raises on a symbol that
    is present and no string.  The upsert of the symbol into Supabase leaves
    this state as it is. *)
Definition change_symbol (w : world2) (websocket : session)
    (is_market_hours : bool) (data : Main.command) (st : state) : outcome * state :=
  match default (JString "") (Main.cmd_symbol data) with
  | JNull | JBool _ | JInt _ | JFloat | JArray | JObject =>
      (Raised AttributeError, st)
  | JString symbol =>
      let new_symbol := Py.upper symbol in
      let '(symbol_info, st) := resolve w new_symbol st in
      match symbol_info with
      | Some i =>
          let st := with_symbol new_symbol (Symbols.token i) st in
          let subscribe_failed (st : state) :=
            send_text (base w) websocket (SymbolError new_symbol "Error subscribing")
              (emit [LogError "Error subscribing to symbol"] st) in
          match (if is_market_hours then dhan_manager w else None) with
          | Some true =>
              match send_text (base w) websocket
                      (SymbolChanged new_symbol None i "live")
                      (emit [Subscribe (Symbols.token i)] st) with
              | (Returned, st) => (Returned, st)
              | (Raised _, st) => subscribe_failed st
              end
          | Some false => subscribe_failed st
          | None =>
              send_historical (base w) websocket new_symbol (JString "1min") st >>> 
              send_text (base w) websocket (SymbolChanged new_symbol None i "historical")
          end
      | None =>
          send_text (base w) websocket (SymbolError new_symbol "Symbol not found") st
      end
  end.

Definition change_timeframe (w : world2) (websocket : session)
    (is_market_hours : bool) (data : Main.command) (st : state) : outcome * state :=
  if negb is_market_hours
  then
    let timeframe := default (JString "1min") (Main.cmd_timeframe data) in
    send_historical (base w) websocket (current_symbol st) timeframe st
  else (Returned, st).

(** The database is asked first; only when it gives nothing is
    [symbol_manager.search_symbols] called, which raises on a query or a
    limit of the wrong type. *)
Definition search_request (w : world2) (websocket : session)
    (data : Main.command) (st : state) : outcome * state :=
  let query := default (JString "") (Main.cmd_query data) in
  let limit := default (JInt 20) (Main.cmd_limit data) in
  let results :=
    match supabase_manager w with
    | Some db => search_symbols db query limit
    | None => []
    end in
  match results with
  | [] =>
      match Main.call_search_symbols query limit (symbol_manager st) with
      | inl e => (Raised e, st)
      | inr results =>
          send_text (base w) websocket (SymbolSearchResults query results) st
      end
  | _ => send_text (base w) websocket (SymbolSearchResults query results) st
  end.

Definition handle_command (w : world2) (websocket : session)
    (is_market_hours : bool) (data : Main.command) (st : state) : outcome * state :=
  if is_type data "ping"
  then send_text (base w) websocket (Pong (clock st)) st
  else
    (if is_type data "change_symbol"
     then change_symbol w websocket is_market_hours data st
     else (Returned, st)) >>> 
    (fun st =>
       if is_type data "change_timeframe"
       then change_timeframe w websocket is_market_hours data st
       else (Returned, st)) >>> 
    (fun st =>
       if is_type data "search_symbols"
       then search_request w websocket data st
       else (Returned, st)).

(** *** Feed callbacks *)

(** [handle_depth_update]: the state, and the rows inserted into
    [market_data] (one when Supabase is available and the line is reached). *)
Definition handle_depth_update (w : world2) (data : message) (st : state)
  : state * list message :=
  match broadcast (base w) data st with
  | (Returned, st) =>
      match supabase_manager w with
      | Some _ => (st, [data])
      | None => (st, [])
      end
  | (Raised _, st) => (emit [LogError "Error handling depth update"] st, [])
  end.

Definition handle_ticker_update (w : world2) (data : message) (st : state) : state :=
  match broadcast (base w) data st with
  | (Returned, st) => st
  | (Raised _, st) => emit [LogError "Error handling ticker update"] st
  end.

End MainV2.

(** ** historical_data_manager.py

    Prices and times are integers; the two float computations of the
    module, [int(volume * 0.7)] and the rounded interpolated price, are
    taken as given functions. *)

Module Historical.

Record candle := Candle {
  open : Z;
  high : Z;
  low : Z;
  close : Z;
  volume : Z;
  candle_timestamp : Z
}.

Record volume_profile := VolumeProfile {
  vp_price : Z;
  vp_volume : Z;
  vp_buy_volume : Z;
  vp_sell_volume : Z;
  vp_timestamp : Z
}.

(** A simulated tick of [simulate_order_flow]. *)
Record flow_tick := FlowTick {
  ft_price : Z;
  ft_quantity : Z;
  ft_side : string;
  ft_timestamp : Z
}.

Section Floats.
Variable seventy_percent : Z -> Z.
Variable interpolate : candle -> Z -> Z -> Z.

Definition profile_of (c : candle) : volume_profile :=
  if (open c <? close c)%Z then
    let buy_volume := seventy_percent (volume c) in
    let sell_volume := volume c - buy_volume in
    VolumeProfile (close c) (volume c) buy_volume sell_volume (candle_timestamp c)
  else if (close c <? open c)%Z then
    let sell_volume := seventy_percent (volume c) in
    let buy_volume := volume c - sell_volume in
    VolumeProfile (close c) (volume c) buy_volume sell_volume (candle_timestamp c)
  else
    let buy_volume := volume c / 2 in
    let sell_volume := volume c - buy_volume in
    VolumeProfile (close c) (volume c) buy_volume sell_volume (candle_timestamp c).

Definition generate_volume_profile (candles : list candle) : list volume_profile :=
  map profile_of candles.

(** [range(n)] as integers; empty for [n <= 0]. *)
Definition range (n : Z) : list Z := map Z.of_nat (seq 0 (Z.to_nat n)).

Definition ticks_per_candle (c : candle) : Z := Z.min (volume c / 100) 50.

(** The tick that the inner loop appends for index [i]; time is in
    milliseconds, so [i * 0.1] seconds is [100 * i]. *)
Definition flow_tick_at (c : candle) (i : Z) : flow_tick :=
  let n := ticks_per_candle c in
  let price :=
    if (0 <? high c - low c)%Z then interpolate c i n else close c in
  let side :=
    if (open c <? close c)%Z
    then (if negb (Z.eqb (i mod 3) 0) then "buy" else "sell")
    else (if negb (Z.eqb (i mod 3) 0) then "sell" else "buy") in
  let quantity := Z.max 1 (volume c / n) in
  FlowTick price quantity side (candle_timestamp c + 100 * i).

Definition candle_flow (c : candle) : list flow_tick :=
  map (flow_tick_at c) (range (ticks_per_candle c)).

Definition simulate_order_flow (candles : list candle) : list flow_tick :=
  flat_map candle_flow candles.
End Floats.

End Historical.

(** ** Observations used in the statements *)

Module Obs.
Import Wire.

(** Sum of [total_volume] over the values of an [aggregated_trades] dict. *)
Definition sum_total (d : list (Z * level)) : Z :=
  fold_right (fun e acc => total_volume (snd e) + acc) 0 d.

Definition balanced (l : level) : Prop :=
  buy_volume l + sell_volume l = total_volume l.

Definition sum_quantity (buffer : list Main.tick) : Z :=
  fold_right (fun t acc => Main.quantity t + acc) 0 buffer.

Definition sum_quantity2 (buffer : list MainV2.tick) : Z :=
  fold_right (fun t acc => MainV2.default 0 (MainV2.quantity t) + acc) 0 buffer.

(** The durations slept, in order. *)
Fixpoint sleeps (tr : list event) : list Z :=
  match tr with
  | [] => []
  | Sleep s :: tr' => s :: sleeps tr'
  | _ :: tr' => sleeps tr'
  end.

(** The subscribe frames written to the feed, in order. *)
Fixpoint subscribes (tr : list event) : list string :=
  match tr with
  | [] => []
  | Subscribe t :: tr' => t :: subscribes tr'
  | _ :: tr' => subscribes tr'
  end.

(** The frames written to one viewer, in order. *)
Fixpoint frames_to (websocket : session) (tr : list event) : list message :=
  match tr with
  | [] => []
  | SendText to_ m :: tr' =>
      if Nat.eqb to_ websocket then m :: frames_to websocket tr'
      else frames_to websocket tr'
  | _ :: tr' => frames_to websocket tr'
  end.

(** [x] comes before [y] in [l]. *)
Definition precedes {A} (x y : A) (l : list A) : Prop :=
  exists l1 l2 l3, l = l1 ++ x :: l2 ++ y :: l3.

(** [last_updated] of a symbol in the durable table. *)
Definition last_updated (m : Symbols.manager) (symbol : string) : option Z :=
  match find (fun r => String.eqb (Symbols.row_symbol r) symbol)
          (Symbols.symbols_table m) with
  | Some r => Some (Symbols.row_last_updated r)
  | None => None
  end.

(** Results of equal relevance come with the later [last_updated] first. *)
Definition ties_by_last_updated (query : string) (m : Symbols.manager)
    (results : list Symbols.hit) : Prop :=
  forall i j x y tx ty,
    (i < j)%nat ->
    nth_error results i = Some x -> nth_error results j = Some y ->
    Symbols.relevance query x = Symbols.relevance query y ->
    last_updated m (Symbols.hit_symbol x) = Some tx ->
    last_updated m (Symbols.hit_symbol y) = Some ty ->
    ty <= tx.

(** An acknowledgement of [change_symbol]. *)
Definition is_symbol_reply (m : message) : Prop :=
  match m with
  | SymbolChanged _ _ _ _ | SymbolError _ _ => True
  | _ => False
  end.

(** A decoded field that holds a string. *)
Definition is_string (v : json) : Prop :=
  match v with
  | JString _ => True
  | _ => False
  end.

(** A decoded field that [results[:limit]] takes as its bound: an integer,
    a [bool] or [None]. *)
Definition is_bound (v : json) : Prop :=
  match v with
  | JInt _ | JBool _ | JNull => True
  | _ => False
  end.

(** The state in which [handle_reconnect] calls [connect] again. *)
Definition retrying (st : Main.state) : Main.state :=
  let n := Main.reconnect_attempts (Main.dhan_client st) + 1 in
  let wait_time := Z.min (2 ^ n) 30 in
  Main.at_time (Main.clock st + 1000 * wait_time)
    (Main.emit [Wire.LogInfo "Reconnecting"; Wire.Sleep wait_time]
       (Main.set_attempts n st)).

(** The state in which a failed [connect] calls [handle_reconnect]. *)
Definition failed (st : Main.state) : Main.state :=
  Main.set_connected false (Main.emit [Wire.LogError "Failed to connect to DhanHQ"] st).

End Obs.

(** ** Measures used in the further statements *)

Module Measures.
Import Wire.

(** The keys of a cache or of a table. *)
Definition cache_keys (m : Symbols.manager) : list string :=
  map fst (Symbols.symbols_cache m).

Definition table_keys (t : list Symbols.symbol_row) : list string :=
  map Symbols.row_symbol t.

(** A row is fresh at [now] when the sweep of that time leaves it. *)
Definition fresh_at (now : Z) (r : Symbols.symbol_row) : bool :=
  Symbols.row_is_active r
  && negb (Symbols.row_last_updated r <? now - Symbols.retention).

(** The ticks of a buffer at one price. *)
Definition ticks_at (p : Z) (buffer : list Main.tick) : list Main.tick :=
  filter (fun t => Z.eqb (Main.price t) p) buffer.

Definition buy_quantity (buffer : list Main.tick) : Z :=
  fold_right
    (fun t acc => (if String.eqb (Main.side t) "buy" then Main.quantity t else 0) + acc)
    0 buffer.

(** The record that the ticks of one price add up to. *)
Definition summary (now : Z) (ticks : list Main.tick) : option level :=
  match ticks with
  | [] => None
  | _ =>
      Some (Level (Obs.sum_quantity ticks) (buy_quantity ticks)
              (Obs.sum_quantity ticks - buy_quantity ticks)
              (Z.of_nat (List.length ticks)) now)
  end.

(** [d.get(price)] on an [aggregated_trades] dict. *)
Fixpoint level_at (p : Z) (d : list (Z * level)) : option level :=
  match d with
  | [] => None
  | (p', l) :: d' => if Z.eqb p p' then Some l else level_at p d'
  end.

(** The spread between the two halves of a record of main_v2.py. *)
Definition skew_bounded (l : level) : Prop :=
  0 <= sell_volume l - buy_volume l <= trade_count l /\ 0 <= trade_count l.

(** A step that registers and unregisters nobody and writes to no viewer. *)
Definition quiet (st st' : Main.state) : Prop :=
  Main.connected_clients st' = Main.connected_clients st
  /\ exists evs,
       Main.trace st' = Main.trace st ++ evs
       /\ forall websocket, Obs.frames_to websocket evs = [].

(** A world whose transport opens and whose feed refuses the frame. *)
Definition refusing (w : world) : Prop :=
  transport_opens w = true /\ upstream_accepts w = false.

(** No built-in, cached or remote source knows the symbol. *)
Definition unknown_everywhere (e : Symbols.env) (m : Symbols.manager)
    (symbol : string) : Prop :=
  let s := Py.upper symbol in
  Py.mem s (Symbols.symbols_cache m) = false
  /\ Symbols._mock_symbol_fetch s = None
  /\ Symbols.dhanhq_api e s = None
  /\ Symbols.nse_api e s = None.

Definition flow_quantity (ticks : list Historical.flow_tick) : Z :=
  fold_right (fun t acc => Historical.ft_quantity t + acc) 0 ticks.

End Measures.

(** * Properties *)

(** ** Tick aggregation *)

Section BumpFacts.
Import Wire Obs.
Variables (f : level -> level) (fresh : level) (q : Z).
Hypothesis f_total : forall l, total_volume (f l) = total_volume l + q.
Hypothesis fresh_total : total_volume fresh = 0.
Hypothesis f_balanced : forall l, balanced l -> balanced (f l).
Hypothesis fresh_balanced : balanced fresh.

Lemma bump_sum_total p d : sum_total (bump p f fresh d) = sum_total d + q.
Proof.
  induction d as [|[p' l] d IH]; simpl.
  - rewrite f_total, fresh_total. lia.
  - destruct (Z.eqb p p'); simpl.
    + rewrite f_total. lia.
    + rewrite IH. lia.
Qed.

Lemma bump_balanced p d :
  Forall (fun e => balanced (snd e)) d ->
  Forall (fun e => balanced (snd e)) (bump p f fresh d).
Proof.
  induction 1 as [|[p' l] d Hl Hd IH]; simpl.
  - constructor; [apply f_balanced, fresh_balanced | constructor].
  - destruct (Z.eqb p p'); constructor; simpl; auto.
Qed.
End BumpFacts.

Lemma bump_not_nil p f fresh d : Wire.bump p f fresh d <> [].
Proof. destruct d as [|[p' l] d]; simpl; [|destruct (Z.eqb p p')]; discriminate. Qed.

Lemma add_tick_total t l :
  Wire.total_volume (Main.add_tick t l) = Wire.total_volume l + Main.quantity t.
Proof. unfold Main.add_tick. destruct (String.eqb _ _); reflexivity. Qed.

Lemma add_tick_balanced t l : Obs.balanced l -> Obs.balanced (Main.add_tick t l).
Proof.
  unfold Obs.balanced, Main.add_tick. destruct (String.eqb _ _); simpl; lia.
Qed.

Lemma add_tick2_balanced t l : Obs.balanced l -> Obs.balanced (MainV2.add_tick t l).
Proof. unfold Obs.balanced, MainV2.add_tick. simpl. lia. Qed.

Lemma fresh_balanced ts : Obs.balanced (Wire.fresh_level ts).
Proof. reflexivity. Qed.

(** The loop of main.py, from any dict built so far. *)
Lemma fold_v1_facts now buffer : forall d,
  let d' := fold_left
      (fun d t => Wire.bump (Main.price t) (Main.add_tick t) (Wire.fresh_level now) d)
      buffer d in
  Obs.sum_total d' = Obs.sum_total d + Obs.sum_quantity buffer
  /\ (Forall (fun e => Obs.balanced (snd e)) d ->
      Forall (fun e => Obs.balanced (snd e)) d')
  /\ (buffer <> [] -> d' <> []).
Proof.
  induction buffer as [|t buffer IH]; intros d; simpl.
  - split; [lia | split; [auto | congruence]].
  - destruct (IH (Wire.bump (Main.price t) (Main.add_tick t) (Wire.fresh_level now) d))
      as (Hs & Hb & Hn).
    repeat split.
    + rewrite Hs, (bump_sum_total _ _ (Main.quantity t)); [lia | apply add_tick_total | reflexivity].
    + intros Hd. apply Hb, bump_balanced; auto using add_tick_balanced, fresh_balanced.
    + intros _. destruct buffer as [|t' buffer'].
      * simpl. apply bump_not_nil.
      * apply Hn. discriminate.
Qed.

(** The loop of main_v2.py, from any dict built so far. *)
Lemma fold_v2_facts now buffer : forall d,
  let d' := fold_left
      (fun d t =>
         Wire.bump (MainV2.default 0 (MainV2.price t)) (MainV2.add_tick t)
           (Wire.fresh_level (MainV2.default now (MainV2.tick_timestamp t))) d)
      buffer d in
  Obs.sum_total d' = Obs.sum_total d + Obs.sum_quantity2 buffer
  /\ (Forall (fun e => Obs.balanced (snd e)) d ->
      Forall (fun e => Obs.balanced (snd e)) d')
  /\ (buffer <> [] -> d' <> []).
Proof.
  induction buffer as [|t buffer IH]; intros d; simpl.
  - split; [lia | split; [auto | congruence]].
  - match goal with |- context [fold_left ?g buffer ?d0] =>
      destruct (IH d0) as (Hs & Hb & Hn) end.
    repeat split.
    + rewrite Hs, (bump_sum_total _ _ (MainV2.default 0 (MainV2.quantity t)));
        [lia | reflexivity | reflexivity].
    + intros Hd. apply Hb, bump_balanced; auto using add_tick2_balanced, fresh_balanced.
    + intros _. destruct buffer as [|t' buffer'].
      * simpl. apply bump_not_nil.
      * apply Hn. discriminate.
Qed.

Lemma broadcast_to_clients_raises w m clients :
  Wire.broadcast_to_clients w m clients
  = (Wire.Raised (Wire.UnboundLocalError "connected_clients"), clients, []).
Proof. reflexivity. Qed.

(** C1. Every flush of [aggregate_ticks], in main.py and in main_v2.py: the
    records handed to [broadcast_to_clients] carry total volumes that add up
    to the quantities of the buffered ticks, each record has
    [buy_volume + sell_volume = total_volume], a non-empty buffer yields a
    non-empty payload, and the buffer is empty afterwards. *)
Theorem aggregate_ticks_conserves_volume :
  (forall w st,
      100 <= Main.clock st - Main.last_aggregation_time st ->
      let data := Main.aggregated_trades (Main.clock st) (Main.tick_buffer st) in
      let st' := snd (Main.aggregate_ticks w st) in
      Obs.sum_total data = Obs.sum_quantity (Main.tick_buffer st)
      /\ Forall (fun e => Obs.balanced (snd e)) data
      /\ (Main.tick_buffer st <> [] -> data <> [])
      /\ Main.tick_buffer st' = []
      /\ Main.trace st' = Main.trace st ++
           match data with
           | [] => []
           | _ => [Wire.BroadcastCall (Wire.AggregatedTrades data (Main.clock st))]
           end)
  /\
  (forall w st,
      100 <= MainV2.clock st - MainV2.last_aggregation_time st ->
      let data := MainV2.aggregated_trades (MainV2.clock st) (MainV2.tick_buffer st) in
      let st' := snd (MainV2.aggregate_ticks w st) in
      Obs.sum_total data = Obs.sum_quantity2 (MainV2.tick_buffer st)
      /\ Forall (fun e => Obs.balanced (snd e)) data
      /\ (MainV2.tick_buffer st <> [] -> data <> [])
      /\ MainV2.tick_buffer st' = []
      /\ MainV2.trace st' = MainV2.trace st ++
           match data with
           | [] => []
           | _ => [Wire.BroadcastCall (Wire.AggregatedTrades data (MainV2.clock st))]
           end).
Proof.
  split; intros w st Hwin data st'.
  - destruct (fold_v1_facts (Main.clock st) (Main.tick_buffer st) []) as (Hs & Hb & Hn).
    fold (Main.aggregated_trades (Main.clock st) (Main.tick_buffer st)) in Hs, Hb, Hn.
    fold data in Hs, Hb, Hn.
    split; [exact Hs|]. split; [apply Hb; constructor|]. split; [exact Hn|].
    subst st'. unfold Main.aggregate_ticks.
    apply Z.ltb_ge in Hwin. rewrite Hwin. fold data.
    destruct data as [|e data']; simpl.
    + split; [reflexivity | symmetry; apply app_nil_r].
    + split; [reflexivity | apply app_nil_r].
  - destruct (fold_v2_facts (MainV2.clock st) (MainV2.tick_buffer st) []) as (Hs & Hb & Hn).
    fold (MainV2.aggregated_trades (MainV2.clock st) (MainV2.tick_buffer st)) in Hs, Hb, Hn.
    fold data in Hs, Hb, Hn.
    split; [exact Hs|]. split; [apply Hb; constructor|]. split; [exact Hn|].
    subst st'. unfold MainV2.aggregate_ticks.
    apply Z.ltb_ge in Hwin. rewrite Hwin.
    destruct (MainV2.tick_buffer st) as [|t buffer] eqn:Hbuf.
    + subst data. simpl. split; [exact Hbuf | symmetry; apply app_nil_r].
    + fold data. destruct data as [|e data']; simpl.
      * split; [reflexivity | symmetry; apply app_nil_r].
      * split; [reflexivity | apply app_nil_r].
Qed.

Lemma aggregate_ticks_conserves_volume_witness :
  let w := Wire.World Symbols.offline true true (fun _ => true) (fun _ _ => false) in
  let buffer := [Main.Tick 2500 10 "buy" 0; Main.Tick 2500 7 "sell" 20;
                 Main.Tick 2501 3 "unknown" 40] in
  let st := Main.State [1%nat] "RELIANCE" buffer 0 Main.new_client
              Symbols.empty_manager 150 [] in
  let buffer2 := [MainV2.Tick (Some 2500) (Some 7) (Some 5); MainV2.Tick (Some 2500) (Some 4) None] in
  let st2 := MainV2.State [1%nat] "RELIANCE" "2885633" buffer2 0
               Symbols.empty_manager 150 [] in
  (Obs.sum_total (Main.aggregated_trades 150 buffer) = 20
   /\ Main.trace (snd (Main.aggregate_ticks w st))
      = [Wire.BroadcastCall
           (Wire.AggregatedTrades
              [(2500, Wire.Level 17 10 7 2 150); (2501, Wire.Level 3 0 3 1 150)] 150)])
  /\ (Obs.sum_total (MainV2.aggregated_trades 150 buffer2) = 11
      /\ MainV2.trace (snd (MainV2.aggregate_ticks w st2))
         = [Wire.BroadcastCall
              (Wire.AggregatedTrades [(2500, Wire.Level 11 5 6 2 5)] 150)]).
Proof.
  intros w buffer st buffer2 st2.
  destruct aggregate_ticks_conserves_volume as [H1 H2].
  split.
  - destruct (H1 w st) as (Hs & _ & _ & _ & Ht); [simpl; lia|].
    split; [exact Hs | exact Ht].
  - destruct (H2 w st2) as (Hs & _ & _ & _ & Ht); [simpl; lia|].
    split; [exact Hs | exact Ht].
Defined.

(** C4, as stated, fails in main.py: a tick of side "unknown" and quantity
    10 adds nothing to [buy_volume] and all 10 to [sell_volume]. *)
Lemma unknown_side_goes_to_sell :
  let t := Main.Tick 2500 10 "unknown" 0 in
  let l := Main.add_tick t (Wire.fresh_level 0) in
  Main.side t = "unknown"
  /\ Wire.buy_volume l = 0
  /\ Wire.sell_volume l = 10
  /\ Wire.buy_volume l <> Main.quantity t / 2
  /\ Main.aggregated_trades 0 [t] = [(2500, Wire.Level 10 0 10 1 0)].
Proof. repeat split. discriminate. Qed.

(** C4, amended. In main_v2.py every tick adds [quantity // 2] (half,
    rounded down) to [buy_volume] and the rest (half, rounded up) to
    [sell_volume]; in main.py a tick whose side is not "buy", "unknown"
    included, adds its whole quantity to [sell_volume] and nothing to
    [buy_volume], and a "buy" tick the reverse.  In both files the two
    contributions add up to the quantity of the tick. *)
Theorem tick_contributions :
  (forall t l,
      let q := MainV2.default 0 (MainV2.quantity t) in
      let l' := MainV2.add_tick t l in
      Wire.buy_volume l' = Wire.buy_volume l + q / 2
      /\ Wire.sell_volume l' = Wire.sell_volume l + (q - q / 2)
      /\ 2 * (q / 2) <= q < 2 * (q / 2) + 2
      /\ q <= 2 * (q - q / 2) < q + 2
      /\ q / 2 + (q - q / 2) = q)
  /\
  (forall t l,
      let q := Main.quantity t in
      let l' := Main.add_tick t l in
      (Main.side t <> "buy" ->
       Wire.buy_volume l' = Wire.buy_volume l
       /\ Wire.sell_volume l' = Wire.sell_volume l + q)
      /\ (Main.side t = "buy" ->
          Wire.buy_volume l' = Wire.buy_volume l + q
          /\ Wire.sell_volume l' = Wire.sell_volume l)
      /\ (Wire.buy_volume l' - Wire.buy_volume l)
         + (Wire.sell_volume l' - Wire.sell_volume l) = q).
Proof.
  split; intros t l q l'.
  - subst l'. unfold MainV2.add_tick. fold q.
    cbn [Wire.buy_volume Wire.sell_volume]. clearbody q.
    pose proof (Z.div_mod q 2 ltac:(lia)) as Hq.
    pose proof (Z.mod_pos_bound q 2 ltac:(lia)) as Hm.
    repeat split; lia.
  - subst l'. unfold Main.add_tick. fold q.
    destruct (String.eqb (Main.side t) "buy") eqn:E; simpl.
    + apply String.eqb_eq in E. repeat split; intros; try lia; congruence.
    + apply String.eqb_neq in E. repeat split; intros; try lia; congruence.
Qed.

Lemma tick_contributions_witness :
  let t := Main.Tick 2500 7 "unknown" 0 in
  let l := Wire.Level 20 12 8 3 0 in
  Main.side t <> "buy"
  /\ Wire.buy_volume (Main.add_tick t l) = 12
  /\ Wire.sell_volume (Main.add_tick t l) = 15
  /\ Wire.buy_volume (MainV2.add_tick (MainV2.Tick (Some 2500) (Some 7) None) l) = 15
  /\ Wire.sell_volume (MainV2.add_tick (MainV2.Tick (Some 2500) (Some 7) None) l) = 12.
Proof.
  intros t l.
  destruct tick_contributions as [H2 H1].
  destruct (H1 t l) as (Hu & _ & _).
  assert (Hside : Main.side t <> "buy") by (simpl; discriminate).
  destruct (Hu Hside) as [Hb Hs].
  destruct (H2 (MainV2.Tick (Some 2500) (Some 7) None) l) as (Hb2 & Hs2 & _).
  split; [exact Hside|]. split; [exact Hb|]. split; [exact Hs|].
  split; [exact Hb2 | exact Hs2].
Defined.

(** ** Broadcast *)

(** The loop and the removal do what they are written for once the name is
    the module's set, as a [global connected_clients] statement makes it. *)
Lemma broadcast_body_with_global_prunes w m clients :
  let sc := Wire.Scope (Wire.bound_names Wire.broadcast_scope) ["connected_clients"] in
  clients <> [] ->
  NoDup clients ->
  exists sent,
    Wire.broadcast_body sc w m clients
    = (Wire.Returned, filter (Wire.viewer_accepts w) clients, sent)
    /\ forall c, In c clients ->
         (Wire.viewer_accepts w c = true <-> In (Wire.SendText c m) sent).
Proof.
  intros sc Hne Hnd.
  assert (Hloop : forall cs,
    fst (Wire.send_all w m cs) = filter (fun c => negb (Wire.viewer_accepts w c)) cs
    /\ forall c, (In c cs /\ Wire.viewer_accepts w c = true)
                 <-> In (Wire.SendText c m) (snd (Wire.send_all w m cs))).
  { induction cs as [|c cs [IH1 IH2]]; simpl.
    - split; [reflexivity | intros c; tauto].
    - destruct (Wire.send_all w m cs) as [d s] eqn:E. simpl in IH1, IH2.
      destruct (Wire.viewer_accepts w c) eqn:A; simpl.
      + split; [exact IH1|]. intros c'. rewrite <- IH2. split.
        * intros [[->|Hin] Hacc]; [left; reflexivity | right; tauto].
        * intros [Heq|[Hin Hacc]]; [inversion Heq; subst; tauto | tauto].
      + split; [now rewrite IH1|]. intros c'. rewrite <- IH2. split.
        * intros [[->|Hin] Hacc]; [congruence | right; tauto].
        * intros [Heq|[Hin Hacc]]; [discriminate | tauto]. }
  destruct (Hloop clients) as [Hd Hs].
  unfold Wire.broadcast_body. change (Wire.is_local sc "connected_clients") with false.
  cbv iota. destruct clients as [|c0 cs0] eqn:Hc; [congruence|]. rewrite <- Hc in *.
  destruct (Wire.send_all w m clients) as [d s] eqn:E. simpl in Hd, Hs.
  exists s. split.
  - f_equal. f_equal. unfold Wire.difference. apply filter_ext_in.
    intros c Hin. rewrite Hd.
    destruct (Wire.viewer_accepts w c) eqn:A.
    + destruct (existsb (Nat.eqb c) _) eqn:X; [|reflexivity].
      apply existsb_exists in X. destruct X as (c' & Hin' & Heq).
      apply Nat.eqb_eq in Heq. subst c'. apply filter_In in Hin'.
      rewrite A in Hin'. destruct Hin' as [_ Hf]. discriminate.
    + assert (X : existsb (Nat.eqb c)
                    (filter (fun c => negb (Wire.viewer_accepts w c)) clients) = true).
      { apply existsb_exists. exists c. split; [|apply Nat.eqb_refl].
        apply filter_In. rewrite A. tauto. }
      now rewrite X.
  - intros c Hin. rewrite <- Hs. tauto.
Qed.

(** C3 (the code does not do it). [broadcast_to_clients] binds
    [connected_clients] in its last line and declares it nowhere global, so
    its first line raises: with three sessions of which the second refuses
    the frame, nothing is sent and all three stay registered. *)
Theorem broadcast_raises_before_any_send :
  let w := Wire.World Symbols.offline true true
             (fun c => negb (Nat.eqb c 2)) (fun _ _ => false) in
  let st := Main.with_clients [1; 2; 3]%nat (Main.initial 0) in
  let m := Wire.QuoteUpdate "2885633" 2500 10 in
  Wire.broadcast_to_clients w m [1; 2; 3]%nat
  = (Wire.Raised (Wire.UnboundLocalError "connected_clients"), [1; 2; 3]%nat, [])
  /\ fst (Main.broadcast w m st) = Wire.Raised (Wire.UnboundLocalError "connected_clients")
  /\ Main.connected_clients (snd (Main.broadcast w m st)) = [1; 2; 3]%nat
  /\ Obs.frames_to 1%nat (Main.trace (snd (Main.broadcast w m st))) = []
  /\ Obs.frames_to 3%nat (Main.trace (snd (Main.broadcast w m st))) = []
  /\ fst (MainV2.broadcast w m (MainV2.with_clients [1; 2; 3]%nat (MainV2.initial 0)))
     = Wire.Raised (Wire.UnboundLocalError "connected_clients").
Proof. repeat split. Qed.

Lemma broadcast_body_with_global_example :
  let w := Wire.World Symbols.offline true true
             (fun c => negb (Nat.eqb c 2)) (fun _ _ => false) in
  let sc := Wire.Scope (Wire.bound_names Wire.broadcast_scope) ["connected_clients"] in
  let m := Wire.QuoteUpdate "2885633" 2500 10 in
  Wire.broadcast_body sc w m [1; 2; 3]%nat
  = (Wire.Returned, [1; 3]%nat,
     [Wire.SendText 1%nat m; Wire.LogError "Error sending to client"; Wire.SendText 3%nat m]).
Proof. reflexivity. Qed.

(** ** Reconnection *)

Lemma sleeps_app tr1 tr2 : Obs.sleeps (tr1 ++ tr2) = Obs.sleeps tr1 ++ Obs.sleeps tr2.
Proof.
  induction tr1 as [|e tr1 IH]; simpl; [reflexivity|].
  destruct e; simpl; rewrite ?IH; reflexivity.
Qed.

Lemma subscribes_app tr1 tr2 :
  Obs.subscribes (tr1 ++ tr2) = Obs.subscribes tr1 ++ Obs.subscribes tr2.
Proof.
  induction tr1 as [|e tr1 IH]; simpl; [reflexivity|].
  destruct e; simpl; rewrite ?IH; reflexivity.
Qed.

Lemma handle_reconnect_retries k rest st :
  Main.reconnect_attempts (Main.dhan_client st)
  < Main.max_reconnect_attempts (Main.dhan_client st) ->
  Main.handle_reconnect k rest st = k (Obs.retrying st).
Proof.
  intros H. unfold Main.handle_reconnect.
  apply Z.ltb_lt in H. rewrite H. reflexivity.
Qed.

Lemma handle_reconnect_gives_up k rest st :
  Main.max_reconnect_attempts (Main.dhan_client st)
  <= Main.reconnect_attempts (Main.dhan_client st) ->
  Main.handle_reconnect k rest st
  = Some (Main.emit [Wire.LogError "Max reconnection attempts reached"] st, rest).
Proof.
  intros H. unfold Main.handle_reconnect.
  apply Z.ltb_ge in H. rewrite H. reflexivity.
Qed.

Lemma connect_down w script st :
  Wire.transport_opens w = false ->
  Main.connect (w :: script) st
  = Main.handle_reconnect (Main.connect script) script (Obs.failed st).
Proof.
  intros H. simpl. unfold Main.connect_try. rewrite H. reflexivity.
Qed.

(** One failed attempt followed by the wait before the next one. *)
Lemma connect_down_retry w script st :
  Wire.transport_opens w = false ->
  Main.reconnect_attempts (Main.dhan_client st)
  < Main.max_reconnect_attempts (Main.dhan_client st) ->
  Main.connect (w :: script) st = Main.connect script (Obs.retrying (Obs.failed st)).
Proof.
  intros H Hlt. rewrite connect_down by exact H.
  apply handle_reconnect_retries. exact Hlt.
Qed.

Lemma resolve_frame w symbol st :
  let st' := snd (Main.resolve w symbol st) in
  Main.dhan_client st' = Main.dhan_client st
  /\ Main.trace st' = Main.trace st
  /\ Main.connected_clients st' = Main.connected_clients st
  /\ Main.current_symbol st' = Main.current_symbol st
  /\ Main.clock st' = Main.clock st.
Proof.
  unfold Main.resolve.
  destruct (Symbols.get_symbol_info _ _ _ _) as [[i m] l]. repeat split.
Qed.

Lemma subscribe_market_depth_frame w st :
  let st' := snd (Main.subscribe_market_depth w st) in
  Main.dhan_client st' = Main.dhan_client st
  /\ exists evs, Main.trace st' = Main.trace st ++ evs.
Proof.
  unfold Main.subscribe_market_depth.
  destruct (negb _); [split; [reflexivity | exists []; symmetry; apply app_nil_r]|].
  pose proof (resolve_frame w (Main.current_symbol st) st) as (Hc & Ht & _).
  destruct (Main.resolve w (Main.current_symbol st) st) as [i st1]. simpl in Hc, Ht.
  destruct i as [i|]; [|destruct (Py.get _ _) as [i|]];
    try destruct (Wire.upstream_accepts w); simpl; rewrite ?Ht;
    (split; [exact Hc | eexists; try reflexivity]).
  all: symmetry; apply app_nil_r.
Qed.

(** C2, as stated, fails: attempt 5 can fail and be followed by another
    attempt.  The transport is down for the first attempt and four retries;
    at the fifth retry it opens, which puts the counter back to 0, and the
    feed refuses the subscribe frame.  That attempt has failed, and the
    client waits 2 seconds and tries a sixth time; "Max reconnection
    attempts reached" is never logged. *)
Lemma retry_after_failed_attempt_five :
  let down := Wire.World Symbols.offline false false (fun _ => true) (fun _ _ => false) in
  let refused := Wire.World Symbols.offline true false (fun _ => true) (fun _ _ => false) in
  let up := Wire.World Symbols.offline true true (fun _ => true) (fun _ _ => false) in
  let failed := Wire.LogError "Failed to connect to DhanHQ" in
  let again := Wire.LogInfo "Reconnecting" in
  let opened := Wire.LogInfo "Connected to DhanHQ WebSocket" in
  exists st',
    Main.connect [down; down; down; down; down; refused; up] (Main.initial 0)
    = Some (st', [])
    /\ Main.trace st'
       = [failed; again; Wire.Sleep 2;
          failed; again; Wire.Sleep 4;
          failed; again; Wire.Sleep 8;
          failed; again; Wire.Sleep 16;
          failed; again; Wire.Sleep 30;
          opened; failed; again; Wire.Sleep 2;
          opened; Wire.Subscribe "2885633"; Wire.LogInfo "Subscribed to market depth"]
    /\ Obs.sleeps (Main.trace st') = [2; 4; 8; 16; 30; 2]
    /\ ~ In (Wire.LogError "Max reconnection attempts reached") (Main.trace st')
    /\ Main.connected (Main.dhan_client st') = true.
Proof.
  intros down refused up failed again opened.
  eexists. split; [vm_compute; reflexivity|].
  split; [vm_compute; reflexivity|].
  split; [vm_compute; reflexivity|].
  split; [|vm_compute; reflexivity].
  vm_compute. intros H.
  repeat (destruct H as [H|H]; [discriminate H|]). exact H.
Qed.

(** C2, amended. With the maximum of 5 attempts of a new client: the wait
    before attempt [n], for [n] from 1 to 5, is [min (2^n) 30] seconds; when
    the counter stands at 5 [handle_reconnect] logs the error and returns
    without calling [connect]; a client whose transport never opens sleeps
    2, 4, 8, 16 and 30 seconds, makes no seventh attempt and ends
    disconnected; and an attempt that fails after its transport has opened
    is not counted: the counter is 1 at the retry that follows it, which
    comes after 2 seconds. *)
Theorem reconnect_backoff_schedule :
  (forall k rest st n,
      Main.max_reconnect_attempts (Main.dhan_client st) = 5 ->
      1 <= n <= 5 ->
      Main.reconnect_attempts (Main.dhan_client st) = n - 1 ->
      exists st',
        Main.handle_reconnect k rest st = k st'
        /\ Main.reconnect_attempts (Main.dhan_client st') = n
        /\ Main.trace st'
           = Main.trace st ++ [Wire.LogInfo "Reconnecting"; Wire.Sleep (Z.min (2 ^ n) 30)])
  /\
  (forall k rest st,
      Main.max_reconnect_attempts (Main.dhan_client st) = 5 ->
      Main.reconnect_attempts (Main.dhan_client st) = 5 ->
      Main.handle_reconnect k rest st
      = Some (Main.emit [Wire.LogError "Max reconnection attempts reached"] st, rest))
  /\
  (forall ws rest st,
      Main.max_reconnect_attempts (Main.dhan_client st) = 5 ->
      Main.reconnect_attempts (Main.dhan_client st) = 0 ->
      List.length ws = 6%nat ->
      Forall (fun w => Wire.transport_opens w = false) ws ->
      exists st',
        Main.connect (ws ++ rest) st = Some (st', rest)
        /\ Obs.sleeps (Main.trace st') = Obs.sleeps (Main.trace st) ++ [2; 4; 8; 16; 30]
        /\ Obs.subscribes (Main.trace st') = Obs.subscribes (Main.trace st)
        /\ Main.connected (Main.dhan_client st') = false
        /\ Main.reconnect_attempts (Main.dhan_client st') = 5
        /\ exists tr,
             Main.trace st' = tr ++ [Wire.LogError "Max reconnection attempts reached"])
  /\
  (forall w script st e st1,
      Main.max_reconnect_attempts (Main.dhan_client st) = 5 ->
      Wire.transport_opens w = true ->
      Main.connect_try w st = (Wire.Raised e, st1) ->
      Main.connect (w :: script) st
      = Main.connect script (Obs.retrying (Obs.failed st1))
      /\ Main.reconnect_attempts (Main.dhan_client (Obs.retrying (Obs.failed st1))) = 1
      /\ Main.trace (Obs.retrying (Obs.failed st1))
         = Main.trace st1
           ++ [Wire.LogError "Failed to connect to DhanHQ";
               Wire.LogInfo "Reconnecting"; Wire.Sleep 2]).
Proof.
  split; [|split; [|split]].
  - intros k rest st n Hmax Hn Ha.
    exists (Obs.retrying st). split; [apply handle_reconnect_retries; lia|].
    unfold Obs.retrying. rewrite Ha. replace (n - 1 + 1) with n by lia.
    split; reflexivity.
  - intros k rest st Hmax Ha. apply handle_reconnect_gives_up. lia.
  - intros ws rest st Hmax Ha Hlen Hdown.
    destruct ws as [|w1 [|w2 [|w3 [|w4 [|w5 [|w6 [|w7 ws]]]]]]]; try discriminate.
    repeat match goal with
           | H : Forall _ (_ :: _) |- _ => inversion H; clear H; subst
           end.
    destruct st as [cs sym buf last [con att mx] mgr clk tr].
    simpl in Hmax, Ha. subst att mx.
    eexists. split.
    + simpl app.
      do 5 (rewrite connect_down_retry; [|assumption|simpl; lia]).
      rewrite connect_down by assumption.
      rewrite handle_reconnect_gives_up; [reflexivity | simpl; lia].
    + cbn -[Z.mul].
      rewrite !sleeps_app, !subscribes_app. simpl.
      split; [rewrite !app_nil_r, <- !app_assoc; reflexivity|].
      split; [rewrite !app_nil_r; reflexivity|].
      split; [reflexivity|]. split; [reflexivity|].
      eexists. reflexivity.
  - intros w script st e st1 Hmax Hopen E.
    assert (Hc : Main.dhan_client st1 = Main.Client true 0 5).
    { unfold Main.connect_try in E. rewrite Hopen in E.
      match type of E with Main.subscribe_market_depth w ?s = _ =>
        destruct (subscribe_market_depth_frame w s) as [Hc _] end.
      rewrite E in Hc. simpl in Hc. rewrite Hc, Hmax. reflexivity. }
    split; [|split].
    + cbn [Main.connect]. rewrite E.
      apply handle_reconnect_retries. simpl. rewrite Hc. simpl. lia.
    + unfold Obs.retrying, Obs.failed. simpl. rewrite Hc. reflexivity.
    + unfold Obs.retrying, Obs.failed. simpl. rewrite Hc. simpl.
      rewrite <- app_assoc. reflexivity.
Qed.

Lemma reconnect_backoff_schedule_witness :
  let down := Wire.World Symbols.offline false false (fun _ => true) (fun _ _ => false) in
  let up := Wire.World Symbols.offline true true (fun _ => true) (fun _ _ => false) in
  let refused := Wire.World Symbols.offline true false (fun _ => true) (fun _ _ => false) in
  let st := Main.initial 0 in
  (exists st',
      Main.handle_reconnect (fun s => Some (s, [])) [] (Main.set_attempts 4 st)
      = Some (st', [])
      /\ Main.trace st' = [Wire.LogInfo "Reconnecting"; Wire.Sleep 30])
  /\ Main.handle_reconnect (Main.connect [up]) [up] (Main.set_attempts 5 st)
     = Some (Main.emit [Wire.LogError "Max reconnection attempts reached"]
               (Main.set_attempts 5 st), [up])
  /\ (exists st',
         Main.connect ([down; down; down; down; down; down] ++ [up]) st = Some (st', [up])
         /\ Obs.sleeps (Main.trace st') = [2; 4; 8; 16; 30])
  /\ Main.reconnect_attempts
       (Main.dhan_client
          (Obs.retrying
             (Obs.failed (snd (Main.connect_try refused (Main.set_attempts 4 st)))))) = 1.
Proof.
  intros down up refused st.
  destruct reconnect_backoff_schedule as (Hwait & Hstop & Hrun & Hreset).
  split; [|split; [|split]].
  - destruct (Hwait (fun s => Some (s, [])) [] (Main.set_attempts 4 st) 5)
      as (st' & Hcall & _ & Htr); [reflexivity | lia | reflexivity |].
    exists st'. split; [exact Hcall | exact Htr].
  - apply Hstop; reflexivity.
  - destruct (Hrun [down; down; down; down; down; down] [up] st)
      as (st' & Hc & Hs & _); [reflexivity | reflexivity | reflexivity | |].
    + repeat constructor.
    + exists st'. split; [exact Hc | exact Hs].
  - destruct (Hreset refused [] (Main.set_attempts 4 st) Wire.TransportError
                (snd (Main.connect_try refused (Main.set_attempts 4 st))))
      as (_ & Hone & _); [reflexivity | reflexivity | reflexivity | exact Hone].
Defined.

Lemma aggregate_ticks_client w st :
  Main.dhan_client (snd (Main.aggregate_ticks w st)) = Main.dhan_client st.
Proof.
  unfold Main.aggregate_ticks.
  destruct (_ <? _); [reflexivity|].
  destruct (Main.aggregated_trades _ _); reflexivity.
Qed.

Lemma process_message_client w message st :
  Main.dhan_client (Main.process_message w message st) = Main.dhan_client st.
Proof.
  destruct message as [raw| |data]; try reflexivity.
  unfold Main.process_message.
  destruct (String.eqb _ "market_depth"); [reflexivity|].
  destruct (String.eqb _ "tick").
  - unfold Main.process_tick.
    match goal with |- context [Main.aggregate_ticks w ?s] =>
      pose proof (aggregate_ticks_client w s) as H;
      destruct (Main.aggregate_ticks w s) as [[|e] s'] end; exact H.
  - destruct (String.eqb _ "quote"); [reflexivity|].
    destruct (String.eqb _ "error"); reflexivity.
Qed.

(** C9, as stated, fails: the transport opens, the subscribe frame is
    refused, and the counter, at 3 before the attempt, is 0 although nothing
    was subscribed; the next wait is 2 seconds again. *)
Lemma counter_reset_without_subscribe :
  let w := Wire.World Symbols.offline true false (fun _ => true) (fun _ _ => false) in
  let up := Wire.World Symbols.offline true true (fun _ => true) (fun _ _ => false) in
  let st := Main.set_attempts 3 (Main.initial 0) in
  fst (Main.connect_try w st) = Wire.Raised Wire.TransportError
  /\ Main.reconnect_attempts (Main.dhan_client (snd (Main.connect_try w st))) = 0
  /\ Obs.subscribes (Main.trace (snd (Main.connect_try w st))) = []
  /\ exists st',
       Main.connect [w; up] st = Some (st', [])
       /\ Obs.sleeps (Main.trace st') = [2]
       /\ Obs.subscribes (Main.trace st') = ["2885633"].
Proof.
  intros w up st.
  split; [vm_compute; reflexivity|].
  split; [vm_compute; reflexivity|].
  split; [vm_compute; reflexivity|].
  eexists. split; [vm_compute; reflexivity|].
  split; vm_compute; reflexivity.
Qed.

(** C9, amended. The counter is set to 0 as soon as the transport opens,
    before the subscribe request and whatever becomes of it; an attempt
    whose transport does not open leaves it alone; [handle_reconnect] adds
    one or leaves it alone; subscribing and message processing never
    write it. *)
Theorem counter_reset_on_transport_open :
  (forall w st,
      Wire.transport_opens w = true ->
      Main.reconnect_attempts (Main.dhan_client (snd (Main.connect_try w st))) = 0)
  /\ (forall w st,
         Wire.transport_opens w = false ->
         Main.connect_try w st = (Wire.Raised Wire.TransportError, st))
  /\ (forall k rest st,
         (Main.handle_reconnect k rest st = k (Obs.retrying st)
          /\ Main.reconnect_attempts (Main.dhan_client (Obs.retrying st))
             = Main.reconnect_attempts (Main.dhan_client st) + 1)
         \/ Main.handle_reconnect k rest st
            = Some (Main.emit [Wire.LogError "Max reconnection attempts reached"] st, rest))
  /\ (forall w st,
         Main.dhan_client (snd (Main.subscribe_market_depth w st)) = Main.dhan_client st)
  /\ (forall w message st,
         Main.dhan_client (Main.process_message w message st) = Main.dhan_client st).
Proof.
  repeat split.
  - intros w st H. unfold Main.connect_try. rewrite H.
    match goal with |- context [Main.subscribe_market_depth w ?s] =>
      destruct (subscribe_market_depth_frame w s) as [Hc _] end.
    rewrite Hc. reflexivity.
  - intros w st H. unfold Main.connect_try. rewrite H. reflexivity.
  - intros k rest st.
    destruct (Z.lt_ge_cases (Main.reconnect_attempts (Main.dhan_client st))
                (Main.max_reconnect_attempts (Main.dhan_client st))) as [Hlt|Hge].
    + left. split; [apply handle_reconnect_retries; exact Hlt | reflexivity].
    + right. apply handle_reconnect_gives_up. exact Hge.
  - intros w st. apply subscribe_market_depth_frame.
  - intros. apply process_message_client.
Qed.

Lemma counter_reset_on_transport_open_witness :
  let w := Wire.World Symbols.offline true false (fun _ => true) (fun _ _ => false) in
  let down := Wire.World Symbols.offline false false (fun _ => true) (fun _ _ => false) in
  let st := Main.set_attempts 3 (Main.initial 0) in
  Main.reconnect_attempts (Main.dhan_client (snd (Main.connect_try w st))) = 0
  /\ Main.connect_try down st = (Wire.Raised Wire.TransportError, st).
Proof.
  intros w down st.
  destruct counter_reset_on_transport_open as (Hopen & Hdown & _).
  split; [apply Hopen | apply Hdown]; reflexivity.
Defined.

(** ** The listen loop *)

Lemma listen_nil script st : Main.listen [] script st = Some (st, []).
Proof. simpl. destruct (negb _); reflexivity. Qed.

(** C8. A received text that is not JSON costs one log line and nothing
    else: every global and the client keep their values, the client is still
    connected, no reconnect is run, and the loop goes on with the rest of
    the input; a message that follows is processed as it would have been. *)
Theorem undecodable_message_is_dropped :
  forall raw w at_ events script st,
    Main.connected (Main.dhan_client st) = true ->
    let st' := Main.emit [Wire.LogError ("Invalid JSON received: " ++ raw)]
                 (Main.at_time at_ st) in
    Main.process_message w (Main.NotJson raw) (Main.at_time at_ st) = st'
    /\ Main.connected (Main.dhan_client st') = true
    /\ Main.dhan_client st' = Main.dhan_client st
    /\ Main.tick_buffer st' = Main.tick_buffer st
    /\ Main.connected_clients st' = Main.connected_clients st
    /\ Obs.sleeps (Main.trace st') = Obs.sleeps (Main.trace st)
    /\ Main.listen (Main.Received (Main.NotJson raw) w at_ :: events) script st
       = Main.listen events script st'
    /\ forall message w2 at2,
         Main.listen [Main.Received (Main.NotJson raw) w at_;
                      Main.Received message w2 at2] script st
         = Some (Main.process_message w2 message (Main.at_time at2 st'), []).
Proof.
  intros raw w at_ events script st Hc st'.
  assert (Hstep : forall evs,
    Main.listen (Main.Received (Main.NotJson raw) w at_ :: evs) script st
    = Main.listen evs script st').
  { intros evs. simpl. rewrite Hc. reflexivity. }
  split; [reflexivity|]. split; [exact Hc|]. split; [reflexivity|].
  split; [reflexivity|]. split; [reflexivity|].
  split; [subst st'; simpl; rewrite sleeps_app, app_nil_r; reflexivity|].
  split; [apply Hstep|].
  intros message w2 at2. rewrite Hstep.
  change (Main.listen [Main.Received message w2 at2] script st')
    with (if negb (Main.connected (Main.dhan_client st')) then Some (st', [Main.Received message w2 at2])
          else Main.listen [] script (Main.process_message w2 message (Main.at_time at2 st'))).
  replace (Main.connected (Main.dhan_client st')) with true by (symmetry; exact Hc).
  simpl negb. cbv iota. apply listen_nil.
Qed.

Lemma undecodable_message_is_dropped_witness :
  let w := Wire.World Symbols.offline true true (fun _ => true) (fun _ _ => false) in
  let st := Main.set_connected true (Main.initial 0) in
  let tick := Main.Object
      (Main.Envelope (Some "tick") None [] [] (Some 2500) (Some 10) (Some "buy")
         None None None) in
  exists st',
    Main.listen [Main.Received (Main.NotJson "{oops") w 50;
                 Main.Received tick w 60] [] st = Some (st', [])
    /\ Main.connected (Main.dhan_client st') = true
    /\ Main.tick_buffer st' = [Main.Tick 2500 10 "buy" 60].
Proof.
  intros w st tick.
  destruct (undecodable_message_is_dropped "{oops" w 50 [] [] st)
    as (_ & _ & _ & _ & _ & _ & _ & Hnext); [reflexivity|].
  eexists. split; [apply Hnext|]. split; reflexivity.
Defined.

(** ** Sorting by key *)

Section SortFacts.
Context {A : Type} (key : A -> nat).

Let le_key (a b : A) : Prop := (key a <= key b)%nat.

Lemma insert_perm x l : Permutation (Py.insert key x l) (x :: l).
Proof.
  induction l as [|y l IH]; simpl; [reflexivity|].
  destruct (Nat.leb (key x) (key y)); [reflexivity|].
  rewrite IH. apply perm_swap.
Qed.

Lemma sort_perm l : Permutation (Py.sort key l) l.
Proof.
  induction l as [|x l IH]; simpl; [reflexivity|].
  rewrite insert_perm. now constructor.
Qed.

Lemma insert_sorted x l :
  StronglySorted le_key l -> StronglySorted le_key (Py.insert key x l).
Proof.
  induction 1 as [|y l Hs IH Hy]; simpl.
  - repeat constructor.
  - destruct (Nat.leb (key x) (key y)) eqn:E.
    + apply Nat.leb_le in E. constructor; [constructor; assumption|].
      constructor; [exact E|].
      eapply Forall_impl; [|exact Hy]. intros z Hz. unfold le_key in *. lia.
    + apply Nat.leb_gt in E. constructor; [exact IH|].
      eapply Permutation_Forall; [symmetry; apply insert_perm|].
      constructor; [unfold le_key; lia | exact Hy].
Qed.

Lemma sort_sorted l : StronglySorted le_key (Py.sort key l).
Proof.
  induction l as [|x l IH]; simpl; [constructor | apply insert_sorted, IH].
Qed.

(** The sort is stable: elements of one key keep their order. *)
Lemma insert_stable k x l :
  filter (fun y => Nat.eqb (key y) k) (Py.insert key x l)
  = filter (fun y => Nat.eqb (key y) k) (x :: l).
Proof.
  induction l as [|y l IH]; [reflexivity|].
  simpl Py.insert. destruct (Nat.leb (key x) (key y)) eqn:E; [reflexivity|].
  apply Nat.leb_gt in E.
  simpl filter in *. rewrite IH.
  destruct (Nat.eqb (key x) k) eqn:Ex, (Nat.eqb (key y) k) eqn:Ey; try reflexivity.
  apply Nat.eqb_eq in Ex, Ey. lia.
Qed.

Lemma sort_stable k l :
  filter (fun y => Nat.eqb (key y) k) (Py.sort key l)
  = filter (fun y => Nat.eqb (key y) k) l.
Proof.
  induction l as [|x l IH]; [reflexivity|].
  simpl Py.sort. rewrite insert_stable. simpl. now rewrite IH.
Qed.

(** A sort of a list whose keys are all equal changes nothing. *)
Lemma sort_constant k l :
  Forall (fun y => key y = k) l -> Py.sort key l = l.
Proof.
  induction 1 as [|x l Hx Hl IH]; [reflexivity|].
  simpl. rewrite IH. destruct l as [|y l']; [reflexivity|].
  simpl. inversion Hl; subst. rewrite H1, Nat.leb_refl. reflexivity.
Qed.

Lemma sorted_after a y r x :
  StronglySorted le_key (a ++ y :: r) -> In x r -> (key y <= key x)%nat.
Proof.
  induction a as [|z a IHa]; simpl; intros Hs Hx; inversion Hs; subst.
  - match goal with H : Forall _ _ |- _ =>
      rewrite Forall_forall in H; exact (H x Hx) end.
  - apply IHa; assumption.
Qed.

(** In a sorted list, an element of smaller key comes first, also after
    the list has been cut to a prefix. *)
Lemma smaller_key_precedes n l x y :
  StronglySorted le_key l ->
  In x l -> In y (firstn n l) -> (key x < key y)%nat ->
  Obs.precedes x y (firstn n l).
Proof.
  intros Hs Hx Hy Hlt.
  destruct (in_split _ _ Hy) as (a & b & Hab).
  assert (Hl : l = a ++ y :: (b ++ skipn n l)).
  { rewrite <- (firstn_skipn n l) at 1. rewrite Hab, <- app_assoc. reflexivity. }
  assert (Hxa : In x a).
  { rewrite Hl in Hx, Hs. apply in_app_or in Hx. destruct Hx as [Hx|[Hx|Hx]].
    - exact Hx.
    - subst. lia.
    - pose proof (sorted_after _ _ _ _ Hs Hx). lia. }
  destruct (in_split _ _ Hxa) as (a1 & a2 & Ha).
  exists a1, a2, b. rewrite Hab, Ha, <- app_assoc. reflexivity.
Qed.

Lemma filter_firstn_prefix (p : A -> bool) n l :
  exists rest, filter p l = filter p (firstn n l) ++ rest.
Proof.
  exists (filter p (skipn n l)).
  rewrite <- filter_app, firstn_skipn. reflexivity.
Qed.
End SortFacts.

Lemma in_firstn {A} n (l : list A) x : In x (firstn n l) -> In x l.
Proof.
  intros H. rewrite <- (firstn_skipn n l). apply in_or_app. now left.
Qed.

Lemma sorted_firstn {A} (R : A -> A -> Prop) n l :
  StronglySorted R l -> StronglySorted R (firstn n l).
Proof.
  intros H. revert n. induction H as [|x l Hs IH Hx]; intros [|n]; simpl;
    try constructor; auto.
  rewrite Forall_forall in *. intros y Hy. apply Hx. eapply in_firstn, Hy.
Qed.

Lemma slice_to_firstn {A} limit (l : list A) :
  exists n, Py.slice_to limit l = firstn n l
            /\ (0 <= limit -> n = Z.to_nat limit).
Proof.
  unfold Py.slice_to. destruct (0 <=? limit) eqn:E.
  - exists (Z.to_nat limit). auto.
  - apply Z.leb_gt in E. eexists. split; [reflexivity | lia].
Qed.

(** ** Symbol resolution and search *)

(** C5. When the upper-cased symbol is not cached, the built-in table does
    not have it, both HTTP sources fail and sqlite takes the insert,
    [get_symbol_info] returns [None], appends the symbol with status
    "unknown" to [symbol_requests], leaves the in-memory cache and the
    [symbols] table as they were, and has asked the three sources in order;
    a later call for the same symbol asks the sources again. *)
Theorem unknown_symbol_is_logged_not_cached :
  forall e now symbol m,
    let s := Py.upper symbol in
    Py.mem s (Symbols.symbols_cache m) = false ->
    Symbols._mock_symbol_fetch s = None ->
    Symbols.dhanhq_api e s = None ->
    Symbols.nse_api e s = None ->
    Symbols.store_ok e = true ->
    let m' := Symbols.Manager (Symbols.symbols_cache m) (Symbols.symbols_table m)
                (Symbols.symbol_requests m ++ [Symbols.RequestRow s "unknown"]) in
    Symbols.get_symbol_info e now symbol m
    = (None, m', [Symbols.MockLookup s; Symbols.DhanhqLookup s; Symbols.NseLookup s])
    /\ forall e2 now2, exists r m2 rest,
         Symbols.get_symbol_info e2 now2 symbol m'
         = (r, m2, Symbols.MockLookup s :: Symbols.DhanhqLookup s :: rest).
Proof.
  intros e now symbol m s Hmem Hmock Hd Hn Hok m'. split.
  - unfold Symbols.get_symbol_info. fold s. rewrite Hmem.
    unfold Symbols._fetch_symbol_from_api. rewrite Hmock.
    unfold Symbols._fetch_symbol_alternative. rewrite Hd, Hn.
    unfold Symbols._log_unknown_symbol. rewrite Hok. reflexivity.
  - intros e2 now2. unfold Symbols.get_symbol_info. fold s.
    change (Symbols.symbols_cache m') with (Symbols.symbols_cache m). rewrite Hmem.
    unfold Symbols._fetch_symbol_from_api. rewrite Hmock.
    unfold Symbols._fetch_symbol_alternative.
    destruct (Symbols.dhanhq_api e2 s) as [i|].
    + do 3 eexists. reflexivity.
    + destruct (Symbols.nse_api e2 s) as [i|]; do 3 eexists; reflexivity.
Qed.

Lemma unknown_symbol_is_logged_not_cached_witness :
  Symbols.get_symbol_info Symbols.offline 100 "zzzq" Symbols.empty_manager
  = (None,
     Symbols.Manager [] [] [Symbols.RequestRow "ZZZQ" "unknown"],
     [Symbols.MockLookup "ZZZQ"; Symbols.DhanhqLookup "ZZZQ"; Symbols.NseLookup "ZZZQ"]).
Proof.
  exact (proj1 (unknown_symbol_is_logged_not_cached Symbols.offline 100 "zzzq"
                  Symbols.empty_manager eq_refl eq_refl eq_refl eq_refl eq_refl)).
Defined.

Lemma contains_empty hay : Py.contains "" hay = true.
Proof. destruct hay; reflexivity. Qed.

Lemma candidates_sound query m x :
  In x (Symbols.candidates query m) ->
  exists entry, In entry (Symbols.symbols_cache m)
                /\ Symbols.matches query entry = true
                /\ x = Symbols.to_hit entry.
Proof.
  unfold Symbols.candidates. intros H. apply in_map_iff in H.
  destruct H as (entry & Hx & Hin). apply filter_In in Hin.
  exists entry. intuition.
Qed.

(** C6, as stated, fails on the tie rule: AAPL is resolved at time 100 and
    MSFT at time 200; a search for "tech" finds both by sector, with equal
    relevance, and lists AAPL, the older entry, first. *)
Lemma search_ties_keep_cache_order :
  let m1 := snd (fst (Symbols.get_symbol_info Symbols.offline 100 "AAPL"
                        Symbols.empty_manager)) in
  let m2 := snd (fst (Symbols.get_symbol_info Symbols.offline 200 "MSFT" m1)) in
  map Symbols.hit_symbol (Symbols.search_symbols "tech" 5 m2) = ["AAPL"; "MSFT"]
  /\ Obs.last_updated m2 "AAPL" = Some 100
  /\ Obs.last_updated m2 "MSFT" = Some 200
  /\ ~ Obs.ties_by_last_updated "TECH" m2 (Symbols.search_symbols "tech" 5 m2).
Proof.
  intros m1 m2.
  split; [vm_compute; reflexivity|].
  split; [vm_compute; reflexivity|].
  split; [vm_compute; reflexivity|].
  intros H.
  specialize (H 0%nat 1%nat
                (Symbols.Hit "AAPL" "1234567" "APPLE INC" "Technology" "")
                (Symbols.Hit "MSFT" "3456789" "MICROSOFT CORP" "Technology" "")
                100 200).
  assert (200 <= 100) as Habs; [|lia].
  apply H; [lia | vm_compute; reflexivity ..].
Qed.

(** C6, amended. [search_symbols] upper-cases the query and looks in the
    in-memory cache only; a result is an entry whose symbol, upper-cased name
    or upper-cased sector contains the query; results are in order of
    relevance (0 exact symbol, 1 symbol contains, 2 name contains, 3 other);
    results of equal relevance keep the order of the cache; a limit that is
    not negative cuts the list to that length; and an entry of smaller
    relevance, such as an exact symbol match against a name-only match,
    comes before every listed entry of larger relevance. *)
Theorem search_symbols_ranking :
  forall query limit m,
    let q := Py.upper query in
    let results := Symbols.search_symbols query limit m in
    (forall x, In x results ->
       exists entry, In entry (Symbols.symbols_cache m)
                     /\ Symbols.matches q entry = true
                     /\ x = Symbols.to_hit entry)
    /\ StronglySorted
         (fun a b => (Symbols.relevance q a <= Symbols.relevance q b)%nat) results
    /\ (forall k, exists rest,
          filter (fun x => Nat.eqb (Symbols.relevance q x) k) (Symbols.candidates q m)
          = filter (fun x => Nat.eqb (Symbols.relevance q x) k) results ++ rest)
    /\ (0 <= limit ->
        List.length results
        = Nat.min (Z.to_nat limit) (List.length (Symbols.candidates q m)))
    /\ (forall x y,
          In x (Symbols.candidates q m) -> In y results ->
          (Symbols.relevance q x < Symbols.relevance q y)%nat ->
          Obs.precedes x y results).
Proof.
  intros query limit m q results.
  set (sorted := Py.sort (Symbols.relevance q) (Symbols.candidates q m)).
  destruct (slice_to_firstn limit sorted) as (n & Hn & Hlim).
  assert (Hres : results = firstn n sorted) by exact Hn.
  pose proof (sort_sorted (Symbols.relevance q) (Symbols.candidates q m)) as Hsorted.
  fold sorted in Hsorted.
  assert (Hperm : Permutation sorted (Symbols.candidates q m)) by apply sort_perm.
  rewrite Hres. split; [|split; [|split; [|split]]].
  - intros x Hx. apply candidates_sound.
    apply (Permutation_in _ Hperm). eapply in_firstn, Hx.
  - apply sorted_firstn, Hsorted.
  - intros k.
    rewrite <- (sort_stable (Symbols.relevance q) k (Symbols.candidates q m)).
    apply filter_firstn_prefix.
  - intros Hl. rewrite length_firstn, (Hlim Hl).
    rewrite (Permutation_length Hperm). reflexivity.
  - intros x y Hx Hy Hlt.
    apply (smaller_key_precedes (Symbols.relevance q)); try assumption.
    apply (Permutation_in _ (Permutation_sym Hperm)), Hx.
Qed.

Lemma search_symbols_ranking_witness :
  let m := Symbols.Manager
             [("XYZ", Symbols.Info "77" "SomeTcsCo" "" "");
              ("TCS", Symbols.Info "2953217" "Tata Consultancy" "IT" "")] [] [] in
  let exact := Symbols.Hit "TCS" "2953217" "Tata Consultancy" "IT" "" in
  let by_name := Symbols.Hit "XYZ" "77" "SomeTcsCo" "" "" in
  Symbols.search_symbols "tcs" 5 m = [exact; by_name]
  /\ List.length (Symbols.search_symbols "tcs" 5 m) = 2%nat
  /\ Obs.precedes exact by_name (Symbols.search_symbols "tcs" 5 m).
Proof.
  intros m exact by_name.
  destruct (search_symbols_ranking "tcs" 5 m) as (_ & _ & _ & Hlen & Hprec).
  split; [vm_compute; reflexivity|].
  split.
  - rewrite Hlen by lia. vm_compute. reflexivity.
  - apply Hprec.
    + vm_compute. auto.
    + vm_compute. auto.
    + vm_compute. lia.
Defined.

Lemma relevance_empty_query x :
  Symbols.hit_symbol x <> "" -> Symbols.relevance "" x = 1%nat.
Proof.
  intros H. unfold Symbols.relevance.
  destruct (String.eqb "" (Symbols.hit_symbol x)) eqn:E.
  - apply String.eqb_eq in E. congruence.
  - rewrite contains_empty. reflexivity.
Qed.

Lemma filter_all {A} (p : A -> bool) l :
  (forall x, In x l -> p x = true) -> filter p l = l.
Proof.
  induction l as [|x l IH]; intros H; simpl; [reflexivity|].
  rewrite (H x (or_introl eq_refl)), IH; [reflexivity|].
  intros y Hy. apply H. now right.
Qed.

Lemma matches_empty_query entry : Symbols.matches "" entry = true.
Proof. destruct entry as [symbol i]. simpl. now rewrite contains_empty. Qed.

(** C10. The empty query matches every cached entry; when no cached symbol
    is itself the empty string and the limit is not negative, the search
    returns the first [limit] entries of the cache, in cache order; and the
    [search_symbols] command of the endpoint of main.py searches for the
    empty string when the message carries no query. *)
Theorem empty_query_returns_cache_prefix :
  forall limit m,
    0 <= limit ->
    (forall entry, In entry (Symbols.symbols_cache m) -> fst entry <> "") ->
    (forall entry, In entry (Symbols.symbols_cache m) ->
                   Symbols.matches "" entry = true)
    /\ Symbols.search_symbols "" limit m
       = firstn (Z.to_nat limit) (map Symbols.to_hit (Symbols.symbols_cache m))
    /\ forall w websocket is_market_hours symbol timeframe limit2 st,
         Wire.viewer_accepts w websocket = true ->
         Main.handle_command w websocket is_market_hours
           (Main.Command (Some (Wire.JString "search_symbols")) symbol timeframe None
              (option_map Wire.JInt limit2)) st
         = (Wire.Returned,
            Main.emit
              [Wire.SendText websocket
                 (Wire.SymbolSearchResults (Wire.JString "")
                    (Symbols.search_symbols "" (Main.default 20 limit2)
                       (Main.symbol_manager st)))] st).
Proof.
  intros limit m Hlimit Hkeys.
  split; [intros; apply matches_empty_query|].
  split.
  - unfold Symbols.search_symbols. simpl Py.upper.
    unfold Symbols.candidates.
    rewrite filter_all by (intros; apply matches_empty_query).
    rewrite (sort_constant (Symbols.relevance "") 1%nat).
    + unfold Py.slice_to. apply Z.leb_le in Hlimit. rewrite Hlimit. reflexivity.
    + apply Forall_forall. intros x Hx. apply in_map_iff in Hx.
      destruct Hx as ([symbol i] & <- & Hin). apply relevance_empty_query.
      simpl. exact (Hkeys _ Hin).
  - intros w websocket is_market_hours symbol timeframe limit2 st Hacc.
    unfold Main.handle_command. simpl.
    unfold Main.search_request, Main.send_text.
    destruct limit2 as [n|]; simpl; rewrite Hacc; reflexivity.
Qed.

Lemma empty_query_returns_cache_prefix_witness :
  let m := Symbols.Manager
             [("TCS", Symbols.Info "2953217" "TCS" "" "");
              ("INFY", Symbols.Info "408065" "INFOSYS" "" "");
              ("ITC", Symbols.Info "424961" "ITC" "" "")] [] [] in
  Symbols.search_symbols "" 2 m
  = [Symbols.Hit "TCS" "2953217" "TCS" "" ""; Symbols.Hit "INFY" "408065" "INFOSYS" "" ""].
Proof.
  intros m.
  assert (Hkeys : forall entry, In entry (Symbols.symbols_cache m) -> fst entry <> "").
  { simpl. intros entry [<-|[<-|[<-|[]]]]; discriminate. }
  destruct (empty_query_returns_cache_prefix 2 m ltac:(lia) Hkeys) as (_ & Hs & _).
  exact Hs.
Defined.

(** ** Viewer commands *)

Lemma is_type_eq data t :
  Main.is_type data t = true -> Main.cmd_type data = Some (Wire.JString t).
Proof.
  unfold Main.is_type. destruct (Main.cmd_type data) as [[| | | |t'| |]|]; try discriminate.
  intros H. apply String.eqb_eq in H. now subst.
Qed.

Lemma frames_to_app websocket tr1 tr2 :
  Obs.frames_to websocket (tr1 ++ tr2)
  = Obs.frames_to websocket tr1 ++ Obs.frames_to websocket tr2.
Proof.
  induction tr1 as [|e tr1 IH]; simpl; [reflexivity|].
  destruct e; simpl; rewrite ?IH; try reflexivity.
  destruct (Nat.eqb _ _); simpl; now rewrite ?IH.
Qed.

Lemma on_exception_clients websocket e st :
  Main.connected_clients (Main.on_exception websocket e st)
  = filter (fun c => negb (Nat.eqb c websocket)) (Main.connected_clients st).
Proof. destruct e; reflexivity. Qed.

Lemma send_text_accepted w websocket m st :
  Wire.viewer_accepts w websocket = true ->
  Main.send_text w websocket m st
  = (Wire.Returned, Main.emit [Wire.SendText websocket m] st).
Proof. intros H. unfold Main.send_text. now rewrite H. Qed.

Lemma send_historical_accepted w websocket symbol timeframe st :
  Wire.viewer_accepts w websocket = true ->
  exists st', Main.send_historical w websocket symbol timeframe st = (Wire.Returned, st')
              /\ exists evs, Main.trace st' = Main.trace st ++ evs.
Proof.
  intros H. unfold Main.send_historical.
  destruct (Wire.off_market_data w symbol timeframe).
  - rewrite send_text_accepted by exact H. eexists. split; [reflexivity|].
    eexists. reflexivity.
  - exists st. split; [reflexivity|]. exists []. symmetry. apply app_nil_r.
Qed.

Lemma subscribe_market_depth_returns w st :
  Wire.upstream_accepts w = true ->
  exists st', Main.subscribe_market_depth w st = (Wire.Returned, st')
              /\ exists evs, Main.trace st' = Main.trace st ++ evs.
Proof.
  intros H.
  pose proof (subscribe_market_depth_frame w st) as [_ Htr].
  destruct (Main.subscribe_market_depth w st) as [o st'] eqn:E. simpl in Htr.
  exists st'. split; [|exact Htr]. f_equal.
  unfold Main.subscribe_market_depth in E.
  destruct (negb _); [congruence|].
  destruct (Main.resolve w (Main.current_symbol st) st) as [i st1].
  rewrite H in E.
  destruct i as [i|]; [|destruct (Py.get _ _) as [i|]]; congruence.
Qed.

Lemma switch_symbol_replies w websocket is_market_hours new_symbol source i st :
  Wire.viewer_accepts w websocket = true ->
  (is_market_hours = true -> Wire.upstream_accepts w = true) ->
  exists st' evs m,
    Main.switch_symbol w websocket is_market_hours new_symbol source i st
    = (Wire.Returned, st')
    /\ Main.trace st' = Main.trace st ++ evs ++ [Wire.SendText websocket m]
    /\ Obs.is_symbol_reply m.
Proof.
  intros Hacc Hup. unfold Main.switch_symbol.
  destruct is_market_hours.
  - destruct (subscribe_market_depth_returns w (Main.with_symbol new_symbol st) (Hup eq_refl))
      as (st1 & -> & evs & Htr).
    simpl. rewrite send_text_accepted by exact Hacc.
    do 3 eexists. split; [reflexivity|].
    split; [simpl; rewrite Htr, <- app_assoc; reflexivity | exact I].
  - destruct (send_historical_accepted w websocket new_symbol (Wire.JString "1min")
                (Main.with_symbol new_symbol st) Hacc) as (st1 & -> & evs & Htr).
    simpl. rewrite send_text_accepted by exact Hacc.
    do 3 eexists. split; [reflexivity|].
    split; [simpl; rewrite Htr, <- app_assoc; reflexivity | exact I].
Qed.

Lemma change_symbol_replies w websocket is_market_hours data st :
  Wire.viewer_accepts w websocket = true ->
  (is_market_hours = true -> Wire.upstream_accepts w = true) ->
  Obs.is_string (Main.default Wire.JNull (Main.cmd_symbol data)) ->
  exists st' evs m,
    Main.change_symbol w websocket is_market_hours data st = (Wire.Returned, st')
    /\ Main.trace st' = Main.trace st ++ evs ++ [Wire.SendText websocket m]
    /\ Obs.is_symbol_reply m.
Proof.
  intros Hacc Hup Hsym. unfold Main.change_symbol.
  destruct (Main.default Wire.JNull (Main.cmd_symbol data))
    as [| | | |new_symbol| |]; try destruct Hsym.
  pose proof (resolve_frame w new_symbol st) as (_ & Htr & _).
  destruct (Main.resolve w new_symbol st) as [i st1]. simpl in Htr.
  rewrite <- Htr.
  destruct i as [i|]; [apply switch_symbol_replies; assumption|].
  destruct (Py.get new_symbol Main.DEFAULT_SYMBOLS) as [i|];
    [apply switch_symbol_replies; assumption|].
  rewrite send_text_accepted by exact Hacc.
  eexists. exists []. eexists. split; [reflexivity|]. split; [reflexivity | exact I].
Qed.

Lemma change_symbol_raises w websocket is_market_hours data st :
  ~ Obs.is_string (Main.default Wire.JNull (Main.cmd_symbol data)) ->
  Main.change_symbol w websocket is_market_hours data st
  = (Wire.Raised Wire.AttributeError, st).
Proof.
  intros Hsym. unfold Main.change_symbol.
  destruct (Main.default Wire.JNull (Main.cmd_symbol data)); try reflexivity.
  destruct Hsym. exact I.
Qed.

(** The call of [search_symbols] returns exactly on a string query with a
    bound that a slice takes. *)
Lemma call_search_symbols_returns query limit m :
  Obs.is_string query -> Obs.is_bound limit ->
  exists results, Main.call_search_symbols query limit m = inr results.
Proof.
  intros Hq Hl. destruct query; try destruct Hq.
  destruct limit; try destruct Hl; simpl; eexists; reflexivity.
Qed.

Lemma call_search_symbols_raises query limit m :
  ~ (Obs.is_string query /\ Obs.is_bound limit) ->
  exists e, Main.call_search_symbols query limit m = inl e.
Proof.
  intros H.
  destruct query; simpl; try (eexists; reflexivity).
  destruct limit; simpl; try (eexists; reflexivity); destruct H; split; exact I.
Qed.

Lemma send_text2_accepted w websocket m st :
  Wire.viewer_accepts w websocket = true ->
  MainV2.send_text w websocket m st
  = (Wire.Returned, MainV2.emit [Wire.SendText websocket m] st).
Proof. intros H. unfold MainV2.send_text. now rewrite H. Qed.

Lemma change_symbol2_replies w websocket is_market_hours data st :
  Wire.viewer_accepts (MainV2.base w) websocket = true ->
  Obs.is_string (Main.default (Wire.JString "") (Main.cmd_symbol data)) ->
  exists st' evs m,
    MainV2.change_symbol w websocket is_market_hours data st = (Wire.Returned, st')
    /\ MainV2.trace st' = MainV2.trace st ++ evs ++ [Wire.SendText websocket m]
    /\ Obs.is_symbol_reply m.
Proof.
  intros Hacc Hsym. unfold MainV2.change_symbol.
  change (@MainV2.default) with (@Main.default).
  destruct (Main.default (Wire.JString "") (Main.cmd_symbol data))
    as [| | | |symbol| |]; try destruct Hsym.
  set (new_symbol := Py.upper _).
  assert (Htr : MainV2.trace (snd (MainV2.resolve w new_symbol st)) = MainV2.trace st).
  { unfold MainV2.resolve.
    destruct (match MainV2.supabase_manager w with Some _ => _ | None => _ end);
      [reflexivity|].
    destruct (Symbols.get_symbol_info _ _ _ _) as [[i m] l]. reflexivity. }
  destruct (MainV2.resolve w new_symbol st) as [i st1]. simpl in Htr. rewrite <- Htr.
  destruct i as [i|].
  - destruct (if is_market_hours then MainV2.dhan_manager w else None) as [[|]|].
    + rewrite send_text2_accepted by exact Hacc.
      eexists. exists [Wire.Subscribe (Symbols.token i)]. eexists.
      split; [reflexivity|].
      split; [simpl; rewrite <- app_assoc; reflexivity | exact I].
    + rewrite send_text2_accepted by exact Hacc.
      eexists. exists [Wire.LogError "Error subscribing to symbol"]. eexists.
      split; [reflexivity|].
      split; [simpl; rewrite <- app_assoc; reflexivity | exact I].
    + unfold MainV2.send_historical. simpl Wire.off_market_data.
      destruct (Wire.history_available _ _ _).
      * rewrite send_text2_accepted by exact Hacc. simpl.
        rewrite send_text2_accepted by exact Hacc.
        eexists. eexists [_]. eexists.
        split; [reflexivity|].
        split; [simpl; rewrite <- app_assoc; reflexivity | exact I].
      * simpl. rewrite send_text2_accepted by exact Hacc.
        eexists. exists []. eexists.
        split; [reflexivity|]. split; [reflexivity | exact I].
  - rewrite send_text2_accepted by exact Hacc.
    eexists. exists []. eexists. split; [reflexivity|]. split; [reflexivity | exact I].
Qed.

Lemma change_symbol2_raises w websocket is_market_hours data st :
  ~ Obs.is_string (Main.default (Wire.JString "") (Main.cmd_symbol data)) ->
  MainV2.change_symbol w websocket is_market_hours data st
  = (Wire.Raised Wire.AttributeError, st).
Proof.
  intros Hsym. unfold MainV2.change_symbol.
  change (@MainV2.default) with (@Main.default).
  destruct (Main.default (Wire.JString "") (Main.cmd_symbol data)); try reflexivity.
  destruct Hsym. exact I.
Qed.

(** C7, as stated, fails: in live mode a [change_timeframe] command is
    taken and nothing at all is sent back, in main.py and in main_v2.py. *)
Lemma change_timeframe_live_is_silent :
  let w := Wire.World Symbols.offline true true (fun _ => true) (fun _ _ => true) in
  let w2 := MainV2.World2 w None (Some true) in
  let data :=
    Main.Command (Some (Wire.JString "change_timeframe")) None
      (Some (Wire.JString "5min")) None None in
  Main.handle_command w 1%nat true data (Main.initial 0) = (Wire.Returned, Main.initial 0)
  /\ Obs.frames_to 1%nat
       (Main.trace (snd (Main.handle_command w 1%nat true data (Main.initial 0)))) = []
  /\ MainV2.handle_command w2 1%nat true data (MainV2.initial 0)
     = (Wire.Returned, MainV2.initial 0).
Proof. repeat split. Qed.

(** C7, amended. For a viewer that takes the frames sent to it, in main.py
    (first part) and in main_v2.py (second part):
    - [ping] is answered with [pong];
    - [search_symbols] is answered with the results when the query, if
      present, is a string and the limit, if present, is an integer or null
      (in main_v2.py also whenever the database gives results); with a query
      or a limit of another type the search raises and nothing is sent;
    - [change_symbol] is answered with [symbol_changed] or [symbol_error]
      when the symbol is a string (one must be there in main.py, where in
      live mode the feed must also take the subscribe frame; in main_v2.py
      it may be missing); with a symbol of another type the handler raises
      and nothing is sent;
    - [change_timeframe] is answered, with the historical data, only when
      the market is closed and the data are available, and otherwise
      nothing is sent for it;
    - when a command raises, the endpoint of main.py sends the viewer
      nothing more and unregisters it. *)
Theorem command_replies :
  (forall w websocket is_market_hours data st,
      Wire.viewer_accepts w websocket = true ->
      let symbol := Main.default Wire.JNull (Main.cmd_symbol data) in
      let query := Main.default (Wire.JString "") (Main.cmd_query data) in
      let limit := Main.default (Wire.JInt 20) (Main.cmd_limit data) in
      let timeframe := Main.default (Wire.JString "1min") (Main.cmd_timeframe data) in
      (Main.is_type data "ping" = true ->
       Main.handle_command w websocket is_market_hours data st
       = (Wire.Returned, Main.emit [Wire.SendText websocket (Wire.Pong (Main.clock st))] st))
      /\ (Main.is_type data "search_symbols" = true ->
          (Obs.is_string query -> Obs.is_bound limit ->
           exists results,
             Main.handle_command w websocket is_market_hours data st
             = (Wire.Returned,
                Main.emit
                  [Wire.SendText websocket (Wire.SymbolSearchResults query results)] st))
          /\ (~ (Obs.is_string query /\ Obs.is_bound limit) ->
              exists e,
                Main.handle_command w websocket is_market_hours data st
                = (Wire.Raised e, st)))
      /\ (Main.is_type data "change_symbol" = true ->
          (Obs.is_string symbol ->
           (is_market_hours = true -> Wire.upstream_accepts w = true) ->
           exists st' evs m,
             Main.handle_command w websocket is_market_hours data st = (Wire.Returned, st')
             /\ Main.trace st' = Main.trace st ++ evs ++ [Wire.SendText websocket m]
             /\ Obs.is_symbol_reply m)
          /\ (~ Obs.is_string symbol ->
              Main.handle_command w websocket is_market_hours data st
              = (Wire.Raised Wire.AttributeError, st)))
      /\ (Main.is_type data "change_timeframe" = true ->
          Main.handle_command w websocket is_market_hours data st
          = if negb is_market_hours
               && Wire.off_market_data w (Main.current_symbol st) timeframe
            then (Wire.Returned,
                  Main.emit
                    [Wire.SendText websocket
                       (Wire.OffMarketData (Main.current_symbol st) timeframe)] st)
            else (Wire.Returned, st))
      /\ (forall e st1 at_ events,
             Main.handle_command w websocket is_market_hours data (Main.at_time at_ st)
             = (Wire.Raised e, st1) ->
             let st' :=
               Main.serve websocket is_market_hours
                 (Main.Text (Main.Dict data) w at_ :: events) st in
             Obs.frames_to websocket (Main.trace st')
             = Obs.frames_to websocket (Main.trace st1)
             /\ ~ In websocket (Main.connected_clients st')))
  /\
  (forall w websocket is_market_hours data st,
      Wire.viewer_accepts (MainV2.base w) websocket = true ->
      let symbol := Main.default (Wire.JString "") (Main.cmd_symbol data) in
      let query := Main.default (Wire.JString "") (Main.cmd_query data) in
      let limit := Main.default (Wire.JInt 20) (Main.cmd_limit data) in
      let timeframe := Main.default (Wire.JString "1min") (Main.cmd_timeframe data) in
      let found :=
        match MainV2.supabase_manager w with
        | Some db => MainV2.search_symbols db query limit
        | None => []
        end in
      (MainV2.is_type data "ping" = true ->
       MainV2.handle_command w websocket is_market_hours data st
       = (Wire.Returned,
          MainV2.emit [Wire.SendText websocket (Wire.Pong (MainV2.clock st))] st))
      /\ (MainV2.is_type data "search_symbols" = true ->
          (found <> [] \/ (Obs.is_string query /\ Obs.is_bound limit) ->
           exists results,
             MainV2.handle_command w websocket is_market_hours data st
             = (Wire.Returned,
                MainV2.emit
                  [Wire.SendText websocket (Wire.SymbolSearchResults query results)] st))
          /\ (found = [] -> ~ (Obs.is_string query /\ Obs.is_bound limit) ->
              exists e,
                MainV2.handle_command w websocket is_market_hours data st
                = (Wire.Raised e, st)))
      /\ (MainV2.is_type data "change_symbol" = true ->
          (Obs.is_string symbol ->
           exists st' evs m,
             MainV2.handle_command w websocket is_market_hours data st = (Wire.Returned, st')
             /\ MainV2.trace st' = MainV2.trace st ++ evs ++ [Wire.SendText websocket m]
             /\ Obs.is_symbol_reply m)
          /\ (~ Obs.is_string symbol ->
              MainV2.handle_command w websocket is_market_hours data st
              = (Wire.Raised Wire.AttributeError, st)))
      /\ (MainV2.is_type data "change_timeframe" = true ->
          MainV2.handle_command w websocket is_market_hours data st
          = if negb is_market_hours
               && Wire.off_market_data (MainV2.base w) (MainV2.current_symbol st) timeframe
            then (Wire.Returned,
                  MainV2.emit
                    [Wire.SendText websocket
                       (Wire.OffMarketData (MainV2.current_symbol st) timeframe)] st)
            else (Wire.Returned, st))).
Proof.
  split; intros w websocket is_market_hours data st Hacc; cbv zeta.
  - split; [|split; [|split; [|split]]]; try (intros Ht; apply is_type_eq in Ht).
    + unfold Main.handle_command, Main.is_type; rewrite Ht; simpl.
      apply send_text_accepted, Hacc.
    + unfold Main.handle_command, Main.is_type; rewrite Ht; simpl.
      unfold Main.search_request. split.
      * intros Hq Hl.
        destruct (call_search_symbols_returns _ _ (Main.symbol_manager st) Hq Hl)
          as [results ->].
        rewrite send_text_accepted by exact Hacc. exists results. reflexivity.
      * intros Hbad.
        destruct (call_search_symbols_raises _ _ (Main.symbol_manager st) Hbad)
          as [e ->].
        exists e. reflexivity.
    + unfold Main.handle_command, Main.is_type; rewrite Ht; simpl. split.
      * intros Hsym Hup.
        destruct (change_symbol_replies w websocket is_market_hours data st Hacc Hup Hsym)
          as (st' & evs & m & -> & Htr & Hm).
        simpl. exists st', evs, m. auto.
      * intros Hsym. rewrite change_symbol_raises by exact Hsym. reflexivity.
    + unfold Main.handle_command, Main.is_type; rewrite Ht; simpl.
      unfold Main.change_timeframe, Main.send_historical.
      destruct is_market_hours; simpl; [reflexivity|].
      destruct (Wire.off_market_data _ _ _); [|reflexivity].
      rewrite send_text_accepted by exact Hacc. reflexivity.
    + intros e st1 at_ events E. simpl. rewrite E.
      split.
      * destruct e; simpl; rewrite ?frames_to_app; simpl; rewrite ?app_nil_r; reflexivity.
      * rewrite on_exception_clients. intros Hf. apply filter_In in Hf.
        destruct Hf as [_ Hf]. rewrite Nat.eqb_refl in Hf. discriminate.
  - split; [|split; [|split]]; intros Ht; apply is_type_eq in Ht;
      unfold MainV2.handle_command, MainV2.is_type; rewrite Ht; simpl.
    + apply send_text2_accepted, Hacc.
    + unfold MainV2.search_request. change (@MainV2.default) with (@Main.default).
      split.
      * intros Hok.
        destruct (match MainV2.supabase_manager w with Some _ => _ | None => _ end)
          as [|x found].
        -- destruct Hok as [Hne|[Hq Hl]]; [congruence|].
           destruct (call_search_symbols_returns _ _ (MainV2.symbol_manager st) Hq Hl)
             as [results ->].
           rewrite send_text2_accepted by exact Hacc. exists results. reflexivity.
        -- rewrite send_text2_accepted by exact Hacc. eexists. reflexivity.
      * intros -> Hbad.
        destruct (call_search_symbols_raises _ _ (MainV2.symbol_manager st) Hbad)
          as [e ->].
        exists e. reflexivity.
    + split.
      * intros Hsym.
        destruct (change_symbol2_replies w websocket is_market_hours data st Hacc Hsym)
          as (st' & evs & m & -> & Htr & Hm).
        simpl. exists st', evs, m. auto.
      * intros Hsym. rewrite change_symbol2_raises by exact Hsym. reflexivity.
    + unfold MainV2.change_timeframe, MainV2.send_historical.
      change (@MainV2.default) with (@Main.default).
      destruct is_market_hours; simpl; [reflexivity|].
      destruct (Wire.off_market_data _ _ _); [|reflexivity].
      rewrite send_text2_accepted by exact Hacc. reflexivity.
Qed.

Lemma command_replies_witness :
  let w := Wire.World Symbols.offline true true (fun _ => true) (fun _ _ => true) in
  let st := Main.at_time 7 (Main.initial 0) in
  let ping := Main.Command (Some (Wire.JString "ping")) None None None None in
  let change :=
    Main.Command (Some (Wire.JString "change_symbol")) (Some (Wire.JString "NOSUCH"))
      None None None in
  let null_symbol :=
    Main.Command (Some (Wire.JString "change_symbol")) (Some Wire.JNull) None None None in
  let timeframe :=
    Main.Command (Some (Wire.JString "change_timeframe")) None
      (Some (Wire.JString "5min")) None None in
  let null_query :=
    Main.Command (Some (Wire.JString "search_symbols")) None None (Some Wire.JNull) None in
  Main.handle_command w 1%nat true ping st
  = (Wire.Returned, Main.emit [Wire.SendText 1%nat (Wire.Pong 7)] st)
  /\ (exists st' evs m,
         Main.handle_command w 1%nat true change st = (Wire.Returned, st')
         /\ Main.trace st' = Main.trace st ++ evs ++ [Wire.SendText 1%nat m]
         /\ Obs.is_symbol_reply m)
  /\ Main.handle_command w 1%nat false timeframe st
     = (Wire.Returned,
        Main.emit
          [Wire.SendText 1%nat (Wire.OffMarketData "RELIANCE" (Wire.JString "5min"))] st)
  /\ (exists e, Main.handle_command w 1%nat true null_query st = (Wire.Raised e, st))
  /\ (exists st' evs m,
         MainV2.handle_command (MainV2.World2 w None None) 1%nat true change
           (MainV2.initial 0) = (Wire.Returned, st')
         /\ MainV2.trace st' = MainV2.trace (MainV2.initial 0) ++ evs ++ [Wire.SendText 1%nat m]
         /\ Obs.is_symbol_reply m)
  /\ MainV2.handle_command (MainV2.World2 w None None) 1%nat true null_symbol
       (MainV2.initial 0)
     = (Wire.Raised Wire.AttributeError, MainV2.initial 0).
Proof.
  intros w st ping change null_symbol timeframe null_query.
  destruct command_replies as [H1 H2].
  destruct (H1 w 1%nat true ping st eq_refl) as (Hping & _).
  destruct (H1 w 1%nat true change st eq_refl) as (_ & _ & Hchange & _).
  destruct (H1 w 1%nat false timeframe st eq_refl) as (_ & _ & _ & Htf & _).
  destruct (H1 w 1%nat true null_query st eq_refl) as (_ & Hsearch & _).
  destruct (H2 (MainV2.World2 w None None) 1%nat true change (MainV2.initial 0) eq_refl)
    as (_ & _ & Hchange2 & _).
  destruct (H2 (MainV2.World2 w None None) 1%nat true null_symbol (MainV2.initial 0)
              eq_refl) as (_ & _ & Hnull2 & _).
  split; [exact (Hping eq_refl)|].
  split; [apply (proj1 (Hchange eq_refl)); [exact I | reflexivity]|].
  split; [exact (Htf eq_refl)|].
  split; [apply (proj2 (Hsearch eq_refl)); intros [[] _]|].
  split; [apply (proj1 (Hchange2 eq_refl)); exact I|].
  apply (proj2 (Hnull2 eq_refl)). intros [].
Defined.

(** * Further properties *)

(** ** Dictionaries and upper-casing *)

Lemma upper_ascii_idem c : Py.upper_ascii (Py.upper_ascii c) = Py.upper_ascii c.
Proof.
  destruct c as [[] [] [] [] [] [] [] []]; vm_compute; reflexivity.
Qed.

Lemma upper_idem s : Py.upper (Py.upper s) = Py.upper s.
Proof.
  induction s as [|c s IH]; simpl; [reflexivity|].
  now rewrite upper_ascii_idem, IH.
Qed.

Section DictFacts.
Context {V : Type}.
Implicit Types (d : list (string * V)) (k : string) (v : V).

Lemma get_set_same k v d : Py.get k (Py.set k v d) = Some v.
Proof.
  induction d as [|[k' v'] d IH]; simpl.
  - now rewrite String.eqb_refl.
  - destruct (String.eqb k k') eqn:E; simpl; rewrite ?String.eqb_refl, ?E; auto.
Qed.

Lemma get_set_other k k' v d : k <> k' -> Py.get k (Py.set k' v d) = Py.get k d.
Proof.
  intros Hne. induction d as [|[k2 v2] d IH]; simpl.
  - apply String.eqb_neq in Hne. now rewrite Hne.
  - destruct (String.eqb k' k2) eqn:E; simpl.
    + apply String.eqb_eq in E. subst k2.
      apply String.eqb_neq in Hne. now rewrite Hne.
    + now rewrite IH.
Qed.



Lemma mem_set k k' v d :
  Py.mem k (Py.set k' v d) = if String.eqb k k' then true else Py.mem k d.
Proof.
  unfold Py.mem. destruct (String.eqb k k') eqn:E.
  - apply String.eqb_eq in E. subst. now rewrite get_set_same.
  - apply String.eqb_neq in E. now rewrite get_set_other.
Qed.

Lemma keys_set_new k v d :
  Py.mem k d = false -> map fst (Py.set k v d) = map fst d ++ [k].
Proof.
  unfold Py.mem. induction d as [|[k' v'] d IH]; simpl; [reflexivity|].
  destruct (String.eqb k k'); [discriminate|]. intros H. simpl. now rewrite IH.
Qed.

Lemma keys_set_old k v d :
  Py.mem k d = true -> map fst (Py.set k v d) = map fst d.
Proof.
  unfold Py.mem. induction d as [|[k' v'] d IH]; simpl; [discriminate|].
  destruct (String.eqb k k') eqn:E; simpl.
  - apply String.eqb_eq in E. now subst.
  - intros H. now rewrite IH.
Qed.


End DictFacts.

(** ** Symbol resolution *)

(** The five ways a call of [get_symbol_info] can go. *)
Lemma get_symbol_info_cases e now symbol m :
  let s := Py.upper symbol in
  let r := Symbols.get_symbol_info e now symbol m in
  (Py.mem s (Symbols.symbols_cache m) = true
   /\ r = (Py.get s (Symbols.symbols_cache m), m, []))
  \/ (Py.mem s (Symbols.symbols_cache m) = false
      /\ ((exists i, Symbols._mock_symbol_fetch s = Some i
                     /\ r = (Some i, Symbols._cache_symbol e now s i m,
                             [Symbols.MockLookup s]))
          \/ (Symbols._mock_symbol_fetch s = None
              /\ ((exists i, Symbols.dhanhq_api e s = Some i
                             /\ r = (Some i, Symbols._cache_symbol e now s i m,
                                     [Symbols.MockLookup s; Symbols.DhanhqLookup s]))
                  \/ (Symbols.dhanhq_api e s = None
                      /\ ((exists i, Symbols.nse_api e s = Some i
                                     /\ r = (Some i, Symbols._cache_symbol e now s i m,
                                             [Symbols.MockLookup s; Symbols.DhanhqLookup s;
                                              Symbols.NseLookup s]))
                          \/ (Symbols.nse_api e s = None
                              /\ r = (None, Symbols._log_unknown_symbol e s m,
                                      [Symbols.MockLookup s; Symbols.DhanhqLookup s;
                                       Symbols.NseLookup s])))))))).
Proof.
  intros s r. subst r. unfold Symbols.get_symbol_info. fold s.
  destruct (Py.mem s (Symbols.symbols_cache m)); [left; auto|]. right. split; [reflexivity|].
  unfold Symbols._fetch_symbol_from_api.
  destruct (Symbols._mock_symbol_fetch s) as [i|]; [left; eauto|]. right. split; [reflexivity|].
  unfold Symbols._fetch_symbol_alternative.
  destruct (Symbols.dhanhq_api e s) as [i|]; [left; eauto|]. right. split; [reflexivity|].
  destruct (Symbols.nse_api e s) as [i|]; [left; eauto | right; auto].
Qed.

Lemma cache_symbol_cache e now s i m :
  Symbols.symbols_cache (Symbols._cache_symbol e now s i m)
  = Py.set s i (Symbols.symbols_cache m).
Proof. unfold Symbols._cache_symbol. destruct (Symbols.store_ok e); reflexivity. Qed.

Lemma log_unknown_cache e s m :
  Symbols.symbols_cache (Symbols._log_unknown_symbol e s m) = Symbols.symbols_cache m.
Proof. unfold Symbols._log_unknown_symbol. destruct (Symbols.store_ok e); reflexivity. Qed.




(** What a call does to the cache: nothing, or one new key at the end. *)
Lemma get_symbol_info_cache e now symbol m :
  let s := Py.upper symbol in
  let m' := snd (fst (Symbols.get_symbol_info e now symbol m)) in
  Symbols.symbols_cache m' = Symbols.symbols_cache m
  \/ (Py.mem s (Symbols.symbols_cache m) = false
      /\ exists i, fst (fst (Symbols.get_symbol_info e now symbol m)) = Some i
                   /\ Symbols.symbols_cache m' = Symbols.symbols_cache m ++ [(s, i)]).
Proof.
  intros s m'. subst m'.
  assert (Hset : forall i, Py.mem s (Symbols.symbols_cache m) = false ->
            Py.set s i (Symbols.symbols_cache m) = Symbols.symbols_cache m ++ [(s, i)]).
  { intros i. unfold Py.mem. generalize (Symbols.symbols_cache m).
    induction l as [|[k v] l IH]; simpl; [reflexivity|].
    destruct (String.eqb s k); [discriminate|]. intros H. now rewrite IH. }
  destruct (get_symbol_info_cases e now symbol m)
    as [[_ E]|[Hm [(j & _ & E)|[_ [(j & _ & E)|[_ [(j & _ & E)|[_ E]]]]]]]];
    rewrite E; simpl; rewrite ?cache_symbol_cache, ?log_unknown_cache; auto;
    right; (split; [exact Hm|]); exists j; rewrite Hset by exact Hm; auto.
Qed.

(** X2. The cache is keyed by upper-case symbols and resolution does not
    depend on the case of the request: a call gives the same answer, manager
    and lookups for a symbol and for its upper-cased form, and it keeps every
    cache key upper-case. *)
Theorem cache_keys_are_upper_case :
  forall e now symbol m,
    Symbols.get_symbol_info e now symbol m
    = Symbols.get_symbol_info e now (Py.upper symbol) m
    /\ (Forall (fun k => Py.upper k = k) (Measures.cache_keys m) ->
        Forall (fun k => Py.upper k = k)
          (Measures.cache_keys (snd (fst (Symbols.get_symbol_info e now symbol m))))).
Proof.
  intros e now symbol m. split.
  - unfold Symbols.get_symbol_info. rewrite upper_idem. reflexivity.
  - intros Hk. unfold Measures.cache_keys in *.
    destruct (get_symbol_info_cache e now symbol m) as [->|(_ & i & _ & ->)]; [exact Hk|].
    rewrite map_app. apply Forall_app. split; [exact Hk|].
    constructor; [apply upper_idem | constructor].
Qed.

Lemma cache_keys_are_upper_case_witness :
  Measures.cache_keys
    (snd (fst (Symbols.get_symbol_info Symbols.offline 5 "googl"
                 (Symbols.Manager [("TCS", Symbols.Info "2953217" "TCS" "" "")] [] []))))
  = ["TCS"; "GOOGL"]
  /\ Forall (fun k => Py.upper k = k) ["TCS"; "GOOGL"].
Proof.
  split; [vm_compute; reflexivity|].
  apply (proj2 (cache_keys_are_upper_case Symbols.offline 5 "googl"
                  (Symbols.Manager [("TCS", Symbols.Info "2953217" "TCS" "" "")] [] []))).
  repeat constructor.
Defined.



(** X4. The sources are asked in a fixed order and no further than needed:
    nothing on a cache hit; the built-in table alone when it has the symbol;
    then DhanHQ, and NSE only when DhanHQ has no answer.  The answer is the
    one of the last source asked. *)
Theorem sources_are_asked_in_order :
  forall e now symbol m,
    let s := Py.upper symbol in
    let '(r, _, lookups) := Symbols.get_symbol_info e now symbol m in
    (lookups = [] /\ r = Py.get s (Symbols.symbols_cache m)
     /\ Py.mem s (Symbols.symbols_cache m) = true)
    \/ (lookups = [Symbols.MockLookup s]
        /\ r = Symbols._mock_symbol_fetch s /\ r <> None)
    \/ (lookups = [Symbols.MockLookup s; Symbols.DhanhqLookup s]
        /\ r = Symbols.dhanhq_api e s /\ r <> None)
    \/ (lookups = [Symbols.MockLookup s; Symbols.DhanhqLookup s; Symbols.NseLookup s]
        /\ r = Symbols.nse_api e s /\ Symbols.dhanhq_api e s = None).
Proof.
  intros e now symbol m s. subst s.
  destruct (get_symbol_info_cases e now symbol m)
    as [[Hm E]|[_ [(j & Hj & E)|[_ [(j & Hj & E)|[Hd [(j & Hj & E)|[Hj E]]]]]]]];
    rewrite E.
  - left. auto.
  - right. left. rewrite Hj. repeat split; discriminate.
  - right. right. left. rewrite Hj. repeat split; discriminate.
  - right. right. right. rewrite Hj. auto.
  - right. right. right. rewrite Hj. auto.
Qed.

(** ** The durable tables *)

Lemma NoDup_map_filter {A B} (f : A -> B) (p : A -> bool) l :
  NoDup (map f l) -> NoDup (map f (filter p l)).
Proof.
  induction l as [|x l IH]; simpl; [auto|].
  intros H. inversion H as [|? ? Hx Hl]; subst.
  destruct (p x); simpl; [|auto]. constructor; [|auto].
  intros Hin. apply Hx. apply in_map_iff in Hin. destruct Hin as (y & Hy & Hyin).
  apply filter_In in Hyin. apply in_map_iff. exists y. tauto.
Qed.

Lemma insert_or_replace_keys r t :
  NoDup (Measures.table_keys t) ->
  NoDup (Measures.table_keys (Symbols.insert_or_replace r t)).
Proof.
  intros H. unfold Measures.table_keys, Symbols.insert_or_replace.
  rewrite map_app. apply NoDup_app.
  - apply NoDup_map_filter, H.
  - repeat constructor. simpl. tauto.
  - intros k Hk [<-|[]]. apply in_map_iff in Hk. destruct Hk as (r' & Hr' & Hin).
    apply filter_In in Hin. destruct Hin as [_ Hne].
    rewrite Hr', String.eqb_refl in Hne. discriminate.
Qed.

Lemma insert_or_replace_in r t r' :
  In r' (Symbols.insert_or_replace r t)
  <-> r' = r \/ (In r' t /\ Symbols.row_symbol r' <> Symbols.row_symbol r).
Proof.
  unfold Symbols.insert_or_replace. rewrite in_app_iff, filter_In. simpl.
  rewrite negb_true_iff, String.eqb_neq. intuition.
Qed.

(** X5. A symbol found by a source while sqlite works is persisted: the
    [symbols] table then holds exactly one row for it, active, with the
    information found and the time of the call; all rows of other symbols
    stay, the keys stay distinct and [symbol_requests] is not written. *)
Theorem found_symbol_is_persisted :
  forall e now symbol m i m' l,
    Symbols.get_symbol_info e now symbol m = (Some i, m', l) ->
    l <> [] ->
    Symbols.store_ok e = true ->
    NoDup (Measures.table_keys (Symbols.symbols_table m)) ->
    let row := Symbols.SymbolRow (Py.upper symbol) i now true in
    NoDup (Measures.table_keys (Symbols.symbols_table m'))
    /\ (forall r, In r (Symbols.symbols_table m') <->
                  r = row \/ (In r (Symbols.symbols_table m)
                              /\ Symbols.row_symbol r <> Py.upper symbol))
    /\ Symbols.symbol_requests m' = Symbols.symbol_requests m.
Proof.
  intros e now symbol m i m' l H Hl Hok Hnd row.
  assert (Hm' : m' = Symbols._cache_symbol e now (Py.upper symbol) i m).
  { destruct (get_symbol_info_cases e now symbol m)
      as [[_ E]|[_ [(j & _ & E)|[_ [(j & _ & E)|[_ [(j & _ & E)|[_ E]]]]]]]];
      rewrite H in E; inversion E; subst; congruence. }
  subst m'. unfold Symbols._cache_symbol. rewrite Hok. simpl.
  split; [apply insert_or_replace_keys, Hnd|].
  split; [intros r; apply insert_or_replace_in | reflexivity].
Qed.

Lemma found_symbol_is_persisted_witness :
  let old := Symbols.SymbolRow "AAPL" (Symbols.Info "1" "OLD" "" "") 10 false in
  let tcs := Symbols.SymbolRow "TCS" (Symbols.Info "2953217" "TCS" "" "") 20 true in
  let m := Symbols.Manager [] [old; tcs] [] in
  let m' := snd (fst (Symbols.get_symbol_info Symbols.offline 700 "aapl" m)) in
  In tcs (Symbols.symbols_table m')
  /\ In (Symbols.SymbolRow "AAPL"
           (Symbols.Info "1234567" "APPLE INC" "Technology" "") 700 true)
        (Symbols.symbols_table m')
  /\ ~ In old (Symbols.symbols_table m').
Proof.
  intros old tcs m m'.
  destruct (found_symbol_is_persisted Symbols.offline 700 "aapl" m
              (Symbols.Info "1234567" "APPLE INC" "Technology" "") m'
              [Symbols.MockLookup "AAPL"]) as (_ & Hin & _).
  - vm_compute. reflexivity.
  - discriminate.
  - reflexivity.
  - repeat constructor; simpl; intuition discriminate.
  - split; [|split].
    + apply Hin. right. split; [simpl; auto | discriminate].
    + apply Hin. left. reflexivity.
    + intros Hold. apply Hin in Hold. destruct Hold as [Heq|[_ Hne]].
      * discriminate.
      * apply Hne. reflexivity.
Defined.

(** X6. A failing sqlite never fails a resolution: with the same sources,
    the answer, the lookups and the in-memory cache are the same as with a
    working store; only the two tables are left unwritten. *)
Theorem store_failure_is_harmless :
  forall dhanhq nse now symbol m,
    let good := Symbols.get_symbol_info (Symbols.Env dhanhq nse true) now symbol m in
    let bad := Symbols.get_symbol_info (Symbols.Env dhanhq nse false) now symbol m in
    fst (fst bad) = fst (fst good)
    /\ snd bad = snd good
    /\ Symbols.symbols_cache (snd (fst bad)) = Symbols.symbols_cache (snd (fst good))
    /\ Symbols.symbols_table (snd (fst bad)) = Symbols.symbols_table m
    /\ Symbols.symbol_requests (snd (fst bad)) = Symbols.symbol_requests m.
Proof.
  intros dhanhq nse now symbol m good bad. subst good bad.
  unfold Symbols.get_symbol_info.
  destruct (Py.mem _ _); [repeat split|].
  unfold Symbols._fetch_symbol_from_api.
  destruct (Symbols._mock_symbol_fetch _); [repeat split|].
  unfold Symbols._fetch_symbol_alternative. simpl.
  destruct (dhanhq _); [repeat split|].
  destruct (nse _); repeat split.
Qed.

(** X7. [symbol_requests] is append-only: a call keeps the rows it finds,
    writes nothing when the symbol is found, and on a miss adds one more
    "unknown" row (when sqlite takes it) each time, also for a symbol that
    is already listed. *)
Theorem requests_are_append_only :
  forall e now symbol m,
    let '(r, m', _) := Symbols.get_symbol_info e now symbol m in
    Symbols.symbol_requests m'
    = Symbols.symbol_requests m ++
        match r with
        | Some _ => []
        | None =>
            if Symbols.store_ok e
            then [Symbols.RequestRow (Py.upper symbol) "unknown"]
            else []
        end.
Proof.
  intros e now symbol m.
  destruct (get_symbol_info_cases e now symbol m)
    as [[Hm E]|[_ [(j & _ & E)|[_ [(j & _ & E)|[_ [(j & _ & E)|[_ E]]]]]]]];
    rewrite E;
    unfold Symbols._cache_symbol, Symbols._log_unknown_symbol;
    try (destruct (Symbols.store_ok e); simpl; rewrite ?app_nil_r; reflexivity).
  unfold Py.mem in Hm.
  destruct (Py.get _ _); [symmetry; apply app_nil_r | discriminate].
Qed.

(** ** Loading, sweeping and listing the [symbols] table *)

Lemma insert_latest_first_perm r rows :
  Permutation (Symbols.insert_latest_first r rows) (r :: rows).
Proof.
  induction rows as [|r' rows IH]; simpl; [reflexivity|].
  destruct (Z.leb _ _); [reflexivity|]. rewrite IH. apply perm_swap.
Qed.

Lemma latest_first_perm rows : Permutation (Symbols.latest_first rows) rows.
Proof.
  induction rows as [|r rows IH]; simpl; [reflexivity|].
  rewrite insert_latest_first_perm. now constructor.
Qed.


Lemma select_active_in t r :
  In r (Symbols.select_active t) <-> In r t /\ Symbols.row_is_active r = true.
Proof.
  unfold Symbols.select_active. rewrite <- filter_In.
  split; apply Permutation_in; [|symmetry]; apply latest_first_perm.
Qed.

Lemma select_active_keys t :
  NoDup (Measures.table_keys t) -> NoDup (Measures.table_keys (Symbols.select_active t)).
Proof.
  intros H. unfold Measures.table_keys, Symbols.select_active.
  eapply Permutation_NoDup.
  - symmetry. apply Permutation_map, latest_first_perm.
  - apply NoDup_map_filter, H.
Qed.

(** The cache that the loop of [_load_cached_symbols] builds. *)
Lemma load_get rows : forall cache k,
  NoDup (Measures.table_keys rows) ->
  Py.get k
    (fold_left (fun c r => Py.set (Symbols.row_symbol r) (Symbols.row_info r) c) rows cache)
  = match find (fun r => String.eqb (Symbols.row_symbol r) k) rows with
    | Some r => Some (Symbols.row_info r)
    | None => Py.get k cache
    end.
Proof.
  induction rows as [|r rows IH]; intros cache k Hnd; simpl; [reflexivity|].
  inversion Hnd as [|? ? Hr Hrows]; subst. rewrite IH by exact Hrows.
  destruct (String.eqb (Symbols.row_symbol r) k) eqn:E.
  - apply String.eqb_eq in E. subst k.
    destruct (find _ rows) as [r'|] eqn:F.
    + apply find_some in F. destruct F as [Hin Heq]. apply String.eqb_eq in Heq.
      exfalso. apply Hr. rewrite <- Heq. apply in_map, Hin.
    + apply get_set_same.
  - apply String.eqb_neq in E.
    destruct (find _ rows); [reflexivity|]. apply get_set_other. congruence.
Qed.

Lemma find_by_key rows k r :
  NoDup (Measures.table_keys rows) ->
  (find (fun r => String.eqb (Symbols.row_symbol r) k) rows = Some r
   <-> In r rows /\ Symbols.row_symbol r = k).
Proof.
  intros Hnd. split.
  - intros F. apply find_some in F. rewrite String.eqb_eq in F. exact F.
  - intros [Hin <-]. induction rows as [|r' rows IH]; simpl; [destruct Hin|].
    inversion Hnd as [|? ? Hr Hrows]; subst.
    destruct Hin as [->|Hin]; [now rewrite String.eqb_refl|].
    destruct (String.eqb _ _) eqn:E; [|auto].
    apply String.eqb_eq in E. exfalso. apply Hr. rewrite E. apply in_map, Hin.
Qed.

(** What a new manager has in memory: the active rows of the table. *)
Lemma init_cache e t requests m2 :
  NoDup (Measures.table_keys t) ->
  Symbols.__init__ e t requests = Some m2 ->
  Symbols.symbols_table m2 = t
  /\ Symbols.symbol_requests m2 = requests
  /\ forall s i,
       Py.get s (Symbols.symbols_cache m2) = Some i
       <-> exists r, In r t /\ Symbols.row_is_active r = true
                     /\ Symbols.row_symbol r = s /\ Symbols.row_info r = i.
Proof.
  intros Hnd H. unfold Symbols.__init__, Symbols._load_cached_symbols in H.
  destruct (Symbols.store_ok e); [|discriminate]. inversion H; subst m2; clear H.
  simpl. split; [reflexivity|]. split; [reflexivity|].
  intros s i. rewrite load_get by (apply select_active_keys, Hnd).
  destruct (find _ _) as [r|] eqn:F.
  - apply find_by_key in F; [|apply select_active_keys, Hnd].
    destruct F as [Hin Hs]. apply select_active_in in Hin. destruct Hin as [Hin Hact].
    split.
    + intros [= <-]. exists r. auto.
    + intros (r' & Hin' & Hact' & Hs' & <-).
      assert (r' = r); [|congruence].
      assert (F' : find (fun r0 => String.eqb (Symbols.row_symbol r0) s) t = Some r')
        by (apply find_by_key; auto).
      assert (F2 : find (fun r0 => String.eqb (Symbols.row_symbol r0) s) t = Some r)
        by (apply find_by_key; auto).
      congruence.
  - simpl. split; [discriminate|].
    intros (r & Hin & Hact & Hs & _). exfalso.
    assert (F' : find (fun r0 => String.eqb (Symbols.row_symbol r0) s)
                   (Symbols.select_active t) = Some r).
    { apply find_by_key; [apply select_active_keys, Hnd|].
      split; [apply select_active_in; auto | exact Hs]. }
    congruence.
Qed.

Lemma sweep_active now t :
  filter Symbols.row_is_active
    (map (fun r =>
            if Symbols.row_last_updated r <? now - Symbols.retention
            then Symbols.SymbolRow (Symbols.row_symbol r) (Symbols.row_info r)
                   (Symbols.row_last_updated r) false
            else r) t)
  = filter (Measures.fresh_at now) t.
Proof.
  induction t as [|r t IH]; simpl; [reflexivity|]. unfold Measures.fresh_at at 1.
  destruct (Symbols.row_last_updated r <? now - Symbols.retention); simpl.
  - rewrite andb_false_r. exact IH.
  - rewrite andb_true_r. destruct (Symbols.row_is_active r); now rewrite IH.
Qed.

Lemma sweep_keys now t :
  Measures.table_keys
    (map (fun r =>
            if Symbols.row_last_updated r <? now - Symbols.retention
            then Symbols.SymbolRow (Symbols.row_symbol r) (Symbols.row_info r)
                   (Symbols.row_last_updated r) false
            else r) t)
  = Measures.table_keys t.
Proof.
  unfold Measures.table_keys. rewrite map_map. apply map_ext.
  intros r. destruct (_ <? _); reflexivity.
Qed.

(** X8. The sweep and a restart together: [cleanup_old_symbols] leaves the
    in-memory cache alone, so a stale symbol keeps being served until the
    process ends; a manager started on the swept table has in memory exactly
    the symbols whose row was active and updated within the last thirty
    days, with the information of that row. *)
Theorem restart_after_sweep_keeps_fresh_symbols :
  forall e now m e2 m2,
    NoDup (Measures.table_keys (Symbols.symbols_table m)) ->
    Symbols.store_ok e = true ->
    let swept := Symbols.cleanup_old_symbols e now m in
    Symbols.__init__ e2 (Symbols.symbols_table swept) (Symbols.symbol_requests swept)
    = Some m2 ->
    Symbols.symbols_cache swept = Symbols.symbols_cache m
    /\ forall s i,
         Py.get s (Symbols.symbols_cache m2) = Some i
         <-> exists r, In r (Symbols.symbols_table m)
                       /\ Measures.fresh_at now r = true
                       /\ Symbols.row_symbol r = s /\ Symbols.row_info r = i.
Proof.
  intros e now m e2 m2 Hnd Hok swept Hinit.
  subst swept. unfold Symbols.cleanup_old_symbols in *. rewrite Hok in *.
  simpl in *. split; [reflexivity|].
  unfold Symbols.__init__, Symbols._load_cached_symbols in Hinit.
  destruct (Symbols.store_ok e2); [|discriminate]. inversion Hinit; subst m2; clear Hinit.
  simpl. intros s i.
  unfold Symbols.select_active. rewrite sweep_active.
  assert (Hk : NoDup (Measures.table_keys
                        (Symbols.latest_first (filter (Measures.fresh_at now)
                                                 (Symbols.symbols_table m))))).
  { unfold Measures.table_keys. eapply Permutation_NoDup.
    - symmetry. apply Permutation_map, latest_first_perm.
    - apply NoDup_map_filter, Hnd. }
  rewrite load_get by exact Hk.
  assert (Hin : forall r, In r (Symbols.latest_first
                                  (filter (Measures.fresh_at now) (Symbols.symbols_table m)))
                          <-> In r (Symbols.symbols_table m) /\ Measures.fresh_at now r = true).
  { intros r. rewrite <- filter_In.
    split; apply Permutation_in; [|symmetry]; apply latest_first_perm. }
  destruct (find _ _) as [r|] eqn:F.
  - apply find_by_key in F; [|exact Hk]. destruct F as [Hr Hs]. apply Hin in Hr.
    split.
    + intros [= <-]. exists r. tauto.
    + intros (r' & Hin' & Hf' & Hs' & <-).
      assert (F' : find (fun r0 => String.eqb (Symbols.row_symbol r0) s)
                     (Symbols.symbols_table m) = Some r')
        by (apply find_by_key; auto).
      assert (F2 : find (fun r0 => String.eqb (Symbols.row_symbol r0) s)
                     (Symbols.symbols_table m) = Some r)
        by (apply find_by_key; tauto).
      congruence.
  - simpl. split; [discriminate|].
    intros (r & Hin' & Hf & Hs & _). exfalso.
    assert (F' : find (fun r0 => String.eqb (Symbols.row_symbol r0) s)
                   (Symbols.latest_first (filter (Measures.fresh_at now)
                                            (Symbols.symbols_table m))) = Some r).
    { apply find_by_key; [exact Hk|]. split; [apply Hin; auto | exact Hs]. }
    congruence.
Qed.

Lemma restart_after_sweep_keeps_fresh_symbols_witness :
  let day := 86400 * 1000 in
  let stale := Symbols.SymbolRow "ITC" (Symbols.Info "424961" "ITC" "" "") (1 * day) true in
  let fresh := Symbols.SymbolRow "TCS" (Symbols.Info "2953217" "TCS" "" "") (20 * day) true in
  let m := Symbols.Manager [("ITC", Symbols.Info "424961" "ITC" "" "")] [stale; fresh] [] in
  let swept := Symbols.cleanup_old_symbols Symbols.offline (40 * day) m in
  exists m2,
    Symbols.__init__ Symbols.offline (Symbols.symbols_table swept)
      (Symbols.symbol_requests swept) = Some m2
    /\ Py.get "ITC" (Symbols.symbols_cache swept) = Some (Symbols.Info "424961" "ITC" "" "")
    /\ Py.get "TCS" (Symbols.symbols_cache m2) = Some (Symbols.Info "2953217" "TCS" "" "")
    /\ Py.get "ITC" (Symbols.symbols_cache m2) = None.
Proof.
  intros day stale fresh m swept.
  eexists. split; [vm_compute; reflexivity|].
  match goal with
  | |- context [Py.get "ITC" (Symbols.symbols_cache ?x) = None] => set (m2 := x)
  end.
  destruct (restart_after_sweep_keeps_fresh_symbols Symbols.offline (40 * day) m
              Symbols.offline m2) as [Hc Hget].
  - repeat constructor; simpl; intuition discriminate.
  - reflexivity.
  - vm_compute. reflexivity.
  - split; [subst swept; rewrite Hc; reflexivity|]. split.
    + apply Hget. exists fresh. repeat split. simpl. auto.
    + vm_compute. reflexivity.
Defined.

(** X9. Resolution survives a restart: a symbol found by a source while
    sqlite works is in the cache of every manager later started on the same
    tables, which answers it with the same information and asks no source. *)
Theorem found_symbol_survives_restart :
  forall e now symbol m i m' l e2 m2,
    Symbols.get_symbol_info e now symbol m = (Some i, m', l) ->
    l <> [] ->
    Symbols.store_ok e = true ->
    NoDup (Measures.table_keys (Symbols.symbols_table m)) ->
    Symbols.__init__ e2 (Symbols.symbols_table m') (Symbols.symbol_requests m') = Some m2 ->
    forall e3 now3,
      Symbols.get_symbol_info e3 now3 symbol m2 = (Some i, m2, []).
Proof.
  intros e now symbol m i m' l e2 m2 H Hl Hok Hnd Hinit e3 now3.
  assert (Hm' : m' = Symbols._cache_symbol e now (Py.upper symbol) i m).
  { destruct (get_symbol_info_cases e now symbol m)
      as [[_ E]|[_ [(j & _ & E)|[_ [(j & _ & E)|[_ [(j & _ & E)|[_ E]]]]]]]];
      rewrite H in E; inversion E; subst; congruence. }
  assert (Ht : Symbols.symbols_table m'
               = Symbols.insert_or_replace
                   (Symbols.SymbolRow (Py.upper symbol) i now true)
                   (Symbols.symbols_table m)).
  { subst m'. unfold Symbols._cache_symbol. rewrite Hok. reflexivity. }
  rewrite Ht in Hinit.
  destruct (init_cache e2 _ _ m2 (insert_or_replace_keys _ _ Hnd) Hinit)
    as (_ & _ & Hget).
  assert (Hs : Py.get (Py.upper symbol) (Symbols.symbols_cache m2) = Some i).
  { apply Hget. exists (Symbols.SymbolRow (Py.upper symbol) i now true).
    rewrite insert_or_replace_in. auto. }
  unfold Symbols.get_symbol_info, Py.mem. rewrite Hs. reflexivity.
Qed.

Lemma found_symbol_survives_restart_witness :
  let m' := snd (fst (Symbols.get_symbol_info Symbols.offline 700 "aapl"
                        Symbols.empty_manager)) in
  exists m2,
    Symbols.__init__ Symbols.offline (Symbols.symbols_table m')
      (Symbols.symbol_requests m') = Some m2
    /\ Symbols.get_symbol_info
         (Symbols.Env (fun _ => None) (fun _ => None) false) 9000 "AAPL" m2
       = (Some (Symbols.Info "1234567" "APPLE INC" "Technology" ""), m2, []).
Proof.
  intros m'. eexists. split; [vm_compute; reflexivity|].
  eapply (found_symbol_survives_restart Symbols.offline 700 "AAPL"
            Symbols.empty_manager _ m' [Symbols.MockLookup "AAPL"] Symbols.offline).
  - vm_compute. reflexivity.
  - discriminate.
  - reflexivity.
  - constructor.
  - vm_compute. reflexivity.
Defined.




(** ** Search: limits and completeness *)

Lemma sort_length {A} (key : A -> nat) l :
  List.length (Py.sort key l) = List.length l.
Proof. apply Permutation_length, sort_perm. Qed.

(** X11. A negative limit is a Python slice from the end: the search then
    returns the ranked list without its last [-limit] entries (nothing when
    there are no more than that), not an empty and not an unlimited list. *)
Theorem negative_limit_drops_from_the_end :
  forall query limit m,
    limit < 0 ->
    let q := Py.upper query in
    let ranked := Py.sort (Symbols.relevance q) (Symbols.candidates q m) in
    exists dropped,
      ranked = Symbols.search_symbols query limit m ++ dropped
      /\ List.length dropped = Nat.min (Z.to_nat (- limit)) (List.length ranked)
      /\ List.length (Symbols.search_symbols query limit m)
         = (List.length (Symbols.candidates q m) - Z.to_nat (- limit))%nat.
Proof.
  intros query limit m Hneg q ranked.
  unfold Symbols.search_symbols, Py.slice_to. fold q. fold ranked.
  apply Z.leb_gt in Hneg. rewrite Hneg. apply Z.leb_gt in Hneg.
  set (n := Z.to_nat (Z.of_nat (List.length ranked) + limit)).
  exists (skipn n ranked).
  split; [symmetry; apply firstn_skipn|].
  assert (Hlen : List.length ranked = List.length (Symbols.candidates q m))
    by apply sort_length.
  rewrite length_skipn, length_firstn. subst n. split; lia.
Qed.

Lemma negative_limit_drops_from_the_end_witness :
  let m := Symbols.Manager
             [("TCS", Symbols.Info "2953217" "TCS" "" "");
              ("TCSX", Symbols.Info "1" "X" "" "");
              ("ATCS", Symbols.Info "2" "Y" "" "")] [] [] in
  List.length (Symbols.search_symbols "tcs" (-1) m) = 2%nat
  /\ Symbols.search_symbols "tcs" (-5) m = [].
Proof.
  intros m.
  destruct (negative_limit_drops_from_the_end "tcs" (-1) m) as (d & _ & _ & Hlen); [lia|].
  split; [exact Hlen | vm_compute; reflexivity].
Defined.

Lemma candidates_symbols query m :
  map Symbols.hit_symbol (Symbols.candidates query m)
  = map fst (filter (Symbols.matches query) (Symbols.symbols_cache m)).
Proof.
  unfold Symbols.candidates. rewrite map_map. apply map_ext. now intros [k i].
Qed.

(** X12. Over a cache with distinct keys the search lists no symbol twice,
    and with a limit no smaller than the number of matching entries it
    misses none of them. *)
Theorem search_is_complete_and_distinct :
  forall query limit m,
    NoDup (Measures.cache_keys m) ->
    let q := Py.upper query in
    NoDup (map Symbols.hit_symbol (Symbols.search_symbols query limit m))
    /\ (Z.of_nat (List.length (Symbols.candidates q m)) <= limit ->
        forall entry,
          In entry (Symbols.symbols_cache m) ->
          Symbols.matches q entry = true ->
          In (Symbols.to_hit entry) (Symbols.search_symbols query limit m)).
Proof.
  intros query limit m Hnd q.
  set (ranked := Py.sort (Symbols.relevance q) (Symbols.candidates q m)).
  assert (Hperm : Permutation ranked (Symbols.candidates q m)) by apply sort_perm.
  destruct (slice_to_firstn limit ranked) as (n & Hn & Hlim).
  assert (Hres : Symbols.search_symbols query limit m = firstn n ranked) by exact Hn.
  rewrite Hres. split.
  - assert (Hr : NoDup (map Symbols.hit_symbol ranked)).
    { eapply Permutation_NoDup; [symmetry; apply Permutation_map, Hperm|].
      rewrite candidates_symbols. apply NoDup_map_filter, Hnd. }
    rewrite <- (firstn_skipn n ranked), map_app in Hr.
    apply NoDup_app_remove_r in Hr. exact Hr.
  - intros Hbig entry Hin Hmatch.
    rewrite firstn_all2.
    + apply (Permutation_in _ (Permutation_sym Hperm)).
      unfold Symbols.candidates. apply in_map, filter_In. auto.
    + rewrite (Permutation_length Hperm), Hlim; lia.
Qed.

Lemma search_is_complete_and_distinct_witness :
  let m := Symbols.Manager
             [("TCS", Symbols.Info "2953217" "TCS" "" "");
              ("INFY", Symbols.Info "408065" "INFOSYS" "" "");
              ("ATCS", Symbols.Info "2" "Y" "" "")] [] [] in
  In (Symbols.Hit "ATCS" "2" "Y" "" "") (Symbols.search_symbols "tcs" 2 m).
Proof.
  intros m.
  destruct (search_is_complete_and_distinct "tcs" 2 m) as [_ Hall].
  - repeat constructor; simpl; intuition discriminate.
  - apply (Hall ltac:(vm_compute; discriminate) ("ATCS", Symbols.Info "2" "Y" "" "")).
    + simpl. auto.
    + vm_compute. reflexivity.
Defined.

(** ** The tick buffer and the aggregated records *)

Lemma maxlen_positive : (0 < Main.maxlen)%nat.
Proof. unfold Main.maxlen. lia. Qed.

Lemma aggregate_ticks_buffer w st :
  Main.tick_buffer (snd (Main.aggregate_ticks w st)) = Main.tick_buffer st
  \/ Main.tick_buffer (snd (Main.aggregate_ticks w st)) = [].
Proof.
  unfold Main.aggregate_ticks. destruct (_ <? _); [now left|]. right.
  destruct (Main.aggregated_trades _ _); reflexivity.
Qed.

(** X13. The tick buffer never holds more than 10000 ticks: appending to a
    full buffer drops its oldest tick and keeps the new one last, and no feed
    message makes the buffer longer than that. *)
Theorem tick_buffer_is_bounded :
  (forall t buffer,
      (List.length buffer <= Main.maxlen)%nat ->
      (List.length (Main.deque_append t buffer) <= Main.maxlen)%nat
      /\ (exists kept, Main.deque_append t buffer = kept ++ [t])
      /\ ((List.length buffer < Main.maxlen)%nat ->
          Main.deque_append t buffer = buffer ++ [t])
      /\ (List.length buffer = Main.maxlen ->
          Main.deque_append t buffer = tl buffer ++ [t]))
  /\ (forall w message st,
         (List.length (Main.tick_buffer st) <= Main.maxlen)%nat ->
         (List.length (Main.tick_buffer (Main.process_message w message st))
          <= Main.maxlen)%nat).
Proof.
  pose proof maxlen_positive as Hpos.
  assert (Happ : forall t buffer,
    (List.length buffer <= Main.maxlen)%nat ->
    (List.length (Main.deque_append t buffer) <= Main.maxlen)%nat).
  { intros t buffer Hlen. unfold Main.deque_append.
    destruct (Nat.ltb _ _) eqn:E; rewrite length_app; simpl.
    - apply Nat.ltb_lt in E. lia.
    - apply Nat.ltb_ge in E. destruct buffer; simpl in *; lia. }
  split.
  - intros t buffer Hlen. split; [apply Happ, Hlen|].
    unfold Main.deque_append. destruct (Nat.ltb _ _) eqn:E.
    + split; [eexists; reflexivity|]. split; [reflexivity|].
      apply Nat.ltb_lt in E. lia.
    + split; [eexists; reflexivity|]. split; [|reflexivity].
      apply Nat.ltb_ge in E. lia.
  - intros w message st Hlen.
    destruct message as [raw| |data]; try exact Hlen.
    unfold Main.process_message.
    destruct (String.eqb _ "market_depth"); [exact Hlen|].
    destruct (String.eqb _ "tick").
    + unfold Main.process_tick.
      match goal with |- context [Main.aggregate_ticks w ?s] =>
        pose proof (aggregate_ticks_buffer w s) as Hb;
        destruct (Main.aggregate_ticks w s) as [[|ex] s'] end;
        simpl in *; destruct Hb as [-> | ->]; simpl; try lia; apply Happ, Hlen.
    + destruct (String.eqb _ "quote"); [exact Hlen|].
      destruct (String.eqb _ "error"); exact Hlen.
Qed.

Lemma tick_buffer_is_bounded_witness :
  Main.deque_append (Main.Tick 3 1 "buy" 0) [Main.Tick 1 1 "buy" 0; Main.Tick 2 1 "sell" 0]
  = [Main.Tick 1 1 "buy" 0; Main.Tick 2 1 "sell" 0] ++ [Main.Tick 3 1 "buy" 0].
Proof.
  destruct tick_buffer_is_bounded as [Happend _].
  destruct (Happend (Main.Tick 3 1 "buy" 0)
              [Main.Tick 1 1 "buy" 0; Main.Tick 2 1 "sell" 0]) as (_ & _ & Hshort & _).
  - pose proof maxlen_positive. unfold Main.maxlen. simpl List.length. lia.
  - apply Hshort. unfold Main.maxlen. simpl List.length. lia.
Defined.

Lemma level_at_bump p p' f fresh d :
  Measures.level_at p (Wire.bump p' f fresh d)
  = if Z.eqb p p'
    then Some (f (match Measures.level_at p' d with Some l => l | None => fresh end))
    else Measures.level_at p d.
Proof.
  induction d as [|[k l] d IH]; simpl.
  - destruct (Z.eqb p p'); reflexivity.
  - destruct (Z.eqb p' k) eqn:E; simpl.
    + apply Z.eqb_eq in E. subst k.
      destruct (Z.eqb p p') eqn:E2; rewrite ?Z.eqb_refl; reflexivity.
    + rewrite IH. destruct (Z.eqb p p') eqn:E2; [|reflexivity].
      apply Z.eqb_eq in E2. subst p'. rewrite ?E. reflexivity.
Qed.

Lemma bump_keys p f fresh d :
  NoDup (map fst d) -> NoDup (map fst (Wire.bump p f fresh d)).
Proof.
  induction d as [|[k l] d IH]; simpl; intros H.
  - repeat constructor. simpl. tauto.
  - inversion H as [|? ? Hk Hd]; subst.
    destruct (Z.eqb p k) eqn:E; simpl; [exact H|].
    apply Z.eqb_neq in E. constructor; [|auto].
    intros Hin. apply Hk. clear -Hin E.
    induction d as [|[k' l'] d IH]; simpl in *.
    + destruct Hin as [Hin|[]]. congruence.
    + destruct (Z.eqb p k'); simpl in *; tauto.
Qed.

Lemma sum_quantity_app b1 b2 :
  Obs.sum_quantity (b1 ++ b2) = Obs.sum_quantity b1 + Obs.sum_quantity b2.
Proof. induction b1; simpl; lia. Qed.

Lemma buy_quantity_app b1 b2 :
  Measures.buy_quantity (b1 ++ b2) = Measures.buy_quantity b1 + Measures.buy_quantity b2.
Proof. induction b1; simpl; lia. Qed.

Lemma ticks_at_app p b1 b2 :
  Measures.ticks_at p (b1 ++ b2) = Measures.ticks_at p b1 ++ Measures.ticks_at p b2.
Proof. apply filter_app. Qed.

(** One more tick of the price of a record. *)
Lemma add_tick_summary now t ticks :
  Some (Main.add_tick t
          (match Measures.summary now ticks with
           | Some l => l
           | None => Wire.fresh_level now
           end))
  = Measures.summary now (ticks ++ [t]).
Proof.
  unfold Measures.summary, Main.add_tick.
  assert (Hne : ticks ++ [t] <> []) by (destruct ticks; discriminate).
  destruct (ticks ++ [t]) as [|t0 rest] eqn:E; [congruence|]. rewrite <- E. clear Hne.
  rewrite sum_quantity_app, buy_quantity_app, length_app. simpl.
  destruct ticks as [|t1 ticks']; simpl;
    destruct (String.eqb (Main.side t) "buy"); simpl; f_equal; f_equal; lia.
Qed.

(** X14. The aggregation of main.py partitions the buffer by price: each
    price that occurs has exactly one record, and that record holds the sum
    of the quantities of the ticks at that price, the sum over the "buy"
    ticks among them, the rest as sell volume, their number and the time of
    the flush; a price that does not occur has no record. *)
Theorem aggregated_trades_partition_by_price :
  forall now buffer,
    let d := Main.aggregated_trades now buffer in
    NoDup (map fst d)
    /\ forall p, Measures.level_at p d = Measures.summary now (Measures.ticks_at p buffer).
Proof.
  intros now buffer d. subst d. unfold Main.aggregated_trades.
  assert (H : forall pre d0,
    NoDup (map fst d0) ->
    (forall p, Measures.level_at p d0 = Measures.summary now (Measures.ticks_at p pre)) ->
    let d := fold_left
               (fun d t => Wire.bump (Main.price t) (Main.add_tick t)
                             (Wire.fresh_level now) d) buffer d0 in
    NoDup (map fst d)
    /\ forall p, Measures.level_at p d
                 = Measures.summary now (Measures.ticks_at p (pre ++ buffer))).
  { induction buffer as [|t buffer IH]; intros pre d0 Hnd Hinv; simpl.
    - rewrite app_nil_r. auto.
    - replace (pre ++ t :: buffer) with ((pre ++ [t]) ++ buffer)
        by (rewrite <- app_assoc; reflexivity).
      apply IH; [apply bump_keys, Hnd|].
      intros p. rewrite level_at_bump, ticks_at_app. simpl.
      rewrite (Z.eqb_sym (Main.price t) p).
      destruct (Z.eqb p (Main.price t)) eqn:E.
      + apply Z.eqb_eq in E. subst p. rewrite Hinv. apply add_tick_summary.
      + rewrite app_nil_r. apply Hinv. }
  apply (H [] []); [constructor | reflexivity].
Qed.

Section BumpForall.
Variables (P : Wire.level -> Prop) (f : Wire.level -> Wire.level) (fresh : Wire.level).
Hypothesis f_keeps : forall l, P l -> P (f l).
Hypothesis fresh_ok : P fresh.

Lemma bump_forall p d :
  Forall (fun e => P (snd e)) d -> Forall (fun e => P (snd e)) (Wire.bump p f fresh d).
Proof.
  induction 1 as [|[p' l] d Hl Hd IH]; simpl.
  - constructor; [apply f_keeps, fresh_ok | constructor].
  - destruct (Z.eqb p p'); constructor; simpl; auto.
Qed.
End BumpForall.

(** X15. In every record of the aggregation of main_v2.py the sell volume
    is at least the buy volume and exceeds it by at most the number of
    trades of the record: the half rounded up goes to the sell side once per
    tick of odd quantity. *)
Theorem v2_split_skews_to_sell :
  forall now buffer,
    Forall (fun e => Measures.skew_bounded (snd e)) (MainV2.aggregated_trades now buffer).
Proof.
  intros now buffer. unfold MainV2.aggregated_trades.
  assert (H : forall d,
    Forall (fun e => Measures.skew_bounded (snd e)) d ->
    Forall (fun e => Measures.skew_bounded (snd e))
      (fold_left
         (fun d t =>
            Wire.bump (MainV2.default 0 (MainV2.price t)) (MainV2.add_tick t)
              (Wire.fresh_level (MainV2.default now (MainV2.tick_timestamp t))) d)
         buffer d)).
  { induction buffer as [|t buffer IH]; intros d Hd; simpl; [exact Hd|].
    apply IH, bump_forall; [|unfold Measures.skew_bounded; simpl; lia | exact Hd].
    intros l [Hs Hc]. unfold Measures.skew_bounded, MainV2.add_tick.
    cbn [Wire.buy_volume Wire.sell_volume Wire.trade_count].
    set (q := MainV2.default 0 (MainV2.quantity t)). clearbody q.
    pose proof (Z.div_mod q 2 ltac:(lia)).
    pose proof (Z.mod_pos_bound q 2 ltac:(lia)). lia. }
  apply H. constructor.
Qed.

(** ** What the feed never does *)

Lemma quiet_refl st : Measures.quiet st st.
Proof. split; [reflexivity|]. exists []. split; [symmetry; apply app_nil_r | reflexivity]. Qed.

Lemma quiet_trans st1 st2 st3 :
  Measures.quiet st1 st2 -> Measures.quiet st2 st3 -> Measures.quiet st1 st3.
Proof.
  intros [Hc1 (e1 & Ht1 & Hf1)] [Hc2 (e2 & Ht2 & Hf2)].
  split; [congruence|]. exists (e1 ++ e2).
  split; [rewrite Ht2, Ht1, app_assoc; reflexivity|].
  intros ws. rewrite frames_to_app, Hf1, Hf2. reflexivity.
Qed.

Lemma quiet_emit evs st :
  (forall websocket, Obs.frames_to websocket evs = []) ->
  Measures.quiet st (Main.emit evs st).
Proof. intros H. split; [reflexivity|]. exists evs. auto. Qed.

(** A state that differs in fields other than the sessions and the trace. *)
Lemma quiet_same st st' :
  Main.connected_clients st' = Main.connected_clients st ->
  Main.trace st' = Main.trace st ->
  Measures.quiet st st'.
Proof.
  intros Hc Ht. split; [exact Hc|]. exists [].
  split; [rewrite Ht; symmetry; apply app_nil_r | reflexivity].
Qed.

(** A step made of field updates and of log lines. *)
Ltac quiet_step :=
  first
    [ apply quiet_same; reflexivity
    | split;
      [ reflexivity
      | eexists; split; [simpl; reflexivity | intros; reflexivity] ] ].

Lemma broadcast_quiet w m st : Measures.quiet st (snd (Main.broadcast w m st)).
Proof.
  unfold Main.broadcast. rewrite broadcast_to_clients_raises. simpl.
  split; [reflexivity|]. exists [Wire.BroadcastCall m].
  split; [simpl; apply app_nil_r | reflexivity].
Qed.

Lemma aggregate_ticks_quiet w st : Measures.quiet st (snd (Main.aggregate_ticks w st)).
Proof.
  unfold Main.aggregate_ticks. destruct (_ <? _); [apply quiet_refl|].
  destruct (Main.aggregated_trades _ _) as [|e d] eqn:E.
  - apply quiet_same; reflexivity.
  - eapply quiet_trans; [|apply broadcast_quiet]. apply quiet_same; reflexivity.
Qed.

Lemma process_message_quiet w message st :
  Measures.quiet st (Main.process_message w message st).
Proof.
  assert (Hlog : forall text s, Measures.quiet s (Main.emit [Wire.LogError text] s))
    by (intros; apply quiet_emit; reflexivity).
  destruct message as [raw| |data]; simpl; try apply Hlog.
  destruct (String.eqb _ "market_depth").
  { unfold Main.process_market_depth.
    match goal with |- context [Main.broadcast w ?m st] =>
      pose proof (broadcast_quiet w m st) as Hb;
      destruct (Main.broadcast w m st) as [[|ex] s'] end; simpl in Hb; [exact Hb|].
    eapply quiet_trans; [exact Hb | apply Hlog]. }
  destruct (String.eqb _ "tick").
  { unfold Main.process_tick.
    match goal with |- context [Main.aggregate_ticks w ?s] =>
      pose proof (aggregate_ticks_quiet w s) as Hb;
      destruct (Main.aggregate_ticks w s) as [[|ex] s'] end; simpl in Hb.
    - eapply quiet_trans; [|exact Hb]. apply quiet_same; reflexivity.
    - eapply quiet_trans; [|apply Hlog].
      eapply quiet_trans; [|exact Hb]. apply quiet_same; reflexivity. }
  destruct (String.eqb _ "quote").
  { unfold Main.process_quote.
    match goal with |- context [Main.broadcast w ?m st] =>
      pose proof (broadcast_quiet w m st) as Hb;
      destruct (Main.broadcast w m st) as [[|ex] s'] end; simpl in Hb; [exact Hb|].
    eapply quiet_trans; [exact Hb | apply Hlog]. }
  destruct (String.eqb _ "error"); apply quiet_emit; reflexivity.
Qed.

Lemma subscribe_market_depth_quiet w st :
  Measures.quiet st (snd (Main.subscribe_market_depth w st)).
Proof.
  unfold Main.subscribe_market_depth.
  destruct (negb _); [apply quiet_refl|].
  pose proof (resolve_frame w (Main.current_symbol st) st) as (_ & Ht & Hc & _).
  destruct (Main.resolve w (Main.current_symbol st) st) as [i st1]. simpl in Ht, Hc.
  assert (Hq : Measures.quiet st st1) by (apply quiet_same; assumption).
  destruct i as [i|]; [|destruct (Py.get _ _) as [i|]];
    try destruct (Wire.upstream_accepts w); simpl; try exact Hq;
    (eapply quiet_trans; [exact Hq|]); apply quiet_emit; reflexivity.
Qed.

Lemma connect_try_quiet w st : Measures.quiet st (snd (Main.connect_try w st)).
Proof.
  unfold Main.connect_try. destruct (Wire.transport_opens w); [|apply quiet_refl].
  eapply quiet_trans; [|apply subscribe_market_depth_quiet].
  eapply quiet_trans; [|apply quiet_emit; reflexivity].
  apply quiet_same; reflexivity.
Qed.

Lemma handle_reconnect_quiet k rest st st' rest' :
  (forall s s' r, k s = Some (s', r) -> Measures.quiet s s') ->
  Main.handle_reconnect k rest st = Some (st', rest') ->
  Measures.quiet st st'.
Proof.
  intros Hk. unfold Main.handle_reconnect.
  destruct (_ <? _).
  - intros H. apply Hk in H. eapply quiet_trans; [|exact H].
    eapply quiet_trans; [|apply quiet_same; reflexivity].
    eapply quiet_trans; [|apply quiet_emit; reflexivity].
    apply quiet_same; reflexivity.
  - intros [= <- <-]. apply quiet_emit. reflexivity.
Qed.

Lemma connect_quiet script : forall st st' rest,
  Main.connect script st = Some (st', rest) -> Measures.quiet st st'.
Proof.
  induction script as [|w script IH]; intros st st' rest; simpl; [discriminate|].
  pose proof (connect_try_quiet w st) as Hq.
  destruct (Main.connect_try w st) as [[|ex] s1]; simpl in Hq.
  - intros [= <- <-]. exact Hq.
  - intros H. apply handle_reconnect_quiet in H; [|exact IH].
    eapply quiet_trans; [exact Hq|]. eapply quiet_trans; [|exact H].
    quiet_step.
Qed.

(** X16. Nothing that comes from the feed reaches a viewer: whatever is
    received, and through every reconnection, [listen] writes no frame to any
    session and registers or unregisters none, because each broadcast it
    starts raises before its first send. *)
Theorem feed_never_reaches_a_viewer :
  forall events script st st' rest,
    Main.listen events script st = Some (st', rest) ->
    Main.connected_clients st' = Main.connected_clients st
    /\ forall websocket,
         Obs.frames_to websocket (Main.trace st')
         = Obs.frames_to websocket (Main.trace st).
Proof.
  assert (H : forall events script st st' rest,
    Main.listen events script st = Some (st', rest) -> Measures.quiet st st').
  { induction events as [|ev events IH]; intros script st st' rest.
    - rewrite listen_nil. intros [= <- <-]. apply quiet_refl.
    - simpl. destruct (negb _); [intros [= <- <-]; apply quiet_refl|].
      destruct ev as [message w at_| |].
      + intros H. apply IH in H. eapply quiet_trans; [|exact H].
        eapply quiet_trans; [|apply process_message_quiet].
        apply quiet_same; reflexivity.
      + destruct (Main.handle_reconnect _ _ _) as [[s1 script1]|] eqn:E; [|discriminate].
        intros H. apply IH in H.
        apply handle_reconnect_quiet in E; [|intros s s' r; apply connect_quiet].
        eapply quiet_trans; [|exact H]. eapply quiet_trans; [|exact E].
        quiet_step.
      + intros H. apply IH in H. eapply quiet_trans; [|exact H].
        apply quiet_emit. reflexivity. }
  intros events script st st' rest Hl.
  destruct (H _ _ _ _ _ Hl) as [Hc (evs & Ht & Hf)].
  split; [exact Hc|]. intros ws. rewrite Ht, frames_to_app, Hf. apply app_nil_r.
Qed.

Lemma feed_never_reaches_a_viewer_witness :
  let w := Wire.World Symbols.offline true true (fun _ => true) (fun _ _ => false) in
  let st := Main.with_clients [1%nat] (Main.set_connected true (Main.initial 0)) in
  let depth := Main.Object
      (Main.Envelope (Some "market_depth") (Some "2885633") [(2500, 10)] [(2501, 7)]
         None None None None None None) in
  let tick := Main.Object
      (Main.Envelope (Some "tick") None [] [] (Some 2500) (Some 10) (Some "buy")
         None None None) in
  exists st',
    Main.listen [Main.Received depth w 50; Main.Received tick w 500] [] st = Some (st', [])
    /\ Obs.frames_to 1%nat (Main.trace st') = []
    /\ Main.connected_clients st' = [1%nat].
Proof.
  intros w st depth tick.
  eexists. split; [vm_compute; reflexivity|].
  match goal with |- Obs.frames_to _ (Main.trace ?s) = _ /\ _ => set (st' := s) end.
  destruct (feed_never_reaches_a_viewer
              [Main.Received depth w 50; Main.Received tick w 500] [] st st' [])
    as [Hc Hf]; [vm_compute; reflexivity|].
  split; [rewrite Hf; reflexivity | rewrite Hc; reflexivity].
Defined.

(** ** Connecting *)

Lemma get_symbol_info_unknown e now symbol m :
  Measures.unknown_everywhere e m symbol ->
  Symbols.get_symbol_info e now symbol m
  = (None, Symbols._log_unknown_symbol e (Py.upper symbol) m,
     [Symbols.MockLookup (Py.upper symbol); Symbols.DhanhqLookup (Py.upper symbol);
      Symbols.NseLookup (Py.upper symbol)]).
Proof.
  intros (Hm & Hk & Hd & Hn). unfold Symbols.get_symbol_info. rewrite Hm.
  unfold Symbols._fetch_symbol_from_api. rewrite Hk.
  unfold Symbols._fetch_symbol_alternative. rewrite Hd, Hn. reflexivity.
Qed.

(** An attempt whose transport opens, for a symbol of the default table. *)
Lemma connect_try_default w st :
  Wire.transport_opens w = true ->
  Py.get (Main.current_symbol st) Main.DEFAULT_SYMBOLS <> None ->
  exists st1,
    Main.connect_try w st
    = (if Wire.upstream_accepts w then Wire.Returned else Wire.Raised Wire.TransportError,
       st1)
    /\ Main.dhan_client st1
       = Main.Client true 0 (Main.max_reconnect_attempts (Main.dhan_client st))
    /\ Main.current_symbol st1 = Main.current_symbol st
    /\ Obs.sleeps (Main.trace st1) = Obs.sleeps (Main.trace st).
Proof.
  intros Hopen Hdef. unfold Main.connect_try. rewrite Hopen.
  unfold Main.subscribe_market_depth. simpl negb. cbv iota.
  match goal with |- context [Main.resolve w ?sym ?s] =>
    pose proof (resolve_frame w sym s) as (Hc & Ht & _ & Hs & _);
    destruct (Main.resolve w sym s) as [i st1] end.
  simpl in Hc, Ht, Hs.
  assert (Hsome : exists j,
            match i with
            | Some i0 => Some i0
            | None => Py.get (Main.current_symbol st1) Main.DEFAULT_SYMBOLS
            end = Some j).
  { destruct i as [i|]; [eauto|]. rewrite Hs.
    destruct (Py.get _ _) as [j|]; [eauto | congruence]. }
  destruct Hsome as [j ->].
  destruct (Wire.upstream_accepts w).
  - eexists. split; [reflexivity|]. simpl. rewrite Hc, Hs, Ht.
    repeat split. rewrite !sleeps_app. simpl. now rewrite !app_nil_r.
  - exists st1. split; [reflexivity|]. rewrite Hc, Hs, Ht.
    repeat split. rewrite sleeps_app. simpl. apply app_nil_r.
Qed.

(** X17. When the transport opens and the feed refuses the subscribe frame,
    [connect] does not give up after five attempts: the counter is back at 0
    each time, so every retry comes after 2 seconds, the backoff never
    grows, and the client connects at the first frame that is taken.  The
    statement is for runs of up to 100 refusals: the retries are nested
    calls, and a run is cut short by the recursion limit of the interpreter
    long before any count of attempts ends it. *)
Theorem refused_subscribe_restarts_the_backoff :
  forall ws good st,
    (List.length ws <= 100)%nat ->
    Forall Measures.refusing ws ->
    Wire.transport_opens good = true ->
    Wire.upstream_accepts good = true ->
    Py.get (Main.current_symbol st) Main.DEFAULT_SYMBOLS <> None ->
    0 < Main.max_reconnect_attempts (Main.dhan_client st) ->
    exists st',
      Main.connect (ws ++ [good]) st = Some (st', [])
      /\ Obs.sleeps (Main.trace st')
         = Obs.sleeps (Main.trace st) ++ repeat 2 (List.length ws)
      /\ Main.connected (Main.dhan_client st') = true
      /\ Main.reconnect_attempts (Main.dhan_client st') = 0.
Proof.
  intros ws good st _ Hws Hopen Hacc. revert st.
  induction Hws as [|w ws [Ho Hr] Hws IH]; intros st Hdef Hmax.
  - destruct (connect_try_default good st Hopen Hdef) as (st1 & E & Hc & _ & Hs).
    rewrite Hacc in E. simpl. rewrite E.
    exists st1. rewrite Hc, Hs, app_nil_r. auto.
  - destruct (connect_try_default w st Ho Hdef) as (st1 & E & Hc & Hsym & Hs).
    rewrite Hr in E. simpl app. simpl Main.connect. rewrite E.
    rewrite handle_reconnect_retries by (simpl; rewrite Hc; simpl; lia).
    match goal with |- context [Main.connect _ ?s] => set (st2 := s) end.
    destruct (IH st2) as (st' & Hconn & Hsl & Hcon & Hatt).
    + subst st2. simpl. rewrite Hsym. exact Hdef.
    + subst st2. simpl. rewrite Hc. simpl. exact Hmax.
    + exists st'. split; [exact Hconn|]. split; [|auto].
      rewrite Hsl. subst st2. cbn -[Z.mul Z.pow Z.min].
      rewrite Hc. cbn -[Z.mul].
      rewrite !sleeps_app, Hs. simpl. rewrite <- !app_assoc. reflexivity.
Qed.

Lemma refused_subscribe_restarts_the_backoff_witness :
  let no := Wire.World Symbols.offline true false (fun _ => true) (fun _ _ => false) in
  let yes := Wire.World Symbols.offline true true (fun _ => true) (fun _ _ => false) in
  exists st',
    Main.connect (repeat no 8 ++ [yes]) (Main.initial 0) = Some (st', [])
    /\ Obs.sleeps (Main.trace st') = [2; 2; 2; 2; 2; 2; 2; 2].
Proof.
  intros no yes.
  destruct (refused_subscribe_restarts_the_backoff (repeat no 8) yes (Main.initial 0))
    as (st' & Hc & Hs & _).
  - simpl. lia.
  - repeat constructor.
  - reflexivity.
  - reflexivity.
  - vm_compute. discriminate.
  - simpl. lia.
  - exists st'. split; [exact Hc | exact Hs].
Defined.

(** X18. A client can be connected and subscribed to nothing: when the
    transport opens and neither the symbol manager nor the default table
    knows the current symbol, [connect] logs "Unknown symbol" and returns
    with the client connected, the counter at 0 and no subscribe frame
    written, whether or not the feed would have taken one. *)
Theorem connect_without_subscription :
  forall w script st,
    Wire.transport_opens w = true ->
    Measures.unknown_everywhere (Wire.lookup_env w) (Main.symbol_manager st)
      (Main.current_symbol st) ->
    Py.get (Main.current_symbol st) Main.DEFAULT_SYMBOLS = None ->
    exists st',
      Main.connect (w :: script) st = Some (st', script)
      /\ Main.connected (Main.dhan_client st') = true
      /\ Main.reconnect_attempts (Main.dhan_client st') = 0
      /\ Obs.subscribes (Main.trace st') = Obs.subscribes (Main.trace st)
      /\ Main.trace st'
         = Main.trace st ++ [Wire.LogInfo "Connected to DhanHQ WebSocket";
                             Wire.LogError "Unknown symbol"].
Proof.
  intros w script st Hopen Hunk Hdef.
  assert (E : Main.connect_try w st
              = (Wire.Returned,
                 Main.emit [Wire.LogError "Unknown symbol"]
                   (Main.with_manager
                      (Symbols._log_unknown_symbol (Wire.lookup_env w)
                         (Py.upper (Main.current_symbol st)) (Main.symbol_manager st))
                      (Main.emit [Wire.LogInfo "Connected to DhanHQ WebSocket"]
                         (Main.set_attempts 0 (Main.set_connected true st)))))).
  { unfold Main.connect_try. rewrite Hopen.
    unfold Main.subscribe_market_depth, Main.resolve.
    cbn [Main.connected Main.dhan_client Main.emit Main.set_attempts Main.set_connected
         Main.with_client Main.clock Main.symbol_manager Main.current_symbol negb].
    rewrite (get_symbol_info_unknown _ _ _ _ Hunk).
    match goal with |- context [Py.get ?x Main.DEFAULT_SYMBOLS] =>
      change x with (Main.current_symbol st) end.
    rewrite Hdef. reflexivity. }
  cbn [Main.connect]. rewrite E.
  eexists. split; [reflexivity|].
  cbn [Main.emit Main.with_manager Main.set_attempts Main.set_connected Main.with_client
       Main.dhan_client Main.connected Main.reconnect_attempts Main.trace].
  repeat split.
  - rewrite !subscribes_app. simpl. now rewrite !app_nil_r.
  - rewrite <- app_assoc. reflexivity.
Qed.

Lemma connect_without_subscription_witness :
  let w := Wire.World Symbols.offline true false (fun _ => true) (fun _ _ => false) in
  let st := Main.with_symbol "NOSUCH" (Main.initial 0) in
  exists st',
    Main.connect [w] st = Some (st', [])
    /\ Main.connected (Main.dhan_client st') = true
    /\ Obs.subscribes (Main.trace st') = [].
Proof.
  intros w st.
  destruct (connect_without_subscription w [] st) as (st' & Hc & Hcon & _ & Hs & _).
  - reflexivity.
  - repeat split.
  - reflexivity.
  - exists st'. split; [exact Hc|]. split; [exact Hcon | exact Hs].
Defined.

(** ** More on viewer commands *)

(** X19. A [change_symbol] for a symbol that nothing knows changes nothing
    but the request log: the viewer gets [symbol_error], the active symbol
    and the feed subscription stay, and the symbol manager has logged the
    request as unknown. *)
Theorem failed_change_symbol_keeps_active_symbol :
  forall w websocket is_market_hours data s st,
    Wire.viewer_accepts w websocket = true ->
    Main.is_type data "change_symbol" = true ->
    Main.cmd_symbol data = Some (Wire.JString s) ->
    Measures.unknown_everywhere (Wire.lookup_env w) (Main.symbol_manager st) s ->
    Py.get s Main.DEFAULT_SYMBOLS = None ->
    exists st',
      Main.handle_command w websocket is_market_hours data st = (Wire.Returned, st')
      /\ Main.current_symbol st' = Main.current_symbol st
      /\ Main.dhan_client st' = Main.dhan_client st
      /\ Main.symbol_manager st'
         = Symbols._log_unknown_symbol (Wire.lookup_env w) (Py.upper s)
             (Main.symbol_manager st)
      /\ Obs.subscribes (Main.trace st') = Obs.subscribes (Main.trace st)
      /\ Obs.frames_to websocket (Main.trace st')
         = Obs.frames_to websocket (Main.trace st)
           ++ [Wire.SymbolError s
                 "Symbol not found. Please check the symbol name or try searching for it first."].
Proof.
  intros w websocket is_market_hours data s st Hacc Ht Hs Hunk Hdef.
  apply is_type_eq in Ht.
  unfold Main.handle_command, Main.is_type. rewrite Ht. simpl.
  unfold Main.change_symbol, Main.resolve. rewrite Hs. simpl Main.default. cbv iota.
  rewrite (get_symbol_info_unknown _ _ _ _ Hunk). rewrite Hdef.
  rewrite send_text_accepted by exact Hacc. simpl.
  eexists. split; [reflexivity|]. simpl.
  rewrite subscribes_app, frames_to_app. simpl.
  rewrite Nat.eqb_refl, app_nil_r. repeat split.
Qed.

Lemma failed_change_symbol_keeps_active_symbol_witness :
  let w := Wire.World Symbols.offline true true (fun _ => true) (fun _ _ => true) in
  let data :=
    Main.Command (Some (Wire.JString "change_symbol")) (Some (Wire.JString "nosuch"))
      None None None in
  exists st',
    Main.handle_command w 1%nat true data (Main.initial 0) = (Wire.Returned, st')
    /\ Main.current_symbol st' = "RELIANCE"
    /\ Symbols.symbol_requests (Main.symbol_manager st')
       = [Symbols.RequestRow "NOSUCH" "unknown"].
Proof.
  intros w data.
  destruct (failed_change_symbol_keeps_active_symbol w 1%nat true data "nosuch"
              (Main.initial 0)) as (st' & Hc & Hsym & _ & Hm & _).
  - reflexivity.
  - reflexivity.
  - reflexivity.
  - repeat split.
  - reflexivity.
  - exists st'. split; [exact Hc|]. split; [exact Hsym|]. rewrite Hm. reflexivity.
Defined.

(** X20. In live mode a [change_symbol] for a cached symbol is confirmed as
    "live" also while the feed client is disconnected: the active symbol is
    switched and [symbol_changed] is sent, but no subscribe frame is
    written. *)
Theorem live_switch_without_feed_subscribes_nothing :
  forall w websocket data s i st,
    Wire.viewer_accepts w websocket = true ->
    Main.is_type data "change_symbol" = true ->
    Main.cmd_symbol data = Some (Wire.JString s) ->
    Py.get (Py.upper s) (Symbols.symbols_cache (Main.symbol_manager st)) = Some i ->
    Main.connected (Main.dhan_client st) = false ->
    exists st',
      Main.handle_command w websocket true data st = (Wire.Returned, st')
      /\ Main.current_symbol st' = s
      /\ Main.trace st'
         = Main.trace st
           ++ [Wire.SendText websocket (Wire.SymbolChanged s (Some "dynamic") i "live")]
      /\ Obs.subscribes (Main.trace st') = Obs.subscribes (Main.trace st).
Proof.
  intros w websocket data s i st Hacc Ht Hs Hget Hcon.
  apply is_type_eq in Ht.
  unfold Main.handle_command, Main.is_type. rewrite Ht. simpl.
  unfold Main.change_symbol, Main.resolve, Symbols.get_symbol_info, Py.mem.
  rewrite Hs. simpl Main.default. cbv iota. rewrite Hget.
  unfold Main.switch_symbol, Main.subscribe_market_depth.
  cbn [Main.connected Main.dhan_client Main.with_symbol Main.with_manager].
  rewrite Hcon. simpl negb. cbv iota. cbn [Main.and_then].
  rewrite send_text_accepted by exact Hacc. cbn [Main.and_then].
  eexists. split; [reflexivity|]. simpl.
  rewrite subscribes_app. simpl. rewrite app_nil_r. repeat split.
Qed.

Lemma live_switch_without_feed_subscribes_nothing_witness :
  let w := Wire.World Symbols.offline true true (fun _ => true) (fun _ _ => true) in
  let tcs := Symbols.Info "2953217" "TCS" "" "" in
  let st := Main.with_manager (Symbols.Manager [("TCS", tcs)] [] []) (Main.initial 0) in
  let data :=
    Main.Command (Some (Wire.JString "change_symbol")) (Some (Wire.JString "tcs"))
      None None None in
  exists st',
    Main.handle_command w 1%nat true data st = (Wire.Returned, st')
    /\ Main.current_symbol st' = "tcs"
    /\ Obs.subscribes (Main.trace st') = [].
Proof.
  intros w tcs st data.
  destruct (live_switch_without_feed_subscribes_nothing w 1%nat data "tcs" tcs st)
    as (st' & Hc & Hsym & _ & Hsub); try reflexivity.
  exists st'. split; [exact Hc|]. split; [exact Hsym | exact Hsub].
Defined.

(** ** The life of a viewer session *)

Lemma send_text_clients w websocket m st :
  Main.connected_clients (snd (Main.send_text w websocket m st))
  = Main.connected_clients st.
Proof. unfold Main.send_text. destruct (Wire.viewer_accepts _ _); reflexivity. Qed.

Lemma send_historical_clients w websocket symbol timeframe st :
  Main.connected_clients (snd (Main.send_historical w websocket symbol timeframe st))
  = Main.connected_clients st.
Proof.
  unfold Main.send_historical. destruct (Wire.off_market_data _ _ _);
    [apply send_text_clients | reflexivity].
Qed.

Lemma and_then_clients r k cs :
  Main.connected_clients (snd r) = cs ->
  (forall st, Main.connected_clients st = cs ->
              Main.connected_clients (snd (k st)) = cs) ->
  Main.connected_clients (snd (Main.and_then r k)) = cs.
Proof. destruct r as [[|e] st]; simpl; auto. Qed.

Lemma switch_symbol_clients w websocket is_market_hours new_symbol source i st :
  Main.connected_clients
    (snd (Main.switch_symbol w websocket is_market_hours new_symbol source i st))
  = Main.connected_clients st.
Proof.
  unfold Main.switch_symbol. destruct is_market_hours; apply and_then_clients.
  - apply (subscribe_market_depth_quiet w (Main.with_symbol new_symbol st)).
  - intros s Hs. now rewrite send_text_clients.
  - apply (send_historical_clients w websocket new_symbol (Wire.JString "1min")
             (Main.with_symbol new_symbol st)).
  - intros s Hs. now rewrite send_text_clients.
Qed.

Lemma handle_command_clients w websocket is_market_hours data st :
  Main.connected_clients (snd (Main.handle_command w websocket is_market_hours data st))
  = Main.connected_clients st.
Proof.
  unfold Main.handle_command.
  destruct (Main.is_type data "ping"); [apply send_text_clients|].
  apply and_then_clients; [apply and_then_clients|].
  - destruct (Main.is_type data "change_symbol"); [|reflexivity].
    unfold Main.change_symbol.
    destruct (Main.default Wire.JNull (Main.cmd_symbol data)) as [| | | |s| |];
      try reflexivity.
    pose proof (resolve_frame w s st) as (_ & _ & Hc & _).
    destruct (Main.resolve w s st) as [i st1]. simpl in Hc. rewrite <- Hc.
    destruct i as [i|]; [apply switch_symbol_clients|].
    destruct (Py.get s Main.DEFAULT_SYMBOLS);
      [apply switch_symbol_clients | apply send_text_clients].
  - intros s Hs. destruct (Main.is_type data "change_timeframe"); [|exact Hs].
    unfold Main.change_timeframe. destruct (negb _); [|exact Hs].
    now rewrite send_historical_clients.
  - intros s Hs. destruct (Main.is_type data "search_symbols"); [|exact Hs].
    unfold Main.search_request.
    destruct (Main.call_search_symbols _ _ _); [exact Hs|].
    now rewrite send_text_clients.
Qed.

Lemma serve_until_gone websocket is_market_hours events : forall st,
  In Main.Gone events ->
  Main.connected_clients (Main.serve websocket is_market_hours events st)
  = filter (fun c => negb (Nat.eqb c websocket)) (Main.connected_clients st).
Proof.
  induction events as [|ev events IH]; intros st Hin; [destruct Hin|].
  destruct ev as [[| |data] w at_|]; simpl.
  - reflexivity.
  - reflexivity.
  - pose proof (handle_command_clients w websocket is_market_hours data
                  (Main.at_time at_ st)) as Hc.
    destruct (Main.handle_command _ _ _ _ _) as [[|e] st1]; simpl in Hc.
    + rewrite IH, Hc; [reflexivity|]. destruct Hin as [Hin|Hin]; [discriminate | exact Hin].
    + rewrite on_exception_clients, Hc. reflexivity.
  - reflexivity.
Qed.

Lemma filter_add_other websocket clients :
  filter (fun c => negb (Nat.eqb c websocket)) (Main.add websocket clients)
  = filter (fun c => negb (Nat.eqb c websocket)) clients.
Proof.
  unfold Main.add. destruct (existsb _ _); [reflexivity|].
  rewrite filter_app. simpl. rewrite Nat.eqb_refl. simpl. apply app_nil_r.
Qed.

(** X21. A session that ends is unregistered and takes no other session
    with it: when the viewer takes the first frame and later disconnects,
    [websocket_endpoint] leaves [connected_clients] as it found it, without
    the session, whatever commands came in between. *)
Theorem ended_session_is_unregistered :
  forall w websocket is_market_hours events st,
    Wire.viewer_accepts w websocket = true ->
    In Main.Gone events ->
    let st' := Main.websocket_endpoint w websocket is_market_hours events st in
    Main.connected_clients st'
    = filter (fun c => negb (Nat.eqb c websocket)) (Main.connected_clients st)
    /\ ~ In websocket (Main.connected_clients st').
Proof.
  intros w websocket is_market_hours events st Hacc Hin st'.
  assert (H : Main.connected_clients st'
              = filter (fun c => negb (Nat.eqb c websocket)) (Main.connected_clients st)).
  { subst st'. unfold Main.websocket_endpoint.
    rewrite send_text_accepted by exact Hacc.
    rewrite serve_until_gone by exact Hin.
    destruct is_market_hours; simpl.
    - apply filter_add_other.
    - match goal with |- context [Main.send_historical w websocket ?sym ?tf ?s] =>
        pose proof (send_historical_clients w websocket sym tf s) as Hc;
        destruct (Main.send_historical w websocket sym tf s) as [[|e] s1] end;
        simpl in *; rewrite Hc; apply filter_add_other. }
  split; [exact H|]. rewrite H. intros Hf. apply filter_In in Hf.
  destruct Hf as [_ Hf]. rewrite Nat.eqb_refl in Hf. discriminate.
Qed.

Lemma ended_session_is_unregistered_witness :
  let w := Wire.World Symbols.offline true true (fun _ => true) (fun _ _ => true) in
  let ping := Main.Command (Some (Wire.JString "ping")) None None None None in
  let st := Main.with_clients [4; 9]%nat (Main.initial 0) in
  Main.connected_clients
    (Main.websocket_endpoint w 7%nat true [Main.Text (Main.Dict ping) w 5; Main.Gone] st)
  = [4; 9]%nat.
Proof.
  intros w ping st.
  destruct (ended_session_is_unregistered w 7%nat true
              [Main.Text (Main.Dict ping) w 5; Main.Gone] st) as [H _].
  - reflexivity.
  - simpl. auto.
  - exact H.
Defined.

(** X22. A session whose first frame fails stays registered: the
    [market_status] send is outside the [try] of the endpoint, so when it
    raises no command is read, nothing is sent, and the session is left in
    [connected_clients]. *)
Theorem failed_first_send_leaves_session_registered :
  forall w websocket is_market_hours events st,
    Wire.viewer_accepts w websocket = false ->
    let st' := Main.websocket_endpoint w websocket is_market_hours events st in
    In websocket (Main.connected_clients st')
    /\ Main.trace st' = Main.trace st ++ [Wire.LogInfo "Client connected"]
    /\ Main.symbol_manager st' = Main.symbol_manager st
    /\ Main.current_symbol st' = Main.current_symbol st.
Proof.
  intros w websocket is_market_hours events st Hacc st'. subst st'.
  unfold Main.websocket_endpoint, Main.send_text. rewrite Hacc. simpl.
  repeat split. unfold Main.add.
  destruct (existsb _ _) eqn:E.
  - apply existsb_exists in E. destruct E as (c & Hin & Heq).
    apply Nat.eqb_eq in Heq. now subst.
  - apply in_or_app. right. now left.
Qed.

Lemma failed_first_send_leaves_session_registered_witness :
  let w := Wire.World Symbols.offline true true (fun _ => false) (fun _ _ => true) in
  In 7%nat
    (Main.connected_clients
       (Main.websocket_endpoint w 7%nat true [Main.Gone] (Main.initial 0))).
Proof.
  intros w.
  destruct (failed_first_send_leaves_session_registered w 7%nat true [Main.Gone]
              (Main.initial 0)) as [H _]; [reflexivity | exact H].
Defined.

(** ** HTTP routes *)

(** X23. [POST /symbols/request]: "exists" is answered exactly for a cached
    symbol, without touching anything; "added" means the symbol was not
    cached and now is, with the information returned; "pending" means that
    no source has it, the cache is as before and the request is logged.  A
    request answered "added" is answered "exists" when it is repeated. *)
Theorem request_symbol_statuses :
  forall w symbol st,
    let s := Py.upper symbol in
    let cache := Symbols.symbols_cache (Main.symbol_manager st) in
    let '(status, st', lookups) := Main.request_symbol w symbol st in
    match status with
    | Main.Exists_ => Py.mem s cache = true /\ st' = st /\ lookups = []
    | Main.Added i =>
        Py.mem s cache = false
        /\ Py.get s (Symbols.symbols_cache (Main.symbol_manager st')) = Some i
        /\ lookups <> []
        /\ forall w2, Main.request_symbol w2 symbol st' = (Main.Exists_, st', [])
    | Main.Pending =>
        Py.mem s cache = false
        /\ Symbols.symbols_cache (Main.symbol_manager st') = cache
        /\ Symbols.symbol_requests (Main.symbol_manager st')
           = Symbols.symbol_requests (Main.symbol_manager st)
             ++ (if Symbols.store_ok (Wire.lookup_env w)
                 then [Symbols.RequestRow s "unknown"] else [])
    end.
Proof.
  intros w symbol st s cache. subst s cache.
  unfold Main.request_symbol.
  destruct (Py.mem _ _) eqn:Hm; [auto|].
  pose proof (get_symbol_info_cases (Wire.lookup_env w) (Main.clock st)
                (Py.upper symbol) (Main.symbol_manager st)) as Hcases.
  rewrite upper_idem in Hcases. simpl in Hcases. rewrite Hm in Hcases.
  assert (Hadded : forall i (lk : list Symbols.lookup),
    lk <> [] ->
    let st' := Main.with_manager
                 (Symbols._cache_symbol (Wire.lookup_env w) (Main.clock st)
                    (Py.upper symbol) i (Main.symbol_manager st)) st in
    false = false
    /\ Py.get (Py.upper symbol) (Symbols.symbols_cache (Main.symbol_manager st')) = Some i
    /\ lk <> []
    /\ forall w2, Main.request_symbol w2 symbol st' = (Main.Exists_, st', [])).
  { intros i lk Hlk st'.
    assert (Hg : Py.get (Py.upper symbol)
                   (Symbols.symbols_cache (Main.symbol_manager st')) = Some i)
      by (subst st'; simpl; rewrite cache_symbol_cache; apply get_set_same).
    repeat split; auto.
    intros w2. unfold Main.request_symbol, Py.mem. now rewrite Hg. }
  destruct Hcases
    as [[Habs _]|[_ [(j & _ & E)|[_ [(j & _ & E)|[_ [(j & _ & E)|[_ E]]]]]]]];
    [discriminate| | | |]; rewrite E; try (apply Hadded; discriminate).
  split; [reflexivity|]. simpl. rewrite log_unknown_cache. split; [reflexivity|].
  unfold Symbols._log_unknown_symbol.
  destruct (Symbols.store_ok _); simpl; [reflexivity | symmetry; apply app_nil_r].
Qed.

(** X24. [GET /off-market/{symbol}] always answers 500: the 404 raised for
    missing data is caught by the handler that re-raises 500, and when the
    data exist the broadcast raises; no viewer receives anything. *)
Theorem off_market_route_always_fails :
  forall w symbol timeframe st,
    let r := Main.get_off_market_visualization w symbol timeframe st in
    fst r = Main.HttpError 500
    /\ Main.connected_clients (snd r) = Main.connected_clients st
    /\ forall websocket,
         Obs.frames_to websocket (Main.trace (snd r))
         = Obs.frames_to websocket (Main.trace st).
Proof.
  intros w symbol timeframe st r. subst r.
  unfold Main.get_off_market_visualization. simpl Wire.off_market_data.
  destruct (Wire.history_available _ _ _).
  - unfold Main.broadcast. rewrite broadcast_to_clients_raises. simpl.
    repeat split. intros ws. rewrite !frames_to_app. simpl. now rewrite !app_nil_r.
  - simpl. repeat split. intros ws. rewrite frames_to_app. simpl. apply app_nil_r.
Qed.

(** ** The historical simulator *)

Section HistoricalFacts.
Variable seventy_percent : Z -> Z.
Variable interpolate : Historical.candle -> Z -> Z -> Z.

(** X25. [generate_volume_profile] gives one entry per candle, in order,
    with the price at the close and the volume of the candle, split into a
    buy and a sell volume that add up to that volume whatever the rounding
    of the 70 percent share; a candle that closes where it opened is split in
    halves, the odd unit going to the sell side. *)
Theorem volume_profile_conserves_volume :
  forall candles,
    let profile := Historical.generate_volume_profile seventy_percent candles in
    map Historical.vp_volume profile = map Historical.volume candles
    /\ map Historical.vp_price profile = map Historical.close candles
    /\ Forall (fun p => Historical.vp_buy_volume p + Historical.vp_sell_volume p
                        = Historical.vp_volume p) profile
    /\ forall c, In c candles -> Historical.open c = Historical.close c ->
         let p := Historical.profile_of seventy_percent c in
         In p profile
         /\ Historical.vp_buy_volume p = Historical.volume c / 2
         /\ 0 <= Historical.vp_sell_volume p - Historical.vp_buy_volume p <= 1.
Proof.
  intros candles profile. subst profile. unfold Historical.generate_volume_profile.
  assert (Hone : forall c,
    let p := Historical.profile_of seventy_percent c in
    Historical.vp_volume p = Historical.volume c
    /\ Historical.vp_price p = Historical.close c
    /\ Historical.vp_buy_volume p + Historical.vp_sell_volume p = Historical.vp_volume p).
  { intros c. unfold Historical.profile_of.
    destruct (Historical.open c <? Historical.close c);
      [|destruct (Historical.close c <? Historical.open c)]; simpl; repeat split; lia. }
  split; [rewrite map_map; apply map_ext; intros c; apply Hone|].
  split; [rewrite map_map; apply map_ext; intros c; apply Hone|].
  split; [apply Forall_forall; intros p Hp; apply in_map_iff in Hp;
          destruct Hp as (c & <- & _); apply Hone|].
  intros c Hin Hflat. split; [apply in_map, Hin|].
  unfold Historical.profile_of. rewrite Hflat, Z.ltb_irrefl.
  cbn [Historical.vp_buy_volume Historical.vp_sell_volume].
  pose proof (Z.div_mod (Historical.volume c) 2 ltac:(lia)).
  pose proof (Z.mod_pos_bound (Historical.volume c) 2 ltac:(lia)).
  split; [reflexivity | lia].
Qed.

Lemma flow_quantity_constant (f : Z -> Historical.flow_tick) q l :
  (forall i, Historical.ft_quantity (f i) = q) ->
  Measures.flow_quantity (map f l) = Z.of_nat (List.length l) * q.
Proof.
  intros H. induction l as [|i l IH]; [reflexivity|].
  change (Measures.flow_quantity (map f (i :: l)))
    with (Historical.ft_quantity (f i) + Measures.flow_quantity (map f l)).
  change (List.length (i :: l)) with (S (List.length l)).
  rewrite IH, H, Nat2Z.inj_succ. lia.
Qed.

(** X26. [simulate_order_flow] makes, for each candle, one tick per hundred
    units of volume and never more than fifty, none for a volume below 100;
    every tick has a quantity of at least 1; and for a volume of 100 or more
    the quantities of the ticks of the candle add up to the volume less a
    remainder smaller than the number of ticks. *)
Theorem order_flow_is_bounded :
  (forall c,
      let ticks := Historical.candle_flow interpolate c in
      let n := Z.of_nat (List.length ticks) in
      n = Z.max 0 (Z.min (Historical.volume c / 100) 50)
      /\ n <= 50
      /\ (Historical.volume c < 100 -> ticks = [])
      /\ Forall (fun t => 1 <= Historical.ft_quantity t) ticks
      /\ (100 <= Historical.volume c ->
          1 <= n
          /\ Historical.volume c - n < Measures.flow_quantity ticks
             <= Historical.volume c))
  /\ (forall candles,
         let flow := Historical.simulate_order_flow interpolate candles in
         Z.of_nat (List.length flow) <= 50 * Z.of_nat (List.length candles)
         /\ Forall (fun t => 1 <= Historical.ft_quantity t) flow).
Proof.
  assert (Hone : forall c,
      let ticks := Historical.candle_flow interpolate c in
      let n := Z.of_nat (List.length ticks) in
      n = Z.max 0 (Z.min (Historical.volume c / 100) 50)
      /\ n <= 50
      /\ (Historical.volume c < 100 -> ticks = [])
      /\ Forall (fun t => 1 <= Historical.ft_quantity t) ticks
      /\ (100 <= Historical.volume c ->
          1 <= n
          /\ Historical.volume c - n < Measures.flow_quantity ticks
             <= Historical.volume c));
    [|split; [exact Hone|];
      intros candles flow; subst flow; unfold Historical.simulate_order_flow;
      induction candles as [|c candles [IHl IHq]]; simpl;
      [split; [lia | constructor]|];
      destruct (Hone c) as (_ & Hn & _ & Hq & _);
      split; [rewrite length_app; lia | apply Forall_app; auto]].
  intros c ticks n. subst ticks n. unfold Historical.candle_flow, Historical.range.
  rewrite !length_map, length_seq.
  set (v := Historical.volume c).
  set (k := Historical.ticks_per_candle c).
  assert (Hk : k = Z.min (v / 100) 50) by reflexivity.
  pose proof (Z.div_mod v 100 ltac:(lia)) as Hdm.
  pose proof (Z.mod_pos_bound v 100 ltac:(lia)) as Hmb.
  split; [lia|]. split; [lia|].
  split.
  { intros Hv. assert (k <= 0) by lia.
    replace (Z.to_nat k) with 0%nat by lia. reflexivity. }
  split.
  { apply Forall_forall. intros t Ht. apply in_map_iff in Ht.
    destruct Ht as (i & <- & _). unfold Historical.flow_tick_at. simpl. lia. }
  intros Hv. assert (Hk1 : 1 <= k) by lia. split; [lia|].
  rewrite (flow_quantity_constant (Historical.flow_tick_at interpolate c)
             (Z.max 1 (v / k))) by reflexivity.
  rewrite length_map, length_seq, Z2Nat.id by lia.
  pose proof (Z.div_mod v k ltac:(lia)) as Hd.
  pose proof (Z.mod_pos_bound v k ltac:(lia)) as Hm.
  assert (Hq : 1 <= v / k).
  { apply Z.div_le_lower_bound; lia. }
  rewrite Z.max_r by lia. nia.
Qed.
End HistoricalFacts.

Lemma volume_profile_conserves_volume_witness :
  let doji := Historical.Candle 2500 2510 2490 2500 1235 0 in
  let p := Historical.profile_of (fun v => 7 * v / 10) doji in
  Historical.vp_buy_volume p = 617 /\ Historical.vp_sell_volume p = 618.
Proof.
  intros doji p.
  destruct (volume_profile_conserves_volume (fun v => 7 * v / 10) [doji])
    as (_ & _ & _ & Hd).
  destruct (Hd doji) as (_ & Hb & _); [simpl; auto | reflexivity |].
  split; [exact Hb | vm_compute; reflexivity].
Defined.

Lemma order_flow_is_bounded_witness :
  let c := Historical.Candle 2500 2510 2490 2505 1234 0 in
  let ticks := Historical.candle_flow (fun _ _ _ => 2500) c in
  List.length ticks = 12%nat
  /\ Measures.flow_quantity ticks = 1224.
Proof.
  intros c ticks.
  destruct (order_flow_is_bounded (fun _ _ _ => 2500)) as [Hone _].
  destruct (Hone c) as (Hn & _ & _ & _ & Hsum).
  split; [vm_compute; reflexivity|].
  destruct Hsum as [_ Hs]; [simpl; lia|].
  vm_compute. reflexivity.
Defined.

(** ** The callbacks of main_v2.py *)

(** X27. In main_v2.py a depth update is never stored and no callback
    reaches a viewer: the broadcast raises first, so [handle_depth_update]
    inserts no [market_data] row even when Supabase is available, and the
    three callbacks write no frame to any session. *)
Theorem v2_callbacks_store_and_send_nothing :
  forall w data trade st websocket,
    snd (MainV2.handle_depth_update w data st) = []
    /\ Obs.frames_to websocket (MainV2.trace (fst (MainV2.handle_depth_update w data st)))
       = Obs.frames_to websocket (MainV2.trace st)
    /\ Obs.frames_to websocket (MainV2.trace (MainV2.handle_ticker_update w data st))
       = Obs.frames_to websocket (MainV2.trace st)
    /\ Obs.frames_to websocket
         (MainV2.trace (MainV2.handle_trade_update (MainV2.base w) trade st))
       = Obs.frames_to websocket (MainV2.trace st).
Proof.
  intros w data trade st websocket.
  unfold MainV2.handle_depth_update, MainV2.handle_ticker_update,
    MainV2.handle_trade_update, MainV2.aggregate_ticks, MainV2.broadcast.
  rewrite !broadcast_to_clients_raises. simpl.
  rewrite !frames_to_app. simpl. rewrite !app_nil_r.
  repeat split.
  destruct (_ <? _); [reflexivity|].
  destruct (MainV2.deque_append _ _); [reflexivity|].
  destruct (MainV2.aggregated_trades _ _); simpl; [reflexivity|].
  rewrite !frames_to_app. simpl. now rewrite !app_nil_r.
Qed.
